(** * The CenturyLink Cloud driver: asynchronous operation lifecycle

    A shallow embedding of [drivers/centurylinkcloud/centurylinkcloud.go].
    The driver talks to its surroundings (the provider's API through
    [clcgo.Client], the clock, the log, the terminal, the remote shell) and
    waits in loops that have no bound, so every driver method is an
    interaction tree over one event per outside call.  The outside world is an
    arbitrary deterministic environment: a function from the call and the
    calls made so far to the answer.  Running a method against an environment
    gives the value it returns and the list of calls it made, in order. *)

From Stdlib Require Import ZArith List String Ascii Bool.
From ITree Require Import ITree ITreeFacts Events.State Events.StateFacts.
From ITree Require Import Props.Leaf.
Import ListNotations.
Import ITreeNotations.
Local Open Scope string_scope.
Local Open Scope list_scope.
Local Open Scope itree_scope.

(** ** Values of the imported packages *)

(** Go's [error]: a [clcgo.RequestError], told apart by a type assertion, or
    any other error value, kept by its message ([errors.New], [fmt.Errorf],
    and the errors of the standard library). *)
Inductive error : Type :=
| RequestError (StatusCode : Z) (Errors : list (string * list string))
| errorString (s : string).

(** [s == ""] and [s != ""] on Go strings. *)
Definition isEmpty (s : string) : bool :=
  match s with EmptyString => true | String _ _ => false end.

Module clcgo.

Record APICredentials : Type := {
  BearerToken : string;
  AccountAlias : string
}.

Record Client : Type := { Credentials_of : APICredentials }.

(** [clcgo.NewClient()]: a client that holds no credentials yet. *)
Definition NewClient : Client :=
  {| Credentials_of := {| BearerToken := EmptyString; AccountAlias := EmptyString |} |}.

Record IPAddress : Type := { Public : string; Internal : string }.

Record ServerDetails : Type := {
  PowerState : string;
  IPAddresses : list IPAddress
}.

Record Server : Type := {
  ID : string;
  Name : string;
  GroupID : string;
  SourceServerID : string;
  CPU : Z;
  MemoryGB : Z;
  Type_ : string;
  Details : ServerDetails
}.

(** The zero value of [Server], as a composite literal leaves the fields it
    does not name. *)
Definition zeroDetails : ServerDetails :=
  {| PowerState := EmptyString; IPAddresses := [] |}.

Definition zeroServer : Server :=
  {| ID := EmptyString; Name := EmptyString; GroupID := EmptyString;
     SourceServerID := EmptyString; CPU := 0; MemoryGB := 0;
     Type_ := EmptyString; Details := zeroDetails |}.

Record Status : Type := { Status_of : string; URI : string }.

Inductive OperationType : Type := PowerOnServer | PowerOffServer | RebootServer.

Record ServerOperation : Type := {
  op_Server : Server;
  op_OperationType : OperationType
}.

Record Port : Type := { Protocol : string; Port_of : Z }.

Record PublicIPAddress : Type := { ip_Server : Server; Ports : list Port }.

Record Credentials : Type := { cr_Server : Server; Password : string }.

End clcgo.

Module state.
(** [state.State] of docker/machine, the four values the driver reports. *)
Inductive State : Type := Running | Paused | Stopped | Error.
End state.

Module ssh.
(** The [*exec.Cmd] that [ssh.GetSSHCommand] builds: it is determined by
    the arguments it was built from. *)
Record Cmd : Type := {
  host : string;
  port : Z;
  user : string;
  sshKey : string;
  args : list string
}.

Definition GetSSHCommand (h : string) (p : Z) (u k : string)
    (a : list string) : Cmd :=
  {| host := h; port := p; user := u; sshKey := k; args := a |}.
End ssh.

Module drivers.
(** [drivers.DriverOptions], the two methods the driver calls: the value of
    the option of a name, as a string or as an integer. *)
Record DriverOptions : Type := {
  String : string -> string;
  Int : string -> Z
}.
End drivers.

Module cli.
(** [cli.StringFlag] and [cli.IntFlag] with the fields the driver fills; a
    [StringFlag] built without [Value] has the empty string. *)
Inductive Flag : Type :=
| StringFlag (EnvVar Name Usage Value : string)
| IntFlag (EnvVar Name Usage : string) (Value : Z).

Definition Name_of (f : Flag) : string :=
  match f with
  | StringFlag _ n _ _ => n
  | IntFlag _ n _ _ => n
  end.
End cli.

(** The pure functions of the imported packages whose bodies are outside the
    driver's source: the predicates of [clcgo] on a status and on a server,
    and two functions of Go's standard library. *)
Class Imported : Type := {
  HasSucceeded : clcgo.Status -> bool;
  IsActive : clcgo.Server -> bool;
  IsPaused : clcgo.Server -> bool;
  filepath_Join : string -> string -> string;
  strings_TrimSpace : string -> string
}.

(** ** Calls to the outside *)

Inductive Level : Type := DebugLevel | InfoLevel | ErrorLevel.

(** An argument of a log format. *)
Inductive fmtArg : Type :=
| ArgS (s : string)
| ArgOp (t : clcgo.OperationType).

(** Every call the driver makes to the outside.  A Go call that takes a
    pointer and returns an error answers with the value left behind the
    pointer and the error ([None] is [nil]).  [Sleep] takes a
    [time.Duration], a number of nanoseconds. *)
Inductive Call : Type :=
(* clcgo.Client *)
| GetDataCenters (c : clcgo.Client)
| GetServer (c : clcgo.Client) (s : clcgo.Server)
| GetStatus (c : clcgo.Client) (st : clcgo.Status)
| GetCredentials (c : clcgo.Client) (cr : clcgo.Credentials)
| SaveServerOperation (c : clcgo.Client) (o : clcgo.ServerOperation)
| SaveServer (c : clcgo.Client) (s : clcgo.Server)
| SavePublicIPAddress (c : clcgo.Client) (a : clcgo.PublicIPAddress)
| DeleteServer (c : clcgo.Client) (s : clcgo.Server)
| GetAPICredentials (c : clcgo.Client) (username password : string)
(* time, log, fmt, bufio *)
| Sleep (d : Z)
| Logf (l : Level) (format : string) (a : list fmtArg)
| Printf (format : string)
| ReadString
(* ssh and x/crypto/ssh *)
| WaitForTCP (addr : string)
| Dial (network addr user password : string)
| NewSession
| GenerateSSHKey (path : string)
| ReadFile (path : string)
| SessionRun (cmd : string)
| ClientClose
(* os/exec *)
| CmdRun (cmd : ssh.Cmd).

(** What each call answers. *)
Definition Resp (c : Call) : Type :=
  match c with
  | GetDataCenters _ => option error
  | GetServer _ _ => clcgo.Server * option error
  | GetStatus _ _ => clcgo.Status * option error
  | GetCredentials _ _ => clcgo.Credentials * option error
  | SaveServerOperation _ _ => clcgo.Status * option error
  | SaveServer _ _ => clcgo.Server * (clcgo.Status * option error)
  | SavePublicIPAddress _ _ => clcgo.Status * option error
  | DeleteServer _ _ => clcgo.Status * option error
  | GetAPICredentials _ _ _ => clcgo.APICredentials * option error
  | Sleep _ => unit
  | Logf _ _ _ => unit
  | Printf _ => unit
  | ReadString => string * option error
  | WaitForTCP _ => option error
  | Dial _ _ _ _ => option error
  | NewSession => option error
  | GenerateSSHKey _ => option error
  | ReadFile _ => string * option error
  | SessionRun _ => option error
  | ClientClose => unit
  | CmdRun _ => option error
  end.

Variant driverE : Type -> Type :=
| Do (c : Call) : driverE (Resp c).

Definition call (c : Call) : itree driverE (Resp c) := ITree.trigger (Do c).

(** ** Running against an environment *)

Definition History : Type := list Call.

(** A deterministic outside world: the answer to a call, given the calls
    made before it. *)
Definition Env : Type := forall c : Call, History -> Resp c.

Definition handle (env : Env) : driverE ~> Monads.stateT History (itree void1) :=
  fun _ e h =>
    match e in driverE T return itree void1 (History * T) with
    | Do c => Ret (h ++ [c], env c h)
    end.

(** [runs env p h h' r]: started after the calls [h], the program [p]
    returns [r], and [h'] is [h] followed by the calls [p] made. *)
Definition runs (env : Env) {R : Type} (p : itree driverE R)
    (h h' : History) (r : R) : Prop :=
  interp_state (handle env) p h ≈ Ret (h', r).


(** ** The driver *)

Definition statusWaitSeconds : Z := 10.
Definition dockerConfigDir : string := "/etc/docker".
Definition passwordPrompt : string :=
  "Enter your CenturyLink Cloud password and press enter.
****** CAUTION: YOUR PASSWORD WILL BE VISIBLE! ******
> ".

(** [time.Second], in nanoseconds. *)
Definition time_Second : Z := 1000000000.

(** The double quote, for the shell commands that contain it. *)
Definition dquote : string := String (ascii_of_nat 34) EmptyString.

Record Driver : Type := {
  MachineName : string;
  CaCertPath : string;
  PrivateKeyPath : string;
  storePath : string;
  BearerToken : string;
  AccountAlias : string;
  ServerID : string;
  Username : string;
  ServerName : string;
  GroupID : string;
  SourceServerID : string;
  CPU : Z;
  MemoryGB : Z;
  Password : string
}.

(** [d.AccountAlias = ...; d.BearerToken = ...] *)
Definition setAPICredentials (d : Driver) (cr : clcgo.APICredentials) : Driver :=
  {| MachineName := MachineName d; CaCertPath := CaCertPath d;
     PrivateKeyPath := PrivateKeyPath d; storePath := storePath d;
     BearerToken := clcgo.BearerToken cr;
     AccountAlias := clcgo.AccountAlias cr;
     ServerID := ServerID d; Username := Username d;
     ServerName := ServerName d; GroupID := GroupID d;
     SourceServerID := SourceServerID d; CPU := CPU d;
     MemoryGB := MemoryGB d; Password := Password d |}.

(** [d.ServerID = ...] *)
Definition setServerID (d : Driver) (id : string) : Driver :=
  {| MachineName := MachineName d; CaCertPath := CaCertPath d;
     PrivateKeyPath := PrivateKeyPath d; storePath := storePath d;
     BearerToken := BearerToken d; AccountAlias := AccountAlias d;
     ServerID := id; Username := Username d;
     ServerName := ServerName d; GroupID := GroupID d;
     SourceServerID := SourceServerID d; CPU := CPU d;
     MemoryGB := MemoryGB d; Password := Password d |}.

(** [for _, a := range l { f a }] *)
Definition forEach {A : Type} (l : list A) (f : A -> itree driverE unit)
  : itree driverE unit :=
  fold_right (fun a k => f a;; k) (Ret tt) l.

(** [logAndReturnError]: the field messages of a [RequestError] are logged,
    in the order the [range] over its map visits them; the error comes back
    as it was. *)
Definition logAndReturnError (err : error) : itree driverE error :=
  match err with
  | RequestError _ errs =>
      forEach errs (fun fms =>
        forEach (snd fms) (fun m =>
          call (Logf ErrorLevel "%v: %v" [ArgS (fst fms); ArgS m])));;
      Ret err
  | errorString _ => Ret err
  end.

Definition publicIPFromServer (s : clcgo.Server) : string :=
  (fix range (addresses : list clcgo.IPAddress) : string :=
     match addresses with
     | [] => EmptyString
     | a :: rest =>
         if negb (isEmpty (clcgo.Public a)) then clcgo.Public a else range rest
     end) (clcgo.IPAddresses (clcgo.Details s)).

Section Driver.

Context {imported : Imported}.

Definition sshKeyPath (d : Driver) : string :=
  filepath_Join (storePath d) "id_rsa".

Definition updateAPICredentials (d : Driver) (c : clcgo.Client)
  : itree driverE (Driver * clcgo.Client * option error) :=
  let authenticate (password : string) :=
    '(cr, err) <- call (GetAPICredentials c (Username d) password);;
    let c' := {| clcgo.Credentials_of := cr |} in
    match err with
    | Some e => Ret (d, c', Some e)
    | None => Ret (setAPICredentials d cr, c', None)
    end in
  if negb (isEmpty (Password d)) then authenticate (Password d)
  else
    call (Printf passwordPrompt);;
    '(input, err) <- call ReadString;;
    match err with
    | Some e => Ret (d, c, Some e)
    | None => authenticate (strings_TrimSpace input)
    end.

(** The type assertion [err.(clcgo.RequestError)] followed by the test of
    the status code. *)
Definition isRequestError (code : Z) (err : error) : bool :=
  match err with
  | RequestError sc _ => Z.eqb sc code
  | errorString _ => false
  end.

(** Returns the client, or the error with the client returned beside it
    ([None] is [nil]). *)
Definition getClientWithPersistence (d : Driver)
  : itree driverE (Driver * (clcgo.Client + option clcgo.Client * error)) :=
  let c := clcgo.NewClient in
  if isEmpty (BearerToken d) || isEmpty (AccountAlias d) then
    '(d', c', err) <- updateAPICredentials d c;;
    match err with
    | Some e => Ret (d', inr (None, e))
    | None => Ret (d', inl c')
    end
  else
    let c := {| clcgo.Credentials_of :=
                  {| clcgo.BearerToken := BearerToken d;
                     clcgo.AccountAlias := AccountAlias d |} |} in
    err <- call (GetDataCenters c);;
    match err with
    | Some err =>
        if isRequestError 401 err then
          '(d', c', err') <- updateAPICredentials d c;;
          match err' with
          | Some e => Ret (d', inr (Some c', e))
          | None => Ret (d', inl c')
          end
        else Ret (d, inr (Some c, err))
    | None => Ret (d, inl c)
    end.

(** [clcgo.Server{ID: id}] *)
Definition serverWithID (id : string) : clcgo.Server :=
  {| clcgo.ID := id; clcgo.Name := clcgo.Name clcgo.zeroServer;
     clcgo.GroupID := clcgo.GroupID clcgo.zeroServer;
     clcgo.SourceServerID := clcgo.SourceServerID clcgo.zeroServer;
     clcgo.CPU := clcgo.CPU clcgo.zeroServer;
     clcgo.MemoryGB := clcgo.MemoryGB clcgo.zeroServer;
     clcgo.Type_ := clcgo.Type_ clcgo.zeroServer;
     clcgo.Details := clcgo.Details clcgo.zeroServer |}.

(** Returns the client and the server, or the server and the error. *)
Definition getServer (d : Driver)
  : itree driverE (Driver * (clcgo.Client * clcgo.Server + clcgo.Server * error)) :=
  let s := serverWithID (ServerID d) in
  '(d, rc) <- getClientWithPersistence d;;
  match rc with
  | inr (_, err) => Ret (d, inr (s, err))
  | inl c =>
      '(s, err) <- call (GetServer c s);;
      match err with
      | Some err =>
          if isRequestError 404 err then
            Ret (d, inr (s, errorString
                   ("unable to find a server with the ID '" ++ ServerID d ++ "'")%string))
          else Ret (d, inr (s, err))
      | None => Ret (d, inl (c, s))
      end
  end.

Definition doOperation (t : clcgo.OperationType) (d : Driver)
  : itree driverE (Driver * option error) :=
  '(d, r) <- getServer d;;
  match r with
  | inr (_, err) => Ret (d, Some err)
  | inl (c, s) =>
      call (Logf InfoLevel "Performing '%s' operation on '%s'..."
              [ArgOp t; ArgS (clcgo.ID s)]);;
      let o := {| clcgo.op_Server := s; clcgo.op_OperationType := t |} in
      '(st, err) <- call (SaveServerOperation c o);;
      match err with
      | Some _ => Ret (d, None)
      | None =>
          ITree.iter (fun st : clcgo.Status =>
            if negb (HasSucceeded st) then
              call (Sleep (time_Second * statusWaitSeconds));;
              '(st, err) <- call (GetStatus c st);;
              match err with
              | Some err => Ret (inr (d, Some err))
              | None =>
                  call (Logf DebugLevel "Operation status: %s"
                          [ArgS (clcgo.Status_of st)]);;
                  Ret (inl st)
              end
            else Ret (inr (d, None))) st
      end
  end.

Definition Start (d : Driver) : itree driverE (Driver * option error) :=
  '(d, err) <- doOperation clcgo.PowerOnServer d;;
  match err with
  | Some err => Ret (d, Some err)
  | None => Ret (d, None)
  end.

Definition Stop (d : Driver) : itree driverE (Driver * option error) :=
  '(d, err) <- doOperation clcgo.PowerOffServer d;;
  match err with
  | Some err => Ret (d, Some err)
  | None => Ret (d, None)
  end.

Definition Restart (d : Driver) : itree driverE (Driver * option error) :=
  '(d, err) <- doOperation clcgo.RebootServer d;;
  match err with
  | Some err => Ret (d, Some err)
  | None => Ret (d, None)
  end.

Definition Kill (d : Driver) : itree driverE (Driver * option error) :=
  '(d, err) <- doOperation clcgo.PowerOffServer d;;
  match err with
  | Some err => Ret (d, Some err)
  | None => Ret (d, None)
  end.

Definition Remove (d : Driver) : itree driverE (Driver * option error) :=
  '(d, r) <- getServer d;;
  match r with
  | inr (_, err) => Ret (d, Some err)
  | inl (c, s) =>
      '(st, err) <- call (DeleteServer c s);;
      match err with
      | Some err => Ret (d, Some err)
      | None =>
          ITree.iter (fun st : clcgo.Status =>
            if negb (HasSucceeded st) then
              call (Sleep (time_Second * statusWaitSeconds));;
              '(st, err) <- call (GetStatus c st);;
              match err with
              | Some err => Ret (inr (d, Some err))
              | None =>
                  call (Logf DebugLevel "Deletion status: %s"
                          [ArgS (clcgo.Status_of st)]);;
                  Ret (inl st)
              end
            else Ret (inr (d, None))) st
      end
  end.

(** Returns the address, or the error (beside it Go returns the empty
    string). *)
Definition GetIP (d : Driver) : itree driverE (Driver * (string + error)) :=
  '(d, r) <- getServer d;;
  match r with
  | inr (_, err) => Ret (d, inr err)
  | inl (_, s) =>
      let address := publicIPFromServer s in
      if negb (isEmpty address) then Ret (d, inl address)
      else Ret (d, inr (errorString "no IP could be found for this server"))
  end.

Definition GetURL (d : Driver) : itree driverE (Driver * (string + error)) :=
  '(d, r) <- GetIP d;;
  match r with
  | inr err => Ret (d, inr err)
  | inl ip => Ret (d, inl ("tcp://" ++ ip ++ ":2376")%string)
  end.

Definition GetState (d : Driver)
  : itree driverE (Driver * (state.State * option error)) :=
  '(d, r) <- getServer d;;
  match r with
  | inr (_, err) => Ret (d, (state.Error, Some err))
  | inl (_, s) =>
      if IsActive s then Ret (d, (state.Running, None))
      else if IsPaused s then Ret (d, (state.Paused, None))
      else Ret (d, (state.Stopped, None))
  end.

Definition GetSSHCommand (d : Driver) (args : list string)
  : itree driverE (Driver * (ssh.Cmd + error)) :=
  '(d, r) <- GetIP d;;
  match r with
  | inr err => Ret (d, inr err)
  | inl ip => Ret (d, inl (ssh.GetSSHCommand ip 22 "root" (sshKeyPath d) args))
  end.

Definition GetDockerConfigDir (d : Driver) : string := dockerConfigDir.

Definition Upgrade (d : Driver) : itree driverE (Driver * option error) :=
  call (Logf DebugLevel "Upgrading Docker" []);;
  '(d, r) <- GetSSHCommand d
     ["sudo apt-get update && apt-get install --upgrade lxc-docker"];;
  match r with
  | inr err => Ret (d, Some err)
  | inl cmd =>
      err <- call (CmdRun cmd);;
      match err with
      | Some err => Ret (d, Some err)
      | None =>
          err <- call (CmdRun cmd);;
          Ret (d, err)
      end
  end.

Definition createServer (d : Driver) (c : clcgo.Client)
  : itree driverE (Driver * (clcgo.Server * option error)) :=
  call (Logf InfoLevel "Creating server..." []);;
  let s := {| clcgo.ID := clcgo.ID clcgo.zeroServer;
              clcgo.Name := ServerName d;
              clcgo.GroupID := GroupID d;
              clcgo.SourceServerID := SourceServerID d;
              clcgo.CPU := CPU d;
              clcgo.MemoryGB := MemoryGB d;
              clcgo.Type_ := "standard";
              clcgo.Details := clcgo.Details clcgo.zeroServer |} in
  '(s, (st, err)) <- call (SaveServer c s);;
  match err with
  | Some err => err <- logAndReturnError err;; Ret (d, (s, Some err))
  | None =>
      r <- ITree.iter (fun st : clcgo.Status =>
             if negb (HasSucceeded st) then
               call (Sleep (time_Second * statusWaitSeconds));;
               call (Logf DebugLevel "Checking status..." []);;
               '(st, err) <- call (GetStatus c st);;
               match err with
               | Some err => Ret (inr (Some err))
               | None => Ret (inl st)
               end
             else Ret (inr None)) st;;
      match r with
      | Some err => Ret (d, (s, Some err))
      | None =>
          '(s, err) <- call (GetServer c s);;
          match err with
          | Some err => Ret (d, (s, Some err))
          | None =>
              let d := setServerID d (clcgo.ID s) in
              call (Logf InfoLevel "Server '%s' is provisioned"
                      [ArgS (clcgo.Name s)]);;
              Ret (d, (s, None))
          end
      end
  end.

(** The receiver is a value and the server a pointer: the server comes back
    as the method left it. *)
Definition addPublicIPAddress (d : Driver) (c : clcgo.Client) (s : clcgo.Server)
  : itree driverE (clcgo.Server * option error) :=
  call (Logf InfoLevel "Adding public IP address..." []);;
  let ports := [ {| clcgo.Protocol := "TCP"; clcgo.Port_of := 22 |};
                 {| clcgo.Protocol := "TCP"; clcgo.Port_of := 2376 |} ] in
  let a := {| clcgo.ip_Server := s; clcgo.Ports := ports |} in
  '(st, err) <- call (SavePublicIPAddress c a);;
  match err with
  | Some err => err <- logAndReturnError err;; Ret (s, Some err)
  | None =>
      r <- ITree.iter (fun st : clcgo.Status =>
             if negb (HasSucceeded st) then
               call (Sleep (time_Second * statusWaitSeconds));;
               call (Logf DebugLevel "Checking status..." []);;
               '(st, err) <- call (GetStatus c st);;
               match err with
               | Some err => Ret (inr (Some err))
               | None => Ret (inl st)
               end
             else Ret (inr None)) st;;
      match r with
      | Some err => Ret (s, Some err)
      | None =>
          '(s, err) <- call (GetServer c s);;
          match err with
          | Some err => Ret (s, Some err)
          | None =>
              let ip := publicIPFromServer s in
              if isEmpty ip then
                Ret (s, Some (errorString
                       "could not find an IP Address for the server"))
              else
                call (Logf InfoLevel "IP Address '%s' has been provisioned"
                        [ArgS ip]);;
                Ret (s, None)
          end
      end
  end.

Definition generateAndWriteSSHKey (d : Driver) (c : clcgo.Client)
    (s : clcgo.Server) : itree driverE (option error) :=
  let cr := {| clcgo.cr_Server := s; clcgo.Password := EmptyString |} in
  '(cr, err) <- call (GetCredentials c cr);;
  match err with
  | Some err => Ret (Some err)
  | None =>
      call (Logf InfoLevel "Waiting for SSH..." []);;
      let ip := publicIPFromServer s in
      let sshAddress := (ip ++ ":" ++ "22")%string in
      err <- call (WaitForTCP sshAddress);;
      match err with
      | Some err => Ret (Some err)
      | None =>
          call (Logf DebugLevel "Logging in using root password..." []);;
          err <- call (Dial "tcp" sshAddress "root" (clcgo.Password cr));;
          match err with
          | Some err => Ret (Some err)
          | None =>
              (* defer client.Close() *)
              r <- (err <- call NewSession;;
                    match err with
                    | Some err => Ret (Some err)
                    | None =>
                        err <- call (GenerateSSHKey (sshKeyPath d));;
                        match err with
                        | Some err => Ret (Some err)
                        | None =>
                            let publicSSHKeyPath := (sshKeyPath d ++ ".pub")%string in
                            '(pk, err) <- call (ReadFile publicSSHKeyPath);;
                            match err with
                            | Some err => Ret (Some err)
                            | None =>
                                call (Logf DebugLevel
                                        "Adding public key to authorized_keys..." []);;
                                err <- call (SessionRun
                                         ("echo " ++ dquote ++ pk ++ dquote
                                          ++ " >> ~/.ssh/authorized_keys")%string);;
                                match err with
                                | Some err => Ret (Some err)
                                | None => Ret None
                                end
                            end
                        end
                    end);;
              call ClientClose;;
              Ret r
          end
      end
  end.

Definition installDocker (d : Driver) : itree driverE (Driver * option error) :=
  call (Logf DebugLevel "Installing Docker..." []);;
  '(d, r) <- GetSSHCommand d
     ["if [ ! -e /usr/bin/docker ]; then curl -sL https://get.docker.com | sh -; fi"];;
  match r with
  | inr err => Ret (d, Some err)
  | inl cmd =>
      err <- call (CmdRun cmd);;
      match err with
      | Some err => Ret (d, Some err)
      | None => Ret (d, None)
      end
  end.

Definition setHostname (d : Driver) : itree driverE (Driver * option error) :=
  call (Logf DebugLevel "Setting hostname: %s" [ArgS (MachineName d)]);;
  '(d, r) <- GetSSHCommand d
     [("echo " ++ dquote ++ "127.0.0.1 " ++ MachineName d ++ dquote
       ++ " | sudo tee -a /etc/hosts && sudo hostname " ++ MachineName d
       ++ " && echo " ++ dquote ++ MachineName d ++ dquote
       ++ " | sudo tee /etc/hostname")%string];;
  match r with
  | inr err => Ret (d, Some err)
  | inl cmd =>
      err <- call (CmdRun cmd);;
      match err with
      | Some err => Ret (d, Some err)
      | None => Ret (d, None)
      end
  end.

Definition Create (d : Driver) : itree driverE (Driver * option error) :=
  '(d, rc) <- getClientWithPersistence d;;
  match rc with
  | inr (_, err) => Ret (d, Some err)
  | inl c =>
      '(d, (s, err)) <- createServer d c;;
      match err with
      | Some err => Ret (d, Some err)
      | None =>
          '(s, err) <- addPublicIPAddress d c s;;
          match err with
          | Some err => Ret (d, Some err)
          | None =>
              err <- generateAndWriteSSHKey d c s;;
              match err with
              | Some err => Ret (d, Some err)
              | None =>
                  '(d, err) <- setHostname d;;
                  match err with
                  | Some err => Ret (d, Some err)
                  | None =>
                      '(d, err) <- installDocker d;;
                      match err with
                      | Some err => Ret (d, Some err)
                      | None => Ret (d, None)
                      end
                  end
              end
          end
      end
  end.

(** [log.Debug] of one string is modelled as [log.Debugf] of that string
    with no argument. *)
Definition StartDocker (d : Driver) : itree driverE (Driver * option error) :=
  call (Logf DebugLevel "Starting Docker..." []);;
  '(d, r) <- GetSSHCommand d ["sudo service docker start"];;
  match r with
  | inr err => Ret (d, Some err)
  | inl cmd =>
      err <- call (CmdRun cmd);;
      match err with
      | Some err => Ret (d, Some err)
      | None => Ret (d, None)
      end
  end.

Definition StopDocker (d : Driver) : itree driverE (Driver * option error) :=
  call (Logf DebugLevel "Stopping Docker..." []);;
  '(d, r) <- GetSSHCommand d ["sudo service docker stop"];;
  match r with
  | inr err => Ret (d, Some err)
  | inl cmd =>
      err <- call (CmdRun cmd);;
      match err with
      | Some err => Ret (d, Some err)
      | None => Ret (d, None)
      end
  end.

End Driver.

(** ** Construction and configuration *)

Definition NewDriver (machineName storePath caCert privateKey : string)
  : Driver * option error :=
  ({| MachineName := machineName; CaCertPath := caCert;
      PrivateKeyPath := privateKey; storePath := storePath;
      BearerToken := EmptyString; AccountAlias := EmptyString;
      ServerID := EmptyString; Username := EmptyString;
      ServerName := EmptyString; GroupID := EmptyString;
      SourceServerID := EmptyString; CPU := 0; MemoryGB := 0;
      Password := EmptyString |}, None).

Definition DriverName (d : Driver) : string := "centurylinkcloud".

Definition PreCreateCheck (d : Driver) : option error := None.

Definition SetConfigFromFlags (d : Driver) (flags : drivers.DriverOptions)
  : Driver * option error :=
  let d :=
    {| MachineName := MachineName d; CaCertPath := CaCertPath d;
       PrivateKeyPath := PrivateKeyPath d; storePath := storePath d;
       BearerToken := BearerToken d; AccountAlias := AccountAlias d;
       ServerID := ServerID d;
       Username := drivers.String flags "centurylinkcloud-username";
       ServerName := drivers.String flags "centurylinkcloud-server-name";
       GroupID := drivers.String flags "centurylinkcloud-group-id";
       SourceServerID :=
         drivers.String flags "centurylinkcloud-source-server-id";
       CPU := drivers.Int flags "centurylinkcloud-cpu";
       MemoryGB := drivers.Int flags "centurylinkcloud-memory-gb";
       Password := drivers.String flags "centurylinkcloud-password" |} in
  if isEmpty (Username d) then
    (d, Some (errorString
       "centurylinkcloud driver requires the --centurylinkcloud-username option"))
  else if isEmpty (ServerName d) then
    (d, Some (errorString
       "centurylinkcloud driver requires the --centurylinkcloud-server-name option"))
  else if isEmpty (GroupID d) then
    (d, Some (errorString
       "centurylinkcloud driver requires the --centurylinkcloud-group-id option"))
  else (d, None).

Definition getCreateFlags : list cli.Flag :=
  [ cli.StringFlag "CENTURYLINKCLOUD_USERNAME" "centurylinkcloud-username"
      "CenturyLink Cloud Username" EmptyString;
    cli.StringFlag "CENTURYLINKCLOUD_PASSWORD" "centurylinkcloud-password"
      "CenturyLink Cloud Password" EmptyString;
    cli.StringFlag "CENTURYLINKCLOUD_SERVER_NAME" "centurylinkcloud-server-name"
      "CenturyLink Cloud Server Name" EmptyString;
    cli.StringFlag "CENTURYLINKCLOUD_GROUP_ID" "centurylinkcloud-group-id"
      "CenturyLink Cloud Group ID" EmptyString;
    cli.StringFlag "CENTURYLINKCLOUD_SOURCE_SERVER_ID"
      "centurylinkcloud-source-server-id"
      "CenturyLink Cloud Source Server ID" "UBUNTU-14-64-TEMPLATE";
    cli.IntFlag "CENTURYLINKCLOUD_CPU" "centurylinkcloud-cpu"
      "CenturyLink Cloud CPU Count" 1;
    cli.IntFlag "CENTURYLINKCLOUD_MEMORYGB" "centurylinkcloud-memory-gb"
      "CenturyLink Cloud Memory GB" 2 ].

(** An address with no public part: a private address. *)
Definition noPublic (a : clcgo.IPAddress) : Prop :=
  clcgo.Public a = EmptyString.

(** The status of an operation that has yet to succeed. *)
Definition notSucceeded {imported : Imported} (st : clcgo.Status) : Prop :=
  HasSucceeded st = false.

(** ** Reading a history *)

Definition isGetStatus (c : Call) : bool :=
  match c with GetStatus _ _ => true | _ => false end.

Definition isSleep (c : Call) : bool :=
  match c with Sleep _ => true | _ => false end.

Definition isCmdRun (c : Call) : bool :=
  match c with CmdRun _ => true | _ => false end.

(** How many status fetches a history holds. *)
Definition countStatus (h : History) : nat := List.length (filter isGetStatus h).

Definition countSleep (h : History) : nat := List.length (filter isSleep h).

Definition countCmdRun (h : History) : nat := List.length (filter isCmdRun h).

(** The provider answers the status fetches made after [h0] from [script],
    one entry a fetch, in order. *)
Definition answersStatus (env : Env) (h0 : History)
    (script : list (clcgo.Status * option error)) : Prop :=
  forall (h : History) (c : clcgo.Client) (st : clcgo.Status)
         (r : clcgo.Status * option error),
    nth_error script (countStatus h) = Some r ->
    env (GetStatus c st) (h0 ++ h) = r.

(** A fetch that answers with a status and no error. *)
Definition reported (st : clcgo.Status) : clcgo.Status * option error :=
  (st, None).

(** The calls of the turns of a wait loop: [round st st'] are the calls of
    the turn that starts with the status [st] and fetches [st']. *)
Fixpoint pollTrace (round : clcgo.Status -> clcgo.Status -> list Call)
    (st : clcgo.Status) (sts : list clcgo.Status) : list Call :=
  match sts with
  | [] => []
  | st' :: rest => round st st' ++ pollTrace round st' rest
  end.

(** The wait before every status fetch: ten seconds. *)
Definition statusWait : Call := Sleep (time_Second * statusWaitSeconds).

(** A turn of the loops of [doOperation] (message "Operation status: %s")
    and of [Remove] (message "Deletion status: %s"). *)
Definition trackedRound (msg : string) (c : clcgo.Client)
    (st st' : clcgo.Status) : list Call :=
  [statusWait; GetStatus c st;
   Logf DebugLevel msg [ArgS (clcgo.Status_of st')]].

(** A turn of the loops of [createServer] and of [addPublicIPAddress]. *)
Definition checkedRound (c : clcgo.Client) (st st' : clcgo.Status)
  : list Call :=
  [statusWait; Logf DebugLevel "Checking status..." []; GetStatus c st].

(** The two calls of [doOperation] that submit the operation [t] on the
    server [s]: the line logged and the [SaveEntity]. *)
Definition operationLog (t : clcgo.OperationType) (s : clcgo.Server) : Call :=
  Logf InfoLevel "Performing '%s' operation on '%s'..."
    [ArgOp t; ArgS (clcgo.ID s)].

Definition operationSave (c : clcgo.Client) (s : clcgo.Server)
    (t : clcgo.OperationType) : Call :=
  SaveServerOperation c {| clcgo.op_Server := s; clcgo.op_OperationType := t |}.

(** The server [createServer] asks the provider to create. *)
Definition requestedServer (d : Driver) : clcgo.Server :=
  {| clcgo.ID := clcgo.ID clcgo.zeroServer;
     clcgo.Name := ServerName d;
     clcgo.GroupID := GroupID d;
     clcgo.SourceServerID := SourceServerID d;
     clcgo.CPU := CPU d;
     clcgo.MemoryGB := MemoryGB d;
     clcgo.Type_ := "standard";
     clcgo.Details := clcgo.Details clcgo.zeroServer |}.

(** The first two calls of [createServer] and of [addPublicIPAddress]. *)
Definition creationLog : Call := Logf InfoLevel "Creating server..." [].

Definition attachLog : Call := Logf InfoLevel "Adding public IP address..." [].

Definition attachSave (c : clcgo.Client) (s : clcgo.Server) : Call :=
  SavePublicIPAddress c
    {| clcgo.ip_Server := s;
       clcgo.Ports := [ {| clcgo.Protocol := "TCP"; clcgo.Port_of := 22 |};
                        {| clcgo.Protocol := "TCP"; clcgo.Port_of := 2376 |} ] |}.

(** The calls of a turn of [createServer] and [addPublicIPAddress] whose
    status fetch fails. *)
Definition checkedFailure (c : clcgo.Client) (st : clcgo.Status) : list Call :=
  [statusWait; Logf DebugLevel "Checking status..." []; GetStatus c st].

(** The calls by which the steps of [Create] that follow the attaching of
    the address act: the fetch of the credentials, the ssh connection and
    the key of [generateAndWriteSSHKey], the commands of [setHostname] and
    of [installDocker], and the lines these three log.  Each of the three
    starts with such a call. *)
Definition afterAttach (c : Call) : bool :=
  match c with
  | GetCredentials _ _ | WaitForTCP _ | Dial _ _ _ _ | NewSession
  | GenerateSSHKey _ | ReadFile _ | SessionRun _ | ClientClose
  | CmdRun _ => true
  | Logf _ format _ =>
      existsb (String.eqb format)
        ["Waiting for SSH..."; "Logging in using root password...";
         "Adding public key to authorized_keys..."; "Setting hostname: %s";
         "Installing Docker..."]
  | _ => false
  end.

Definition beforeTrust (c : Call) : Prop := afterAttach c = false.

Definition anyCall (c : Call) : Prop := True.

(** The history [h'] is [h] followed by calls of which the first is one
    of the steps after the attaching of the address. *)
Definition startsAfterAttach (h h' : History) : Prop :=
  exists x tr, h' = h ++ x :: tr /\ afterAttach x = true.

(** Every call that a run of [p] makes satisfies [P]. *)
Definition makesOnly (env : Env) (P : Call -> Prop) {R : Type}
    (p : itree driverE R) : Prop :=
  forall (h h' : History) (r : R),
    runs env p h h' r -> exists tr, h' = h ++ tr /\ Forall P tr.

(** The lines [logAndReturnError] logs for an error. *)
Definition errorLines (err : error) : list Call :=
  match err with
  | RequestError _ errs =>
      flat_map (fun fms =>
        List.map (fun m => Logf ErrorLevel "%v: %v" [ArgS (fst fms); ArgS m])
          (snd fms)) errs
  | errorString _ => []
  end.

(** In a list of calls, every status fetch comes right after the wait. *)
Definition fetchesDelayed (tr : list Call) : Prop :=
  forall pre x post,
    tr = pre ++ x :: post -> isGetStatus x = true ->
    exists pre', pre = pre' ++ [Sleep 10000000000].

(** The status a wait loop holds after fetching [sts] in turn. *)
Definition lastStatus (st : clcgo.Status) (sts : list clcgo.Status)
  : clcgo.Status := last sts st.

(** ** A scripted environment and sample values *)

(** A provider and a machine that answer from a table: one answer per kind
    of call, and a list of answers, taken in order, for the status fetches
    and for the runs of a command. *)
Record Script : Type := {
  on_GetDataCenters : option error;
  on_GetAPICredentials : clcgo.APICredentials * option error;
  on_ReadString : string * option error;
  on_GetServer : clcgo.Server * option error;
  on_GetCredentials : clcgo.Credentials * option error;
  on_Save : clcgo.Status * option error;
  on_SavePublicIPAddress : clcgo.Status * option error;
  on_GetStatus : list (clcgo.Status * option error);
  on_ssh : option error;
  on_CmdRun : list (option error)
}.

Definition scripted (s : Script) : Env :=
  fun c h =>
    match c as c0 return Resp c0 with
    | GetDataCenters _ => on_GetDataCenters s
    | GetServer _ _ => on_GetServer s
    | GetStatus _ st =>
        nth (countStatus h) (on_GetStatus s) (st, Some (errorString "EOF"))
    | GetCredentials _ _ => on_GetCredentials s
    | SaveServerOperation _ _ => on_Save s
    | SaveServer _ sv => (sv, on_Save s)
    | SavePublicIPAddress _ _ => on_SavePublicIPAddress s
    | DeleteServer _ _ => on_Save s
    | GetAPICredentials _ _ _ => on_GetAPICredentials s
    | Sleep _ => tt
    | Logf _ _ _ => tt
    | Printf _ => tt
    | ReadString => on_ReadString s
    | WaitForTCP _ => on_ssh s
    | Dial _ _ _ _ => on_ssh s
    | NewSession => on_ssh s
    | GenerateSSHKey _ => on_ssh s
    | ReadFile _ => ("ssh-rsa AAAA", on_ssh s)
    | SessionRun _ => on_ssh s
    | ClientClose => tt
    | CmdRun _ => nth (countCmdRun h) (on_CmdRun s) None
    end.

(** One reading of the imported functions, for the sample runs. *)
Definition sampleImported : Imported :=
  {| HasSucceeded := fun st => String.eqb (clcgo.Status_of st) "succeeded";
     IsActive := fun s =>
       String.eqb (clcgo.PowerState (clcgo.Details s)) "started";
     IsPaused := fun s =>
       String.eqb (clcgo.PowerState (clcgo.Details s)) "paused";
     filepath_Join := fun a b => (a ++ "/" ++ b)%string;
     strings_TrimSpace := fun s => s |}.

Definition sampleDriver : Driver :=
  {| MachineName := "demo"; CaCertPath := "ca.pem";
     PrivateKeyPath := "key.pem"; storePath := "/store/demo";
     BearerToken := "stale"; AccountAlias := "ACCT";
     ServerID := "ca1acctdemo01"; Username := "user";
     ServerName := "demo"; GroupID := "g1";
     SourceServerID := "UBUNTU-14-64-TEMPLATE"; CPU := 1; MemoryGB := 2;
     Password := "secret" |}.

Definition sampleClient : clcgo.Client :=
  {| clcgo.Credentials_of :=
       {| clcgo.BearerToken := "stale"; clcgo.AccountAlias := "ACCT" |} |}.

Definition freshCredentials : clcgo.APICredentials :=
  {| clcgo.BearerToken := "fresh"; clcgo.AccountAlias := "ACCT" |}.

Definition sampleServer (power : string) (addresses : list clcgo.IPAddress)
  : clcgo.Server :=
  {| clcgo.ID := "ca1acctdemo01"; clcgo.Name := "demo";
     clcgo.GroupID := "g1"; clcgo.SourceServerID := "UBUNTU-14-64-TEMPLATE";
     clcgo.CPU := 1; clcgo.MemoryGB := 2; clcgo.Type_ := "standard";
     clcgo.Details := {| clcgo.PowerState := power;
                         clcgo.IPAddresses := addresses |} |}.

Definition privateAddress : clcgo.IPAddress :=
  {| clcgo.Public := EmptyString; clcgo.Internal := "10.0.0.5" |}.

Definition publicAddress : clcgo.IPAddress :=
  {| clcgo.Public := "203.0.113.7"; clcgo.Internal := "10.0.0.6" |}.

Definition pending : clcgo.Status :=
  {| clcgo.Status_of := "notStarted"; clcgo.URI := "/v2/operations/1" |}.

Definition executing : clcgo.Status :=
  {| clcgo.Status_of := "executing"; clcgo.URI := "/v2/operations/1" |}.

Definition succeeded : clcgo.Status :=
  {| clcgo.Status_of := "succeeded"; clcgo.URI := "/v2/operations/1" |}.

(** A script in which everything works: the cached pair is accepted, the
    server is running with a public address, and the operation submitted
    succeeds at the third status fetch. *)
Definition allWell : Script :=
  {| on_GetDataCenters := None;
     on_GetAPICredentials := (freshCredentials, None);
     on_ReadString := ("secret", None);
     on_GetServer := (sampleServer "started" [privateAddress; publicAddress], None);
     on_GetCredentials :=
       ({| clcgo.cr_Server := sampleServer "started" [privateAddress; publicAddress];
           clcgo.Password := "root-password" |}, None);
     on_Save := (pending, None);
     on_SavePublicIPAddress := (pending, None);
     on_GetStatus := [reported pending; reported executing; reported succeeded];
     on_ssh := None;
     on_CmdRun := [] |}.

Definition withProbe (r : option error) (s : Script) : Script :=
  {| on_GetDataCenters := r;
     on_GetAPICredentials := on_GetAPICredentials s;
     on_ReadString := on_ReadString s;
     on_GetServer := on_GetServer s;
     on_GetCredentials := on_GetCredentials s;
     on_Save := on_Save s;
     on_SavePublicIPAddress := on_SavePublicIPAddress s;
     on_GetStatus := on_GetStatus s;
     on_ssh := on_ssh s;
     on_CmdRun := on_CmdRun s |}.

Definition withServer (r : clcgo.Server * option error) (s : Script) : Script :=
  {| on_GetDataCenters := on_GetDataCenters s;
     on_GetAPICredentials := on_GetAPICredentials s;
     on_ReadString := on_ReadString s;
     on_GetServer := r;
     on_GetCredentials := on_GetCredentials s;
     on_Save := on_Save s;
     on_SavePublicIPAddress := on_SavePublicIPAddress s;
     on_GetStatus := on_GetStatus s;
     on_ssh := on_ssh s;
     on_CmdRun := on_CmdRun s |}.

Definition withSave (r : clcgo.Status * option error) (s : Script) : Script :=
  {| on_GetDataCenters := on_GetDataCenters s;
     on_GetAPICredentials := on_GetAPICredentials s;
     on_ReadString := on_ReadString s;
     on_GetServer := on_GetServer s;
     on_GetCredentials := on_GetCredentials s;
     on_Save := r;
     on_SavePublicIPAddress := on_SavePublicIPAddress s;
     on_GetStatus := on_GetStatus s;
     on_ssh := on_ssh s;
     on_CmdRun := on_CmdRun s |}.

Definition withAttach (r : clcgo.Status * option error) (s : Script) : Script :=
  {| on_GetDataCenters := on_GetDataCenters s;
     on_GetAPICredentials := on_GetAPICredentials s;
     on_ReadString := on_ReadString s;
     on_GetServer := on_GetServer s;
     on_GetCredentials := on_GetCredentials s;
     on_Save := on_Save s;
     on_SavePublicIPAddress := r;
     on_GetStatus := on_GetStatus s;
     on_ssh := on_ssh s;
     on_CmdRun := on_CmdRun s |}.

Definition withStatuses (r : list (clcgo.Status * option error)) (s : Script)
  : Script :=
  {| on_GetDataCenters := on_GetDataCenters s;
     on_GetAPICredentials := on_GetAPICredentials s;
     on_ReadString := on_ReadString s;
     on_GetServer := on_GetServer s;
     on_GetCredentials := on_GetCredentials s;
     on_Save := on_Save s;
     on_SavePublicIPAddress := on_SavePublicIPAddress s;
     on_GetStatus := r;
     on_ssh := on_ssh s;
     on_CmdRun := on_CmdRun s |}.

Definition withCmdRun (r : list (option error)) (s : Script) : Script :=
  {| on_GetDataCenters := on_GetDataCenters s;
     on_GetAPICredentials := on_GetAPICredentials s;
     on_ReadString := on_ReadString s;
     on_GetServer := on_GetServer s;
     on_GetCredentials := on_GetCredentials s;
     on_Save := on_Save s;
     on_SavePublicIPAddress := on_SavePublicIPAddress s;
     on_GetStatus := on_GetStatus s;
     on_ssh := on_ssh s;
     on_CmdRun := r |}.

Definition running : clcgo.Server :=
  sampleServer "started" [privateAddress; publicAddress].

(** The calls by which [getServer] resolves the sample server with the
    cached pair. *)
Definition resolved : History :=
  [GetDataCenters sampleClient;
   GetServer sampleClient
     {| clcgo.ID := "ca1acctdemo01"; clcgo.Name := EmptyString;
        clcgo.GroupID := EmptyString; clcgo.SourceServerID := EmptyString;
        clcgo.CPU := 0; clcgo.MemoryGB := 0; clcgo.Type_ := EmptyString;
        clcgo.Details := clcgo.zeroDetails |}].

Definition unauthorized : error := RequestError 401 [].
Definition notFound : error := RequestError 404 [].
Definition timedOut : error := errorString "i/o timeout".

(** ** Kinds of calls and relations between drivers *)

Definition isProbe (c : Call) : bool :=
  match c with GetDataCenters _ => true | _ => false end.

Definition isClose (c : Call) : bool :=
  match c with ClientClose => true | _ => false end.

(** The calls of the session: the probe, the authentication, the prompt
    and the line read from the terminal. *)
Definition sessionCall (c : Call) : bool :=
  match c with
  | GetDataCenters _ | GetAPICredentials _ _ _ | Printf _ | ReadString => true
  | _ => false
  end.

(** The calls that only read the provider: those of the session and the
    fetch of the server. *)
Definition readingCall (c : Call) : bool :=
  match c with
  | GetServer _ _ => true
  | _ => sessionCall c
  end.

(** The calls of a wait loop: the wait, the status fetch and the log. *)
Definition waitingCall (c : Call) : bool :=
  match c with
  | Sleep _ | GetStatus _ _ | Logf _ _ _ => true
  | _ => false
  end.

(** What a power operation may call: it reads, submits a
    [ServerOperation], and waits. *)
Definition powerCall (c : Call) : bool :=
  match c with
  | SaveServerOperation _ _ => true
  | _ => readingCall c || waitingCall c
  end.

(** What a removal may call: it reads, submits the deletion, and waits. *)
Definition removalCall (c : Call) : bool :=
  match c with
  | DeleteServer _ _ => true
  | _ => readingCall c || waitingCall c
  end.

(** What a method that runs a command on the machine may call: it reads,
    logs, and runs commands. *)
Definition commandCall (c : Call) : bool :=
  match c with
  | CmdRun _ | Logf _ _ _ => true
  | _ => readingCall c
  end.

(** The pair a driver caches, as credentials. *)
Definition cachedPair (d : Driver) : clcgo.APICredentials :=
  {| clcgo.BearerToken := BearerToken d;
     clcgo.AccountAlias := AccountAlias d |}.

(** [d'] is [d] but for the cached pair. *)
Definition samePair (d d' : Driver) : Prop :=
  d' = d \/ exists cr, d' = setAPICredentials d cr.

(** Two sets of options give the same value to every flag of [fs], read
    with the method of the flag's type. *)
Definition agreeOn (fs : list cli.Flag) (o1 o2 : drivers.DriverOptions)
  : Prop :=
  forall f, In f fs ->
    match f with
    | cli.StringFlag _ n _ _ => drivers.String o1 n = drivers.String o2 n
    | cli.IntFlag _ n _ _ => drivers.Int o1 n = drivers.Int o2 n
    end.

(** The number of messages a [RequestError] carries. *)
Definition countMessages (err : error) : nat :=
  match err with
  | RequestError _ errs =>
      list_sum (List.map (fun fms => List.length (snd fms)) errs)
  | errorString _ => 0
  end.

Definition isErrorLine (c : Call) : bool :=
  match c with Logf ErrorLevel _ _ => true | _ => false end.

(** Options for the sample runs, and the driver they configure. *)
Definition sampleOptions : drivers.DriverOptions :=
  {| drivers.String := fun n =>
       if String.eqb n "centurylinkcloud-username" then "user"
       else if String.eqb n "centurylinkcloud-password" then "secret"
       else if String.eqb n "centurylinkcloud-server-name" then "demo"
       else if String.eqb n "centurylinkcloud-group-id" then "g1"
       else if String.eqb n "centurylinkcloud-source-server-id"
            then "UBUNTU-14-64-TEMPLATE"
       else EmptyString;
     drivers.Int := fun n =>
       if String.eqb n "centurylinkcloud-cpu" then 1%Z
       else if String.eqb n "centurylinkcloud-memory-gb" then 2%Z
       else 0%Z |}.

Definition newDriver : Driver :=
  fst (SetConfigFromFlags
         (fst (NewDriver "demo" "/store/demo" "ca.pem" "key.pem"))
         sampleOptions).

(** The command of [setHostname] for a machine name. *)
Definition hostnameLine (name : string) : string :=
  ("echo " ++ dquote ++ "127.0.0.1 " ++ name ++ dquote
   ++ " | sudo tee -a /etc/hosts && sudo hostname " ++ name
   ++ " && echo " ++ dquote ++ name ++ dquote
   ++ " | sudo tee /etc/hostname")%string.

(** A run of [m] on [d] runs at most [n] commands on the machine, and
    exactly [n] when it returns no error. *)
Definition runsCommands (env : Env) (n : nat)
    (m : itree driverE (Driver * option error)) : Prop :=
  forall (h h' : History) (d' : Driver) (r : option error),
    runs env m h h' (d', r) ->
    exists tr, h' = h ++ tr
               /\ countCmdRun tr <= n
               /\ (r = None -> countCmdRun tr = n).

(** The address [generateAndWriteSSHKey] waits for and dials. *)
Definition sshAddressOf (s : clcgo.Server) : string :=
  (publicIPFromServer s ++ ":" ++ "22")%string.

(** The credentials [generateAndWriteSSHKey] asks the provider to fill. *)
Definition credentialsOf (s : clcgo.Server) : clcgo.Credentials :=
  {| clcgo.cr_Server := s; clcgo.Password := EmptyString |}.

(** The calls of [generateAndWriteSSHKey] up to the dialling. *)
Definition reachCalls (c : clcgo.Client) (s : clcgo.Server) : list Call :=
  [GetCredentials c (credentialsOf s);
   Logf InfoLevel "Waiting for SSH..." [];
   WaitForTCP (sshAddressOf s);
   Logf DebugLevel "Logging in using root password..." []].

(** The calls of a [generateAndWriteSSHKey] that returns no error, for the
    root password [password] and the public key [pk]. *)
Definition trustCalls {imported : Imported} (d : Driver) (c : clcgo.Client)
    (s : clcgo.Server) (password pk : string) : list Call :=
  reachCalls c s ++
  [Dial "tcp" (sshAddressOf s) "root" password;
   NewSession;
   GenerateSSHKey (sshKeyPath d);
   ReadFile (sshKeyPath d ++ ".pub")%string;
   Logf DebugLevel "Adding public key to authorized_keys..." [];
   SessionRun ("echo " ++ dquote ++ pk ++ dquote
               ++ " >> ~/.ssh/authorized_keys")%string;
   ClientClose].

(** Options that differ from the sample ones only outside the declared
    flags. *)
Definition otherOptions : drivers.DriverOptions :=
  {| drivers.String := fun n =>
       if String.eqb n "centurylinkcloud-region" then "ca1"
       else drivers.String sampleOptions n;
     drivers.Int := fun n =>
       if String.eqb n "centurylinkcloud-disk-gb" then 40%Z
       else drivers.Int sampleOptions n |}.

(** An error of the provider with two messages for one field. *)
Definition rejected : error :=
  RequestError 400 [("name", ["is required"; "is too short"])].

(** The credentials the sample provider gives for the sample server. *)
Definition rootCredentials : clcgo.Credentials :=
  {| clcgo.cr_Server := running; clcgo.Password := "root-password" |}.

(** * Properties *)

Section Runs.

Context (env : Env).

Lemma runs_ret {R : Type} (r : R) (h : History) : runs env (Ret r) h h r.
Proof. unfold runs. rewrite interp_state_ret. reflexivity. Qed.

Lemma runs_call (c : Call) (h : History) :
  runs env (call c) h (h ++ [c]) (env c h).
Proof.
  unfold runs, call. rewrite interp_state_trigger. cbn. reflexivity.
Qed.

Lemma runs_bind {A B : Type} (p : itree driverE A) (k : A -> itree driverE B)
    (h h1 h2 : History) (a : A) (b : B) :
  runs env p h h1 a -> runs env (k a) h1 h2 b ->
  runs env (ITree.bind p k) h h2 b.
Proof.
  unfold runs. intros Hp Hk.
  rewrite interp_state_bind, Hp, bind_ret_l. cbn. exact Hk.
Qed.

Lemma runs_bind_inv {A B : Type} (p : itree driverE A) (k : A -> itree driverE B)
    (h h2 : History) (b : B) :
  runs env (ITree.bind p k) h h2 b ->
  exists h1 a, runs env p h h1 a /\ runs env (k a) h1 h2 b.
Proof.
  unfold runs. rewrite interp_state_bind. intros H.
  apply eutt_inv_bind_ret in H. destruct H as [[h1 a] [H1 H2]].
  exists h1, a. split; [exact H1 | exact H2].
Qed.

(** The environment is a function, so a program has at most one run. *)
Lemma runs_det {R : Type} (p : itree driverE R) (h h1 h2 : History) (r1 r2 : R) :
  runs env p h h1 r1 -> runs env p h h2 r2 -> h1 = h2 /\ r1 = r2.
Proof.
  unfold runs. intros H1 H2. rewrite H1 in H2.
  apply eutt_inv_Ret in H2. inversion H2. split; reflexivity.
Qed.

Lemma runs_eq {R : Type} (p : itree driverE R) (h h1 h2 : History) (r1 r2 : R) :
  runs env p h h1 r1 -> h1 = h2 -> r1 = r2 -> runs env p h h2 r2.
Proof. intros H -> ->. exact H. Qed.

(** One turn of a loop that goes round again. *)
Lemma runs_iter_again {I R : Type} (body : I -> itree driverE (I + R))
    (i i' : I) (h h1 h2 : History) (r : R) :
  runs env (body i) h h1 (inl i') ->
  runs env (ITree.iter body i') h1 h2 r ->
  runs env (ITree.iter body i) h h2 r.
Proof.
  unfold runs. intros Hb Hi.
  rewrite unfold_iter, interp_state_bind, Hb, bind_ret_l. cbn.
  rewrite interp_state_tau, tau_eutt. exact Hi.
Qed.

(** The turn of a loop that leaves it. *)
Lemma runs_iter_done {I R : Type} (body : I -> itree driverE (I + R))
    (i : I) (h h1 : History) (r : R) :
  runs env (body i) h h1 (inr r) ->
  runs env (ITree.iter body i) h h1 r.
Proof.
  unfold runs. intros Hb.
  rewrite unfold_iter, interp_state_bind, Hb, bind_ret_l. cbn.
  rewrite interp_state_ret. reflexivity.
Qed.

Lemma runs_ret_inv {R : Type} (r r' : R) (h h' : History) :
  runs env (Ret r) h h' r' -> h' = h /\ r' = r.
Proof.
  intros H. destruct (runs_det _ _ _ _ _ _ H (runs_ret r h)) as [-> ->].
  split; reflexivity.
Qed.

Lemma runs_call_inv (c : Call) (h h' : History) (r : Resp c) :
  runs env (call c) h h' r -> h' = h ++ [c] /\ r = env c h.
Proof.
  intros H. destruct (runs_det _ _ _ _ _ _ H (runs_call c h)) as [-> ->].
  split; reflexivity.
Qed.

(** A tree without events that has a leaf is that leaf. *)
Lemma Leaf_returns {R : Type} (t : itree void1 R) (r : R) :
  Leaf r t -> t ≈ Ret r.
Proof.
  induction 1 as [t Ht | t u Ht _ IH | X e t k x Ht _ _].
  - rewrite (itree_eta t), Ht. reflexivity.
  - rewrite (itree_eta t), Ht, tau_eutt. exact IH.
  - destruct e.
Qed.

Lemma returns_Leaf {R : Type} (t : itree void1 R) (r : R) :
  t ≈ Ret r -> Leaf r t.
Proof. intros H. rewrite H. apply Leaf_Ret. Qed.

(** The rule of the loop: an invariant of the turns that go round, kept by
    every turn that returns, holds when the loop is left. *)
Lemma runs_iter_inv {I R : Type} (body : I -> itree driverE (I + R))
    (Inv : History -> I -> Prop) (Q : History -> R -> Prop) :
  (forall h i h' x, Inv h i -> runs env (body i) h h' x ->
     match x with inl i' => Inv h' i' | inr r => Q h' r end) ->
  forall h i h' r,
    Inv h i -> runs env (ITree.iter body i) h h' r -> Q h' r.
Proof.
  intros Hbody h i h' r Hi Hrun. unfold runs in Hrun.
  pose proof (interp_state_iter' History (handle env) body i h) as Heq.
  rewrite Heq in Hrun. apply returns_Leaf in Hrun.
  unfold Basics.iter, MonadIter_stateT0, Basics.iter, MonadIter_itree in Hrun.
  revert Hrun.
  apply (Leaf_iter_inv _ (h, i) (fun si => Inv (fst si) (snd si))
           (fun sr => Q (fst sr) (snd sr)) ); [| exact Hi].
  intros [s j] x Hj Hx. cbn [fst snd] in *.
  apply Leaf_bind_inv in Hx. destruct Hx as [[s' y] [Hy Hx]].
  apply Leaf_Ret_inv in Hx. subst x. cbn [fst snd].
  apply Leaf_returns in Hy.
  specialize (Hbody s j s' y Hj Hy).
  destruct y as [j' | r']; cbn; exact Hbody.
Qed.

Lemma makesOnly_ret (P : Call -> Prop) {R : Type} (r : R) :
  makesOnly env P (Ret r).
Proof.
  intros h h' r' H. apply runs_ret_inv in H. destruct H as [-> _].
  exists []. split; [rewrite app_nil_r; reflexivity | constructor].
Qed.

Lemma makesOnly_call (P : Call -> Prop) (c : Call) :
  P c -> makesOnly env P (call c).
Proof.
  intros Hc h h' r H. apply runs_call_inv in H. destruct H as [-> _].
  exists [c]. split; [reflexivity | constructor; [exact Hc | constructor]].
Qed.

Lemma makesOnly_bind (P : Call -> Prop) {A B : Type}
    (p : itree driverE A) (k : A -> itree driverE B) :
  makesOnly env P p -> (forall a, makesOnly env P (k a)) ->
  makesOnly env P (ITree.bind p k).
Proof.
  intros Hp Hk h h' r H. apply runs_bind_inv in H.
  destruct H as (h1 & a & H1 & H2).
  destruct (Hp _ _ _ H1) as (tr1 & -> & Htr1).
  destruct (Hk a _ _ _ H2) as (tr2 & -> & Htr2).
  exists (tr1 ++ tr2). split; [rewrite app_assoc; reflexivity |].
  apply Forall_app. split; assumption.
Qed.

Lemma makesOnly_iter (P : Call -> Prop) {I R : Type}
    (body : I -> itree driverE (I + R)) (i : I) :
  (forall j, makesOnly env P (body j)) ->
  makesOnly env P (ITree.iter body i).
Proof.
  intros Hbody h h' r H.
  refine (runs_iter_inv body
            (fun hi _ => exists tr, hi = h ++ tr /\ Forall P tr)
            (fun hf _ => exists tr, hf = h ++ tr /\ Forall P tr)
            _ h i h' r _ H).
  - intros hi j h1 x (tr & -> & Htr) Hb.
    destruct (Hbody j _ _ _ Hb) as (tr' & -> & Htr').
    assert (Hex : exists tr0, (h ++ tr) ++ tr' = h ++ tr0 /\ Forall P tr0).
    { exists (tr ++ tr'). split; [rewrite app_assoc; reflexivity |].
      apply Forall_app. split; assumption. }
    destruct x; exact Hex.
  - exists []. split; [rewrite app_nil_r; reflexivity | constructor].
Qed.

Lemma makesOnly_forEach (P : Call -> Prop) {A : Type} (l : list A)
    (f : A -> itree driverE unit) :
  (forall a, makesOnly env P (f a)) -> makesOnly env P (forEach l f).
Proof.
  intros Hf. induction l as [| a l IH]; cbn [forEach fold_right].
  - apply makesOnly_ret.
  - apply makesOnly_bind; [apply Hf | intros _; exact IH].
Qed.

Lemma runs_forEach {A : Type} (l : list A) (f : A -> itree driverE unit)
    (tr : A -> list Call) (h : History) :
  (forall a h0, runs env (f a) h0 (h0 ++ tr a) tt) ->
  runs env (forEach l f) h (h ++ flat_map tr l) tt.
Proof.
  intros Hf. revert h. induction l as [| a l IH]; intros h;
    cbn [forEach fold_right flat_map].
  - rewrite app_nil_r. apply runs_ret.
  - eapply runs_bind; [apply Hf |]. rewrite app_assoc. apply IH.
Qed.

End Runs.

(** Steps a run through the calls at its head. *)
Ltac run_call :=
  eapply runs_bind; [apply runs_call | cbv beta].

Ltac same_history :=
  repeat match goal with x := _ |- _ => subst x end;
  rewrite <- ?app_assoc; reflexivity.

Ltac run_ret :=
  eapply runs_eq; [apply runs_ret | same_history | try reflexivity].

(** Takes the run in [H] apart, call by call. *)
Ltac run_inv H :=
  lazymatch type of H with
  | runs _ (ITree.bind _ _) _ _ _ =>
      let h1 := fresh "h" in
      let a := fresh "a" in
      let H1 := fresh "Hrun" in
      apply runs_bind_inv in H; destruct H as (h1 & a & H1 & H);
      run_inv H1; cbv beta in H; run_inv H
  | runs _ (call _) _ _ _ =>
      apply runs_call_inv in H; destruct H as [? ?]; subst
  | runs _ (Ret _) _ _ _ =>
      apply runs_ret_inv in H; destruct H as [? H];
      try (inversion H; clear H); subst
  | runs _ (let '(_, _) := ?x in _) _ _ _ =>
      destruct x eqn:?; run_inv H
  | runs _ (match ?x with _ => _ end) _ _ _ =>
      destruct x eqn:?; run_inv H
  | runs _ (if ?x then _ else _) _ _ _ =>
      destruct x eqn:?; run_inv H
  | _ => idtac
  end.

(** ** Histories and scripts of statuses *)

Lemma countStatus_app (a b : History) :
  countStatus (a ++ b) = countStatus a + countStatus b.
Proof. unfold countStatus. rewrite filter_app, length_app. reflexivity. Qed.

Lemma countSleep_app (a b : History) :
  countSleep (a ++ b) = countSleep a + countSleep b.
Proof. unfold countSleep. rewrite filter_app, length_app. reflexivity. Qed.

Lemma answersStatus_head (env : Env) (h0 : History)
    (r : clcgo.Status * option error) (script : list (clcgo.Status * option error)) :
  answersStatus env h0 (r :: script) ->
  forall h c st, countStatus h = 0 -> env (GetStatus c st) (h0 ++ h) = r.
Proof. intros H h c st Hc. apply H. rewrite Hc. reflexivity. Qed.

Lemma answersStatus_tail (env : Env) (h0 h1 : History)
    (r : clcgo.Status * option error) (script : list (clcgo.Status * option error)) :
  answersStatus env h0 (r :: script) ->
  countStatus h1 = 1 ->
  answersStatus env (h0 ++ h1) script.
Proof.
  intros H H1 h c st r' Hn. rewrite <- app_assoc. apply H.
  rewrite countStatus_app, H1. exact Hn.
Qed.

Lemma countStatus_tracked (msg : string) (c : clcgo.Client)
    (sts : list clcgo.Status) (st : clcgo.Status) :
  countStatus (pollTrace (trackedRound msg c) st sts) = List.length sts.
Proof.
  revert st. induction sts as [| st' sts IH]; intros st; [reflexivity |].
  cbn [pollTrace]. rewrite countStatus_app, IH. reflexivity.
Qed.

Lemma countSleep_tracked (msg : string) (c : clcgo.Client)
    (sts : list clcgo.Status) (st : clcgo.Status) :
  countSleep (pollTrace (trackedRound msg c) st sts) = List.length sts.
Proof.
  revert st. induction sts as [| st' sts IH]; intros st; [reflexivity |].
  cbn [pollTrace]. rewrite countSleep_app, IH. reflexivity.
Qed.

Lemma lastStatus_cons (st0 st1 : clcgo.Status) (sts : list clcgo.Status) :
  lastStatus st0 (st1 :: sts) = lastStatus st1 sts.
Proof.
  unfold lastStatus. revert st0 st1.
  induction sts as [| st2 sts IH]; intros st0 st1; [reflexivity |].
  change (last (st1 :: st2 :: sts) st0) with (last (st2 :: sts) st0).
  rewrite (IH st0 st2), (IH st1 st2). reflexivity.
Qed.

Lemma fetchesDelayed_nil : fetchesDelayed [].
Proof. intros [| y pre] x post H; discriminate H. Qed.

Lemma fetchesDelayed_tracked (msg : string) (c : clcgo.Client)
    (sts : list clcgo.Status) (st : clcgo.Status) :
  fetchesDelayed (pollTrace (trackedRound msg c) st sts).
Proof.
  revert st. induction sts as [| st' sts IH]; intros st.
  - apply fetchesDelayed_nil.
  - cbn [pollTrace trackedRound app]. intros pre x post H Hx.
    destruct pre as [| y1 [| y2 [| y3 pre]]]; cbn [app] in H;
      injection H as; subst; try discriminate Hx.
    + exists []. reflexivity.
    + match goal with
      | Heq : pollTrace _ _ _ = _ |- _ =>
          destruct (IH _ _ _ _ Heq Hx) as [pre' ->]
      end.
      eexists (_ :: _ :: _ :: pre'). reflexivity.
Qed.

(** ** The public address of a server *)

Lemma isEmpty_true (s : string) : isEmpty s = true <-> s = EmptyString.
Proof. destruct s; split; intros H; reflexivity || discriminate H. Qed.

Lemma isEmpty_false (s : string) : isEmpty s = false <-> s <> EmptyString.
Proof.
  destruct s; split; intros H; try reflexivity; try discriminate H.
  - contradiction H. reflexivity.
  - intros H'. discriminate H'.
Qed.

Lemma publicIPFromServer_first (s : clcgo.Server)
    (pre post : list clcgo.IPAddress) (a : clcgo.IPAddress) :
  clcgo.IPAddresses (clcgo.Details s) = pre ++ a :: post ->
  Forall noPublic pre ->
  clcgo.Public a <> EmptyString ->
  publicIPFromServer s = clcgo.Public a.
Proof.
  unfold publicIPFromServer. intros -> Hpre Ha.
  induction Hpre as [| x pre Hx _ IH]; cbn [app].
  - apply isEmpty_false in Ha. rewrite Ha. reflexivity.
  - unfold noPublic in Hx. rewrite Hx. cbn [isEmpty negb]. exact IH.
Qed.

Lemma publicIPFromServer_none (s : clcgo.Server) :
  Forall noPublic (clcgo.IPAddresses (clcgo.Details s)) ->
  publicIPFromServer s = EmptyString.
Proof.
  unfold publicIPFromServer. intros H.
  induction H as [| x l Hx _ IH]; [reflexivity |].
  unfold noPublic in Hx. rewrite Hx. cbn [isEmpty negb]. exact IH.
Qed.

(** Shows that a program makes only calls of one kind, by its structure. *)
Ltac only_calls :=
  lazymatch goal with
  | |- makesOnly _ _ (ITree.bind _ _) =>
      apply makesOnly_bind; [only_calls | intros; only_calls]
  | |- makesOnly _ _ (call ?c) =>
      refine (makesOnly_call _ _ c _); first [reflexivity | exact I]
  | |- makesOnly _ _ (Ret _) => apply makesOnly_ret
  | |- makesOnly _ _ (ITree.iter _ _) =>
      apply makesOnly_iter; intros; only_calls
  | |- makesOnly _ _ (forEach _ _) =>
      apply makesOnly_forEach; intros; only_calls
  | |- makesOnly _ _ (let '(_, _) := ?x in _) => destruct x; only_calls
  | |- makesOnly _ _ (match ?x with _ => _ end) => destruct x; only_calls
  | |- makesOnly _ _ (if ?x then _ else _) => destruct x; only_calls
  | |- makesOnly _ _ _ => auto
  end.

Section DriverFacts.

Context {imported : Imported} (env : Env).

Lemma updateAPICredentials_password (d : Driver) (c : clcgo.Client) (h : History) :
  isEmpty (Password d) = false ->
  let a := GetAPICredentials c (Username d) (Password d) in
  runs env (updateAPICredentials d c) h (h ++ [a])
    (match snd (env a h) with
     | Some e => (d, {| clcgo.Credentials_of := fst (env a h) |}, Some e)
     | None => (setAPICredentials d (fst (env a h)),
                {| clcgo.Credentials_of := fst (env a h) |}, None)
     end).
Proof.
  intros Hpw a. unfold updateAPICredentials. rewrite Hpw. cbn [negb].
  run_call. fold a. destruct (env a h) as [cr [e|]]; cbn [fst snd]; run_ret.
Qed.


Lemma updateAPICredentials_prompt_failed (d : Driver) (c : clcgo.Client)
    (h : History) (input : string) (e : error) :
  isEmpty (Password d) = true ->
  env ReadString (h ++ [Printf passwordPrompt]) = (input, Some e) ->
  runs env (updateAPICredentials d c) h
    (h ++ [Printf passwordPrompt; ReadString]) (d, c, Some e).
Proof.
  intros Hpw Hin. unfold updateAPICredentials. rewrite Hpw. cbn [negb].
  run_call. run_call. rewrite Hin. run_ret.
Qed.

Lemma updateAPICredentials_prompt (d : Driver) (c : clcgo.Client)
    (h : History) (input : string) :
  isEmpty (Password d) = true ->
  env ReadString (h ++ [Printf passwordPrompt]) = (input, None) ->
  let a := GetAPICredentials c (Username d) (strings_TrimSpace input) in
  let h1 := h ++ [Printf passwordPrompt; ReadString] in
  runs env (updateAPICredentials d c) h (h1 ++ [a])
    (match snd (env a h1) with
     | Some e => (d, {| clcgo.Credentials_of := fst (env a h1) |}, Some e)
     | None => (setAPICredentials d (fst (env a h1)),
                {| clcgo.Credentials_of := fst (env a h1) |}, None)
     end).
Proof.
  intros Hpw Hin a h1. unfold updateAPICredentials. rewrite Hpw. cbn [negb].
  run_call. run_call. rewrite Hin. run_call.
  rewrite <- app_assoc. cbn [app]. fold a h1.
  destruct (env a h1) as [cr [e|]]; cbn [fst snd]; run_ret.
Qed.

(** A re-authentication leaves every field of the driver but the cached
    pair alone, and touches the pair only when it succeeds. *)
Lemma updateAPICredentials_frame (d d' : Driver) (c c' : clcgo.Client)
    (h h' : History) (r : option error) :
  runs env (updateAPICredentials d c) h h' (d', c', r) ->
  match r with
  | Some _ => d' = d
  | None => d' = setAPICredentials d (clcgo.Credentials_of c')
  end.
Proof.
  unfold updateAPICredentials. intros H. run_inv H; reflexivity.
Qed.

Lemma getClientWithPersistence_frame (d d' : Driver) (h h' : History)
    (r : clcgo.Client + option clcgo.Client * error) :
  runs env (getClientWithPersistence d) h h' (d', r) ->
  d' = d \/ exists cr, d' = setAPICredentials d cr.
Proof.
  unfold getClientWithPersistence. intros H. run_inv H;
    try (left; reflexivity);
    match goal with
    | Hu : runs env (updateAPICredentials _ _) _ _ (_, _, ?r) |- _ =>
        apply updateAPICredentials_frame in Hu; cbv beta iota in Hu; subst;
        (left; reflexivity) || (right; eexists; reflexivity)
    end.
Qed.

Lemma getClientWithPersistence_ServerID (d d' : Driver) (h h' : History)
    (r : clcgo.Client + option clcgo.Client * error) :
  runs env (getClientWithPersistence d) h h' (d', r) ->
  ServerID d' = ServerID d.
Proof.
  intros H. apply getClientWithPersistence_frame in H.
  destruct H as [-> | [cr ->]]; reflexivity.
Qed.

(** ** The session: [getClientWithPersistence] *)

(** C3.  With a cached token and account alias, [getClientWithPersistence]
    first makes the read-only probe [GetEntity(&DataCenters{})] with the
    cached pair.  When the probe succeeds the pair stands and nothing else is
    called.  When the probe fails with a [RequestError] of status 401, the
    calls that follow are those of one [updateAPICredentials], which asks the
    provider for credentials once: on its success the driver's pair is the
    pair the provider gave and the client is returned without an error; were
    it to fail (or the password not be read), that error is returned and the
    pair is untouched.  When the probe fails in any other way, no
    re-authentication is made, the pair is untouched and the probe's error is
    returned as it is. *)
Theorem getClientWithPersistence_cached (d : Driver) (h : History) :
  isEmpty (BearerToken d) = false ->
  isEmpty (AccountAlias d) = false ->
  let c := {| clcgo.Credentials_of :=
                {| clcgo.BearerToken := BearerToken d;
                   clcgo.AccountAlias := AccountAlias d |} |} in
  let probe := GetDataCenters c in
  let h0 := h ++ [probe] in
  (env probe h = None ->
   runs env (getClientWithPersistence d) h h0 (d, inl c))
  /\
  (forall errs, env probe h = Some (RequestError 401 errs) ->
     (isEmpty (Password d) = false ->
      let a := GetAPICredentials c (Username d) (Password d) in
      forall cr,
        (env a h0 = (cr, None) ->
         runs env (getClientWithPersistence d) h (h0 ++ [a])
           (setAPICredentials d cr, inl {| clcgo.Credentials_of := cr |})
         /\ BearerToken (setAPICredentials d cr) = clcgo.BearerToken cr
         /\ AccountAlias (setAPICredentials d cr) = clcgo.AccountAlias cr)
        /\
        (forall e, env a h0 = (cr, Some e) ->
         runs env (getClientWithPersistence d) h (h0 ++ [a])
           (d, inr (Some {| clcgo.Credentials_of := cr |}, e))))
     /\
     (isEmpty (Password d) = true ->
      let h1 := h0 ++ [Printf passwordPrompt; ReadString] in
      forall input,
        (forall e, env ReadString (h0 ++ [Printf passwordPrompt]) = (input, Some e) ->
         runs env (getClientWithPersistence d) h h1 (d, inr (Some c, e)))
        /\
        (env ReadString (h0 ++ [Printf passwordPrompt]) = (input, None) ->
         let a := GetAPICredentials c (Username d) (strings_TrimSpace input) in
         forall cr,
           (env a h1 = (cr, None) ->
            runs env (getClientWithPersistence d) h (h1 ++ [a])
              (setAPICredentials d cr, inl {| clcgo.Credentials_of := cr |})
            /\ BearerToken (setAPICredentials d cr) = clcgo.BearerToken cr
            /\ AccountAlias (setAPICredentials d cr) = clcgo.AccountAlias cr)
           /\
           (forall e, env a h1 = (cr, Some e) ->
            runs env (getClientWithPersistence d) h (h1 ++ [a])
              (d, inr (Some {| clcgo.Credentials_of := cr |}, e))))))
  /\
  (forall e, env probe h = Some e -> isRequestError 401 e = false ->
   runs env (getClientWithPersistence d) h h0 (d, inr (Some c, e))).
Proof.
  intros Ht Ha c probe h0.
  assert (Hcached : forall (R : Type) (x y : itree driverE R),
             (if isEmpty (BearerToken d) || isEmpty (AccountAlias d)
              then x else y) = y)
    by (intros; rewrite Ht, Ha; reflexivity).
  split; [| split].
  - intros Hp. unfold getClientWithPersistence. rewrite Hcached.
    run_call. fold c probe. rewrite Hp. run_ret.
  - intros errs Hp. split.
    + intros Hpw a cr. split.
      * intros Hauth. split; [| split; reflexivity].
        unfold getClientWithPersistence. rewrite Hcached.
        run_call. fold c probe. rewrite Hp. cbn [isRequestError Z.eqb Pos.eqb].
        eapply runs_bind.
        { apply updateAPICredentials_password. exact Hpw. }
        fold h0 a. rewrite Hauth. cbn [fst snd]. run_ret.
      * intros e Hauth.
        unfold getClientWithPersistence. rewrite Hcached.
        run_call. fold c probe. rewrite Hp. cbn [isRequestError Z.eqb Pos.eqb].
        eapply runs_bind.
        { apply updateAPICredentials_password. exact Hpw. }
        fold h0 a. rewrite Hauth. cbn [fst snd]. run_ret.
    + intros Hpw h1 input. split.
      * intros e Hin.
        unfold getClientWithPersistence. rewrite Hcached.
        run_call. fold c probe. rewrite Hp. cbn [isRequestError Z.eqb Pos.eqb].
        eapply runs_bind.
        { eapply updateAPICredentials_prompt_failed; [exact Hpw | exact Hin]. }
        run_ret.
      * intros Hin a cr. split.
        -- intros Hauth. split; [| split; reflexivity].
           unfold getClientWithPersistence. rewrite Hcached.
           run_call. fold c probe. rewrite Hp. cbn [isRequestError Z.eqb Pos.eqb].
           eapply runs_bind.
           { eapply updateAPICredentials_prompt; [exact Hpw | exact Hin]. }
           fold h0 h1 a. rewrite Hauth. cbn [fst snd]. run_ret.
        -- intros e Hauth.
           unfold getClientWithPersistence. rewrite Hcached.
           run_call. fold c probe. rewrite Hp. cbn [isRequestError Z.eqb Pos.eqb].
           eapply runs_bind.
           { eapply updateAPICredentials_prompt; [exact Hpw | exact Hin]. }
           fold h0 h1 a. rewrite Hauth. cbn [fst snd]. run_ret.
  - intros e Hp Hne. unfold getClientWithPersistence. rewrite Hcached.
    run_call. fold c probe. rewrite Hp, Hne. run_ret.
Qed.

(** ** Resolving the server: [getServer] *)

Lemma getClientWithPersistence_accepted (d : Driver) (h : History) :
  isEmpty (BearerToken d) = false ->
  isEmpty (AccountAlias d) = false ->
  let c := {| clcgo.Credentials_of :=
                {| clcgo.BearerToken := BearerToken d;
                   clcgo.AccountAlias := AccountAlias d |} |} in
  env (GetDataCenters c) h = None ->
  runs env (getClientWithPersistence d) h (h ++ [GetDataCenters c]) (d, inl c).
Proof.
  intros Ht Ha c Hp. unfold getClientWithPersistence. rewrite Ht, Ha. cbn [orb].
  run_call. fold c. rewrite Hp. run_ret.
Qed.

Lemma getServer_found (d d1 : Driver) (h h1 : History) (c : clcgo.Client)
    (s : clcgo.Server) :
  runs env (getClientWithPersistence d) h h1 (d1, inl c) ->
  let fetch := GetServer c (serverWithID (ServerID d)) in
  env fetch h1 = (s, None) ->
  runs env (getServer d) h (h1 ++ [fetch]) (d1, inl (c, s)).
Proof.
  intros Hc fetch Hs. unfold getServer.
  eapply runs_bind; [exact Hc |]. cbv beta iota.
  run_call. fold fetch. rewrite Hs. run_ret.
Qed.

(** C4.  When the client is in hand and the provider answers the fetch of
    the server with a [RequestError] of status 404, [getServer] returns the
    error of the driver's own that names the identifier asked for, and not
    the provider's error; any other error of the fetch is returned as it
    is. *)
Theorem getServer_not_found (d d1 : Driver) (h h1 : History) (c : clcgo.Client)
    (s : clcgo.Server) (err : error) :
  runs env (getClientWithPersistence d) h h1 (d1, inl c) ->
  let fetch := GetServer c (serverWithID (ServerID d)) in
  env fetch h1 = (s, Some err) ->
  (forall errs, err = RequestError 404 errs ->
     runs env (getServer d) h (h1 ++ [fetch])
       (d1, inr (s, errorString
                  ("unable to find a server with the ID '" ++ ServerID d ++ "'")%string)))
  /\
  (isRequestError 404 err = false ->
     runs env (getServer d) h (h1 ++ [fetch]) (d1, inr (s, err))).
Proof.
  intros Hc fetch Hs.
  pose proof (getClientWithPersistence_ServerID _ _ _ _ _ Hc) as Hid.
  split.
  - intros errs ->. unfold getServer.
    eapply runs_bind; [exact Hc |]. cbv beta iota.
    run_call. fold fetch. rewrite Hs. cbn [isRequestError Z.eqb Pos.eqb].
    rewrite Hid. run_ret.
  - intros Hne. unfold getServer.
    eapply runs_bind; [exact Hc |]. cbv beta iota.
    run_call. fold fetch. rewrite Hs, Hne. run_ret.
Qed.

(** ** The wait loops *)

(** The body of [for !st.HasSucceeded() { ... }] in [doOperation] and in
    [Remove], which differ by the message logged. *)
Local Abbreviation trackedBody msg d c :=
  (fun st : clcgo.Status =>
     if negb (HasSucceeded st) then
       call (Sleep (time_Second * statusWaitSeconds));;
       '(st, err) <- call (GetStatus c st);;
       match err with
       | Some err => Ret (inr (d, Some err))
       | None =>
           call (Logf DebugLevel msg [ArgS (clcgo.Status_of st)]);;
           Ret (inl st)
       end
     else Ret (inr (d, None))).

(** The body of the loop in [createServer] and in [addPublicIPAddress]. *)
Local Abbreviation checkedBody c :=
  (fun st : clcgo.Status =>
     if negb (HasSucceeded st) then
       call (Sleep (time_Second * statusWaitSeconds));;
       call (Logf DebugLevel "Checking status..." []);;
       '(st, err) <- call (GetStatus c st);;
       match err with
       | Some err => Ret (inr (Some err))
       | None => Ret (inl st)
       end
     else Ret (inr None)).

Lemma tracked_turn (msg : string) (d : Driver) (c : clcgo.Client)
    (st st' : clcgo.Status) (h : History) :
  HasSucceeded st = false ->
  env (GetStatus c st) (h ++ [statusWait]) = (st', None) ->
  runs env (trackedBody msg d c st) h (h ++ trackedRound msg c st st') (inl st').
Proof.
  intros Hst Hf. cbv beta. rewrite Hst. cbn [negb].
  run_call. run_call. fold statusWait. rewrite Hf. run_call. run_ret.
Qed.

Lemma tracked_turn_fails (msg : string) (d : Driver) (c : clcgo.Client)
    (st st' : clcgo.Status) (e : error) (h : History) :
  HasSucceeded st = false ->
  env (GetStatus c st) (h ++ [statusWait]) = (st', Some e) ->
  runs env (trackedBody msg d c st) h (h ++ [statusWait; GetStatus c st])
    (inr (d, Some e)).
Proof.
  intros Hst Hf. cbv beta. rewrite Hst. cbn [negb].
  run_call. run_call. fold statusWait. rewrite Hf. run_ret.
Qed.

Lemma tracked_done (msg : string) (d : Driver) (c : clcgo.Client)
    (st : clcgo.Status) (h : History) :
  HasSucceeded st = true ->
  runs env (ITree.iter (trackedBody msg d c) st) h h (d, None).
Proof.
  intros Hst. apply runs_iter_done. cbv beta. rewrite Hst. cbn [negb].
  apply runs_ret.
Qed.

(** The loop against a script of statuses that ends with a success. *)
Lemma tracked_succeeds (msg : string) (d : Driver) (c : clcgo.Client)
    (sts : list clcgo.Status) (fin : clcgo.Status) :
  Forall notSucceeded sts -> HasSucceeded fin = true ->
  forall (st0 : clcgo.Status) (h0 : History),
    HasSucceeded st0 = false ->
    answersStatus env h0 (List.map reported (sts ++ [fin])) ->
    runs env (ITree.iter (trackedBody msg d c) st0) h0
      (h0 ++ pollTrace (trackedRound msg c) st0 (sts ++ [fin])) (d, None).
Proof.
  intros Hsts Hfin. induction Hsts as [| st1 sts H1 _ IH]; intros st0 h0 H0 Hans.
  - cbn [app List.map pollTrace] in *. rewrite app_nil_r.
    eapply runs_iter_again.
    + apply tracked_turn; [exact H0 |].
      apply (answersStatus_head _ _ _ _ Hans [statusWait]). reflexivity.
    + apply tracked_done. exact Hfin.
  - cbn [app List.map pollTrace] in *. rewrite app_assoc.
    eapply runs_iter_again.
    + apply tracked_turn; [exact H0 |].
      apply (answersStatus_head _ _ _ _ Hans [statusWait]). reflexivity.
    + apply IH; [exact H1 |].
      eapply answersStatus_tail; [exact Hans | reflexivity].
Qed.

(** The loop against a script of statuses that ends with a failed fetch. *)
Lemma tracked_fetch_fails (msg : string) (d : Driver) (c : clcgo.Client)
    (sts : list clcgo.Status) (bad : clcgo.Status) (e : error) :
  Forall notSucceeded sts ->
  forall (st0 : clcgo.Status) (h0 : History),
    HasSucceeded st0 = false ->
    answersStatus env h0 (List.map reported sts ++ [(bad, Some e)]) ->
    runs env (ITree.iter (trackedBody msg d c) st0) h0
      (h0 ++ pollTrace (trackedRound msg c) st0 sts
          ++ [statusWait; GetStatus c (lastStatus st0 sts)]) (d, Some e).
Proof.
  intros Hsts. induction Hsts as [| st1 sts H1 _ IH]; intros st0 h0 H0 Hans.
  - cbn [app List.map pollTrace lastStatus last] in *.
    apply runs_iter_done. eapply tracked_turn_fails; [exact H0 |].
    apply (answersStatus_head _ _ _ _ Hans [statusWait]). reflexivity.
  - cbn [app List.map pollTrace] in *.
    rewrite lastStatus_cons.
    rewrite <- app_assoc, app_assoc.
    eapply runs_iter_again.
    + apply tracked_turn; [exact H0 |].
      apply (answersStatus_head _ _ _ _ Hans [statusWait]). reflexivity.
    + apply IH; [exact H1 |].
      eapply answersStatus_tail; [exact Hans | reflexivity].
Qed.

(** However the provider answers: the loop is left without an error only
    on a status that has succeeded, the handle's own or the one fetched
    last; and it is left with an error only by the status fetch it has just
    made, whose error it returns. *)
Lemma tracked_returns (msg : string) (d : Driver) (c : clcgo.Client)
    (st0 : clcgo.Status) (h h' : History) (d' : Driver) (r : option error) :
  runs env (ITree.iter (trackedBody msg d c) st0) h h' (d', r) ->
  d' = d /\
  match r with
  | None =>
      (HasSucceeded st0 = true /\ h' = h) \/
      (exists hp st st',
          h' = hp ++ [GetStatus c st;
                      Logf DebugLevel msg [ArgS (clcgo.Status_of st')]]
          /\ env (GetStatus c st) hp = (st', None)
          /\ HasSucceeded st' = true)
  | Some e =>
      exists hp st st',
        h' = hp ++ [GetStatus c st] /\ env (GetStatus c st) hp = (st', Some e)
  end.
Proof.
  revert h st0 h' d' r.
  set (Inv := fun (h0 : History) (st0 : clcgo.Status) (hi : History) (i : clcgo.Status) =>
    (i = st0 /\ hi = h0) \/
    (exists hp st,
        hi = hp ++ [GetStatus c st;
                    Logf DebugLevel msg [ArgS (clcgo.Status_of i)]]
        /\ env (GetStatus c st) hp = (i, None))).
  intros h st0 h' d' r Hrun.
  refine (runs_iter_inv env (trackedBody msg d c) (Inv h st0)
            (fun hf (x : Driver * option error) =>
               fst x = d /\
               match snd x with
               | None =>
                   (HasSucceeded st0 = true /\ hf = h) \/
                   (exists hp st st',
                       hf = hp ++ [GetStatus c st;
                                   Logf DebugLevel msg [ArgS (clcgo.Status_of st')]]
                       /\ env (GetStatus c st) hp = (st', None)
                       /\ HasSucceeded st' = true)
               | Some e =>
                   exists hp st st',
                     hf = hp ++ [GetStatus c st]
                     /\ env (GetStatus c st) hp = (st', Some e)
               end) _ h st0 h' (d', r) _ Hrun).
  - clear. intros hi i h1 x HI Hb. cbv beta in Hb.
    destruct (HasSucceeded i) eqn:Hi; cbn [negb] in Hb; run_inv Hb.
    + cbn [fst snd]. split; [reflexivity |].
      destruct HI as [[-> ->] | (hp & st & -> & Hf)].
      * left. split; [exact Hi | reflexivity].
      * right. exists hp, st, i. repeat split; assumption.
    + cbn [fst snd]. split; [reflexivity |]. eexists _, _, _. split; [| eassumption].
      rewrite <- app_assoc. reflexivity.
    + right. eexists _, _. split; [| eassumption].
      rewrite <- !app_assoc. reflexivity.
  - left. split; reflexivity.
Qed.

Lemma checked_turn (c : clcgo.Client) (st st' : clcgo.Status) (h : History) :
  HasSucceeded st = false ->
  env (GetStatus c st)
      (h ++ [statusWait; Logf DebugLevel "Checking status..." []]) = (st', None) ->
  runs env (checkedBody c st) h (h ++ checkedRound c st st') (inl st').
Proof.
  intros Hst Hf. cbv beta. rewrite Hst. cbn [negb].
  run_call. run_call. run_call. fold statusWait.
  rewrite <- app_assoc. cbn [app]. rewrite Hf. run_ret.
Qed.

Lemma checked_turn_fails (c : clcgo.Client) (st st' : clcgo.Status) (e : error)
    (h : History) :
  HasSucceeded st = false ->
  env (GetStatus c st)
      (h ++ [statusWait; Logf DebugLevel "Checking status..." []]) = (st', Some e) ->
  runs env (checkedBody c st) h
    (h ++ [statusWait; Logf DebugLevel "Checking status..." []; GetStatus c st])
    (inr (Some e)).
Proof.
  intros Hst Hf. cbv beta. rewrite Hst. cbn [negb].
  run_call. run_call. run_call. fold statusWait.
  rewrite <- app_assoc. cbn [app]. rewrite Hf. run_ret.
Qed.

Lemma checked_done (c : clcgo.Client) (st : clcgo.Status) (h : History) :
  HasSucceeded st = true ->
  runs env (ITree.iter (checkedBody c) st) h h None.
Proof.
  intros Hst. apply runs_iter_done. cbv beta. rewrite Hst. cbn [negb].
  apply runs_ret.
Qed.

Lemma checked_succeeds (c : clcgo.Client)
    (sts : list clcgo.Status) (fin : clcgo.Status) :
  Forall notSucceeded sts -> HasSucceeded fin = true ->
  forall (st0 : clcgo.Status) (h0 : History),
    HasSucceeded st0 = false ->
    answersStatus env h0 (List.map reported (sts ++ [fin])) ->
    runs env (ITree.iter (checkedBody c) st0) h0
      (h0 ++ pollTrace (checkedRound c) st0 (sts ++ [fin])) None.
Proof.
  intros Hsts Hfin. induction Hsts as [| st1 sts H1 _ IH]; intros st0 h0 H0 Hans.
  - cbn [app List.map pollTrace] in *. rewrite app_nil_r.
    eapply runs_iter_again.
    + apply checked_turn; [exact H0 |].
      apply (answersStatus_head _ _ _ _ Hans [statusWait; _]). reflexivity.
    + apply checked_done. exact Hfin.
  - cbn [app List.map pollTrace] in *. rewrite app_assoc.
    eapply runs_iter_again.
    + apply checked_turn; [exact H0 |].
      apply (answersStatus_head _ _ _ _ Hans [statusWait; _]). reflexivity.
    + apply IH; [exact H1 |].
      eapply answersStatus_tail; [exact Hans | reflexivity].
Qed.

Lemma checked_fetch_fails (c : clcgo.Client)
    (sts : list clcgo.Status) (bad : clcgo.Status) (e : error) :
  Forall notSucceeded sts ->
  forall (st0 : clcgo.Status) (h0 : History),
    HasSucceeded st0 = false ->
    answersStatus env h0 (List.map reported sts ++ [(bad, Some e)]) ->
    runs env (ITree.iter (checkedBody c) st0) h0
      (h0 ++ pollTrace (checkedRound c) st0 sts
          ++ [statusWait; Logf DebugLevel "Checking status..." [];
              GetStatus c (lastStatus st0 sts)]) (Some e).
Proof.
  intros Hsts. induction Hsts as [| st1 sts H1 _ IH]; intros st0 h0 H0 Hans.
  - cbn [app List.map pollTrace lastStatus last] in *.
    apply runs_iter_done. eapply checked_turn_fails; [exact H0 |].
    apply (answersStatus_head _ _ _ _ Hans [statusWait; _]). reflexivity.
  - cbn [app List.map pollTrace] in *.
    rewrite lastStatus_cons.
    rewrite <- app_assoc, app_assoc.
    eapply runs_iter_again.
    + apply checked_turn; [exact H0 |].
      apply (answersStatus_head _ _ _ _ Hans [statusWait; _]). reflexivity.
    + apply IH; [exact H1 |].
      eapply answersStatus_tail; [exact Hans | reflexivity].
Qed.

(** ** The power operations: [doOperation] *)

Lemma doOperation_save_failed (t : clcgo.OperationType) (d d1 : Driver)
    (h h1 : History) (c : clcgo.Client) (s : clcgo.Server)
    (st : clcgo.Status) (e : error) :
  runs env (getServer d) h h1 (d1, inl (c, s)) ->
  env (operationSave c s t) (h1 ++ [operationLog t s]) = (st, Some e) ->
  runs env (doOperation t d) h
    (h1 ++ [operationLog t s; operationSave c s t]) (d1, None).
Proof.
  intros Hgs Hsave. unfold doOperation.
  eapply runs_bind; [exact Hgs |]. cbv beta iota.
  run_call. run_call. fold (operationLog t s) (operationSave c s t).
  rewrite Hsave. run_ret.
Qed.

(** Once the operation is submitted, [doOperation] is its wait loop. *)
Lemma doOperation_submitted (t : clcgo.OperationType) (d d1 : Driver)
    (h h1 : History) (c : clcgo.Client) (s : clcgo.Server) (st0 : clcgo.Status) :
  runs env (getServer d) h h1 (d1, inl (c, s)) ->
  env (operationSave c s t) (h1 ++ [operationLog t s]) = (st0, None) ->
  forall h' x,
    runs env (doOperation t d) h h' x <->
    runs env (ITree.iter (trackedBody "Operation status: %s" d1 c) st0)
      (h1 ++ [operationLog t s; operationSave c s t]) h' x.
Proof.
  intros Hgs Hsave h' x. split.
  - intros H. unfold doOperation in H.
    apply runs_bind_inv in H. destruct H as (h1' & a & Ha & H).
    destruct (runs_det _ _ _ _ _ _ _ Ha Hgs) as [-> ->]. cbv beta iota in H.
    apply runs_bind_inv in H. destruct H as (h2 & u & Hlog & H).
    apply runs_call_inv in Hlog. destruct Hlog as [-> ->].
    apply runs_bind_inv in H. destruct H as (h3 & r & Hsv & H).
    apply runs_call_inv in Hsv. destruct Hsv as [-> ->].
    fold (operationLog t s) (operationSave c s t) in H.
    rewrite Hsave in H. cbv beta iota in H.
    rewrite <- app_assoc in H. exact H.
  - intros H. unfold doOperation.
    eapply runs_bind; [exact Hgs |]. cbv beta iota.
    run_call. run_call. fold (operationLog t s) (operationSave c s t).
    rewrite Hsave. cbv beta iota. rewrite <- app_assoc. exact H.
Qed.

Lemma Start_doOperation (d d' : Driver) (h h' : History) (r : option error) :
  runs env (doOperation clcgo.PowerOnServer d) h h' (d', r) ->
  runs env (Start d) h h' (d', r).
Proof.
  intros H. unfold Start. eapply runs_bind; [exact H |].
  destruct r; apply runs_ret.
Qed.

Lemma Stop_doOperation (d d' : Driver) (h h' : History) (r : option error) :
  runs env (doOperation clcgo.PowerOffServer d) h h' (d', r) ->
  runs env (Stop d) h h' (d', r).
Proof.
  intros H. unfold Stop. eapply runs_bind; [exact H |].
  destruct r; apply runs_ret.
Qed.

Lemma Restart_doOperation (d d' : Driver) (h h' : History) (r : option error) :
  runs env (doOperation clcgo.RebootServer d) h h' (d', r) ->
  runs env (Restart d) h h' (d', r).
Proof.
  intros H. unfold Restart. eapply runs_bind; [exact H |].
  destruct r; apply runs_ret.
Qed.

Lemma Kill_doOperation (d d' : Driver) (h h' : History) (r : option error) :
  runs env (doOperation clcgo.PowerOffServer d) h h' (d', r) ->
  runs env (Kill d) h h' (d', r).
Proof.
  intros H. unfold Kill. eapply runs_bind; [exact H |].
  destruct r; apply runs_ret.
Qed.

(** C1.  When the server is resolved and the [SaveEntity] that submits the
    operation fails, [doOperation] returns [nil]: the error is dropped, and
    the history ends with the failed submission, so no wait and no status
    fetch follow it.  [Start], [Stop], [Restart] and [Kill] return what
    [doOperation] returns for their kind of operation. *)
Theorem doOperation_drops_submission_error (d d1 : Driver) (h h1 : History)
    (c : clcgo.Client) (s : clcgo.Server) :
  runs env (getServer d) h h1 (d1, inl (c, s)) ->
  let failed (t : clcgo.OperationType) : Prop :=
    exists st e,
      env (operationSave c s t) (h1 ++ [operationLog t s]) = (st, Some e) in
  let dropped (t : clcgo.OperationType)
              (m : Driver -> itree driverE (Driver * option error)) : Prop :=
    runs env (m d) h (h1 ++ [operationLog t s; operationSave c s t]) (d1, None) in
  (forall t, failed t -> dropped t (doOperation t))
  /\ (failed clcgo.PowerOnServer -> dropped clcgo.PowerOnServer Start)
  /\ (failed clcgo.PowerOffServer -> dropped clcgo.PowerOffServer Stop)
  /\ (failed clcgo.RebootServer -> dropped clcgo.RebootServer Restart)
  /\ (failed clcgo.PowerOffServer -> dropped clcgo.PowerOffServer Kill).
Proof.
  intros Hgs failed dropped.
  assert (Hdo : forall t, failed t -> dropped t (doOperation t)).
  { intros t (st & e & Hsave). eapply doOperation_save_failed; eassumption. }
  split; [exact Hdo |]. split; [| split; [| split]]; intros Hf.
  - apply Start_doOperation, Hdo, Hf.
  - apply Stop_doOperation, Hdo, Hf.
  - apply Restart_doOperation, Hdo, Hf.
  - apply Kill_doOperation, Hdo, Hf.
Qed.

(** C2.  After [doOperation] has resolved the server and submitted the
    operation, with the handle [st0]:
    - whatever the provider answers, [doOperation] returns [nil] only on a
      status that has succeeded: the handle itself, or else the status it
      fetched last, with no error;
    - when the handle has not succeeded and the provider answers the status
      fetches with [N] statuses that have not succeeded and then one that
      has, [doOperation] returns [nil] after exactly [N+1] fetches and [N+1]
      waits, every fetch coming right after a wait of ten seconds; it has no
      other run. *)
Theorem doOperation_waits_for_success (t : clcgo.OperationType) (d d1 : Driver)
    (h h1 : History) (c : clcgo.Client) (s : clcgo.Server) (st0 : clcgo.Status) :
  runs env (getServer d) h h1 (d1, inl (c, s)) ->
  env (operationSave c s t) (h1 ++ [operationLog t s]) = (st0, None) ->
  let h2 := h1 ++ [operationLog t s; operationSave c s t] in
  (forall h' d',
     runs env (doOperation t d) h h' (d', None) ->
     (HasSucceeded st0 = true /\ h' = h2) \/
     (exists hp st st',
         h' = hp ++ [GetStatus c st;
                     Logf DebugLevel "Operation status: %s"
                       [ArgS (clcgo.Status_of st')]]
         /\ env (GetStatus c st) hp = (st', None)
         /\ HasSucceeded st' = true))
  /\
  (HasSucceeded st0 = false ->
   forall (sts : list clcgo.Status) (fin : clcgo.Status),
     Forall notSucceeded sts -> HasSucceeded fin = true ->
     answersStatus env h2 (List.map reported (sts ++ [fin])) ->
     let polled :=
       pollTrace (trackedRound "Operation status: %s" c) st0 (sts ++ [fin]) in
     runs env (doOperation t d) h (h2 ++ polled) (d1, None)
     /\ (forall h' x,
           runs env (doOperation t d) h h' x ->
           h' = h2 ++ polled /\ x = (d1, None))
     /\ countStatus polled = S (List.length sts)
     /\ countSleep polled = S (List.length sts)
     /\ fetchesDelayed polled).
Proof.
  intros Hgs Hsave h2. split.
  - intros h' d' H.
    apply (doOperation_submitted _ _ _ _ _ _ _ _ Hgs Hsave) in H.
    apply tracked_returns in H. destruct H as [_ H]. exact H.
  - intros H0 sts fin Hsts Hfin Hans polled.
    assert (Hrun : runs env (doOperation t d) h (h2 ++ polled) (d1, None)).
    { apply (doOperation_submitted _ _ _ _ _ _ _ _ Hgs Hsave).
      apply tracked_succeeds; assumption. }
    split; [exact Hrun |]. split; [| split; [| split]].
    + intros h' x H. apply (runs_det _ _ _ _ _ _ _ H Hrun).
    + unfold polled. rewrite countStatus_tracked, length_app, Nat.add_comm.
      reflexivity.
    + unfold polled. rewrite countSleep_tracked, length_app, Nat.add_comm.
      reflexivity.
    + apply fetchesDelayed_tracked.
Qed.

(** ** Deletion: [Remove] *)

Lemma Remove_delete_failed (d d1 : Driver) (h h1 : History)
    (c : clcgo.Client) (s : clcgo.Server) (st : clcgo.Status) (e : error) :
  runs env (getServer d) h h1 (d1, inl (c, s)) ->
  env (DeleteServer c s) h1 = (st, Some e) ->
  runs env (Remove d) h (h1 ++ [DeleteServer c s]) (d1, Some e).
Proof.
  intros Hgs Hdel. unfold Remove.
  eapply runs_bind; [exact Hgs |]. cbv beta iota.
  run_call. rewrite Hdel. run_ret.
Qed.

(** Once the deletion is submitted, [Remove] is its wait loop. *)
Lemma Remove_submitted (d d1 : Driver) (h h1 : History)
    (c : clcgo.Client) (s : clcgo.Server) (st0 : clcgo.Status) :
  runs env (getServer d) h h1 (d1, inl (c, s)) ->
  env (DeleteServer c s) h1 = (st0, None) ->
  forall h' x,
    runs env (Remove d) h h' x <->
    runs env (ITree.iter (trackedBody "Deletion status: %s" d1 c) st0)
      (h1 ++ [DeleteServer c s]) h' x.
Proof.
  intros Hgs Hdel h' x. split.
  - intros H. unfold Remove in H.
    apply runs_bind_inv in H. destruct H as (h1' & a & Ha & H).
    destruct (runs_det _ _ _ _ _ _ _ Ha Hgs) as [-> ->]. cbv beta iota in H.
    apply runs_bind_inv in H. destruct H as (h3 & r & Hsv & H).
    apply runs_call_inv in Hsv. destruct Hsv as [-> ->].
    rewrite Hdel in H. exact H.
  - intros H. unfold Remove.
    eapply runs_bind; [exact Hgs |]. cbv beta iota.
    run_call. rewrite Hdel. cbv beta iota. exact H.
Qed.

(** C9.  When the server is resolved and the [DeleteEntity] fails, [Remove]
    returns that error, and the history ends with the failed submission: the
    wait loop is not entered.  (For the same failure of its submission
    [doOperation] returns [nil].)  When the [DeleteEntity] gives a handle,
    [Remove] goes on to the loop: it returns at once for a handle that has
    succeeded, and otherwise waits and fetches the status until it has. *)
Theorem Remove_propagates_submission_error (d d1 : Driver) (h h1 : History)
    (c : clcgo.Client) (s : clcgo.Server) :
  runs env (getServer d) h h1 (d1, inl (c, s)) ->
  let h2 := h1 ++ [DeleteServer c s] in
  (forall st e,
     env (DeleteServer c s) h1 = (st, Some e) ->
     runs env (Remove d) h h2 (d1, Some e))
  /\
  (forall t st e,
     env (operationSave c s t) (h1 ++ [operationLog t s]) = (st, Some e) ->
     runs env (doOperation t d) h
       (h1 ++ [operationLog t s; operationSave c s t]) (d1, None))
  /\
  (forall st0,
     env (DeleteServer c s) h1 = (st0, None) ->
     (HasSucceeded st0 = true -> runs env (Remove d) h h2 (d1, None))
     /\
     (HasSucceeded st0 = false ->
      forall (sts : list clcgo.Status) (fin : clcgo.Status),
        Forall notSucceeded sts -> HasSucceeded fin = true ->
        answersStatus env h2 (List.map reported (sts ++ [fin])) ->
        runs env (Remove d) h
          (h2 ++ pollTrace (trackedRound "Deletion status: %s" c) st0
                   (sts ++ [fin]))
          (d1, None))).
Proof.
  intros Hgs h2. split; [| split].
  - intros st e Hdel. eapply Remove_delete_failed; eassumption.
  - intros t st e Hsave. eapply doOperation_save_failed; eassumption.
  - intros st0 Hdel. split.
    + intros H0. apply (Remove_submitted _ _ _ _ _ _ _ Hgs Hdel).
      apply tracked_done. exact H0.
    + intros H0 sts fin Hsts Hfin Hans.
      apply (Remove_submitted _ _ _ _ _ _ _ Hgs Hdel).
      apply tracked_succeeds; assumption.
Qed.

(** ** The wait loops of the provisioning steps *)

Lemma createServer_fetch_fails (d : Driver) (c : clcgo.Client) (h : History)
    (s1 : clcgo.Server) (st0 bad : clcgo.Status) (sts : list clcgo.Status)
    (e : error) :
  let create := SaveServer c (requestedServer d) in
  env create (h ++ [creationLog]) = (s1, (st0, None)) ->
  HasSucceeded st0 = false ->
  Forall notSucceeded sts ->
  answersStatus env (h ++ [creationLog; create])
    (List.map reported sts ++ [(bad, Some e)]) ->
  runs env (createServer d c) h
    (h ++ [creationLog; create] ++ pollTrace (checkedRound c) st0 sts
       ++ checkedFailure c (lastStatus st0 sts))
    (d, (s1, Some e)).
Proof.
  intros create Hsave H0 Hsts Hans. unfold createServer.
  run_call. run_call. fold creationLog (requestedServer d) create.
  rewrite Hsave. cbv beta iota.
  eapply runs_bind.
  - rewrite <- app_assoc. cbn [app].
    apply (checked_fetch_fails c sts bad e Hsts st0 _ H0 Hans).
  - cbv beta iota. run_ret.
Qed.

Lemma addPublicIPAddress_fetch_fails (d : Driver) (c : clcgo.Client)
    (s : clcgo.Server) (h : History)
    (st0 bad : clcgo.Status) (sts : list clcgo.Status) (e : error) :
  env (attachSave c s) (h ++ [attachLog]) = (st0, None) ->
  HasSucceeded st0 = false ->
  Forall notSucceeded sts ->
  answersStatus env (h ++ [attachLog; attachSave c s])
    (List.map reported sts ++ [(bad, Some e)]) ->
  runs env (addPublicIPAddress d c s) h
    (h ++ [attachLog; attachSave c s] ++ pollTrace (checkedRound c) st0 sts
       ++ checkedFailure c (lastStatus st0 sts))
    (s, Some e).
Proof.
  intros Hsave H0 Hsts Hans. unfold addPublicIPAddress.
  run_call. run_call. fold attachLog (attachSave c s).
  rewrite Hsave. cbv beta iota.
  eapply runs_bind.
  - rewrite <- app_assoc. cbn [app].
    apply (checked_fetch_fails c sts bad e Hsts st0 _ H0 Hans).
  - cbv beta iota. run_ret.
Qed.

(** C8.  In each of the four wait loops, when the provider has answered the
    status fetches with statuses that have not succeeded and then fails one
    fetch with the error [e], the method returns [e], and the failed fetch
    is the last call of its history: the fetch is not made again and nothing
    follows it.  And whatever the provider answers, an error that
    [doOperation] or [Remove] returns once its request is submitted is the
    error of a status fetch, which is the last call of the history. *)
Theorem status_fetch_failure_aborts (sts : list clcgo.Status)
    (bad : clcgo.Status) (e : error) :
  Forall notSucceeded sts ->
  let script := List.map reported sts ++ [(bad, Some e)] in
  (forall t d d1 h h1 c s st0,
     runs env (getServer d) h h1 (d1, inl (c, s)) ->
     env (operationSave c s t) (h1 ++ [operationLog t s]) = (st0, None) ->
     HasSucceeded st0 = false ->
     let h2 := h1 ++ [operationLog t s; operationSave c s t] in
     answersStatus env h2 script ->
     runs env (doOperation t d) h
       (h2 ++ pollTrace (trackedRound "Operation status: %s" c) st0 sts
           ++ [statusWait; GetStatus c (lastStatus st0 sts)])
       (d1, Some e))
  /\
  (forall d d1 h h1 c s st0,
     runs env (getServer d) h h1 (d1, inl (c, s)) ->
     env (DeleteServer c s) h1 = (st0, None) ->
     HasSucceeded st0 = false ->
     let h2 := h1 ++ [DeleteServer c s] in
     answersStatus env h2 script ->
     runs env (Remove d) h
       (h2 ++ pollTrace (trackedRound "Deletion status: %s" c) st0 sts
           ++ [statusWait; GetStatus c (lastStatus st0 sts)])
       (d1, Some e))
  /\
  (forall d c h s1 st0,
     let create := SaveServer c (requestedServer d) in
     env create (h ++ [creationLog]) = (s1, (st0, None)) ->
     HasSucceeded st0 = false ->
     answersStatus env (h ++ [creationLog; create]) script ->
     runs env (createServer d c) h
       (h ++ [creationLog; create] ++ pollTrace (checkedRound c) st0 sts
          ++ checkedFailure c (lastStatus st0 sts))
       (d, (s1, Some e)))
  /\
  (forall d c s h st0,
     env (attachSave c s) (h ++ [attachLog]) = (st0, None) ->
     HasSucceeded st0 = false ->
     answersStatus env (h ++ [attachLog; attachSave c s]) script ->
     runs env (addPublicIPAddress d c s) h
       (h ++ [attachLog; attachSave c s] ++ pollTrace (checkedRound c) st0 sts
          ++ checkedFailure c (lastStatus st0 sts))
       (s, Some e))
  /\
  (forall t d d1 h h1 c s st0 h' d' e',
     runs env (getServer d) h h1 (d1, inl (c, s)) ->
     env (operationSave c s t) (h1 ++ [operationLog t s]) = (st0, None) ->
     runs env (doOperation t d) h h' (d', Some e') ->
     exists hp st st',
       h' = hp ++ [GetStatus c st] /\ env (GetStatus c st) hp = (st', Some e'))
  /\
  (forall d d1 h h1 c s st0 h' d' e',
     runs env (getServer d) h h1 (d1, inl (c, s)) ->
     env (DeleteServer c s) h1 = (st0, None) ->
     runs env (Remove d) h h' (d', Some e') ->
     exists hp st st',
       h' = hp ++ [GetStatus c st] /\ env (GetStatus c st) hp = (st', Some e')).
Proof.
  intros Hsts script. split; [| split; [| split; [| split; [| split]]]].
  - intros t d d1 h h1 c s st0 Hgs Hsave H0 h2 Hans.
    apply (doOperation_submitted _ _ _ _ _ _ _ _ Hgs Hsave).
    apply (tracked_fetch_fails _ _ _ sts bad e Hsts _ _ H0 Hans).
  - intros d d1 h h1 c s st0 Hgs Hdel H0 h2 Hans.
    apply (Remove_submitted _ _ _ _ _ _ _ Hgs Hdel).
    apply (tracked_fetch_fails _ _ _ sts bad e Hsts _ _ H0 Hans).
  - intros d c h s1 st0 create Hsave H0 Hans.
    eapply createServer_fetch_fails; eassumption.
  - intros d c s h st0 Hsave H0 Hans.
    eapply addPublicIPAddress_fetch_fails; eassumption.
  - intros t d d1 h h1 c s st0 h' d' e' Hgs Hsave H.
    apply (doOperation_submitted _ _ _ _ _ _ _ _ Hgs Hsave) in H.
    apply tracked_returns in H. destruct H as [_ H]. exact H.
  - intros d d1 h h1 c s st0 h' d' e' Hgs Hdel H.
    apply (Remove_submitted _ _ _ _ _ _ _ Hgs Hdel) in H.
    apply tracked_returns in H. destruct H as [_ H]. exact H.
Qed.

(** ** The queries: [GetIP] and [GetState] *)

Lemma GetIP_found (d d1 : Driver) (h h1 : History) (c : clcgo.Client)
    (s : clcgo.Server) :
  runs env (getServer d) h h1 (d1, inl (c, s)) ->
  publicIPFromServer s <> EmptyString ->
  runs env (GetIP d) h h1 (d1, inl (publicIPFromServer s)).
Proof.
  intros Hgs Hip. unfold GetIP.
  eapply runs_bind; [exact Hgs |]. cbv beta iota zeta.
  apply isEmpty_false in Hip. rewrite Hip. apply runs_ret.
Qed.

(** C6.  When the server is resolved, [GetIP] returns the [Public] field of
    the first of its addresses whose [Public] field is not empty (an address
    that is only private has it empty); when the server has no address, or
    none with a [Public] field, [GetIP] returns the error "no IP could be
    found for this server".  No run of [GetIP] returns the empty string
    without an error. *)
Theorem GetIP_first_public (d d1 : Driver) (h h1 : History) (c : clcgo.Client)
    (s : clcgo.Server) :
  runs env (getServer d) h h1 (d1, inl (c, s)) ->
  (forall pre a post,
     clcgo.IPAddresses (clcgo.Details s) = pre ++ a :: post ->
     Forall noPublic pre ->
     clcgo.Public a <> EmptyString ->
     runs env (GetIP d) h h1 (d1, inl (clcgo.Public a)))
  /\
  (Forall noPublic (clcgo.IPAddresses (clcgo.Details s)) ->
   runs env (GetIP d) h h1
     (d1, inr (errorString "no IP could be found for this server")))
  /\
  (forall h' d', ~ runs env (GetIP d) h h' (d', inl EmptyString)).
Proof.
  intros Hgs. split; [| split].
  - intros pre a post Hl Hpre Ha.
    rewrite <- (publicIPFromServer_first s pre post a Hl Hpre Ha).
    apply (GetIP_found _ _ _ _ c s Hgs).
    rewrite (publicIPFromServer_first s pre post a Hl Hpre Ha). exact Ha.
  - intros Hall. unfold GetIP.
    eapply runs_bind; [exact Hgs |]. cbv beta iota zeta.
    rewrite (publicIPFromServer_none s Hall). apply runs_ret.
  - intros h' d' H. unfold GetIP in H.
    apply runs_bind_inv in H. destruct H as (h1' & a & Ha & H).
    destruct (runs_det _ _ _ _ _ _ _ Ha Hgs) as [-> ->]. cbv beta iota zeta in H.
    destruct (isEmpty (publicIPFromServer s)) eqn:Hip; cbn [negb] in H;
      apply runs_ret_inv in H; destruct H as [_ H]; inversion H as [[Hd Hs]].
    rewrite <- Hs in Hip. discriminate Hip.
Qed.

(** C7.  When the server is resolved, [GetState] returns [Running] for a
    server that is active, [Paused] for one that is not active and is
    paused, and [Stopped] for any other, with no error.  When the server is
    not resolved, [GetState] returns [Error] with the error of [getServer];
    no run of [GetState] returns an error beside any other state. *)
Theorem GetState_maps (d d1 : Driver) (h h1 : History) :
  (forall c s,
     runs env (getServer d) h h1 (d1, inl (c, s)) ->
     (IsActive s = true ->
      runs env (GetState d) h h1 (d1, (state.Running, None)))
     /\
     (IsActive s = false -> IsPaused s = true ->
      runs env (GetState d) h h1 (d1, (state.Paused, None)))
     /\
     (IsActive s = false -> IsPaused s = false ->
      runs env (GetState d) h h1 (d1, (state.Stopped, None))))
  /\
  (forall s err,
     runs env (getServer d) h h1 (d1, inr (s, err)) ->
     runs env (GetState d) h h1 (d1, (state.Error, Some err)))
  /\
  (forall h' d' st e,
     runs env (GetState d) h h' (d', (st, Some e)) -> st = state.Error).
Proof.
  split; [| split].
  - intros c s Hgs. split; [| split].
    + intros Ha. unfold GetState.
      eapply runs_bind; [exact Hgs |]. cbv beta iota. rewrite Ha. apply runs_ret.
    + intros Ha Hp. unfold GetState.
      eapply runs_bind; [exact Hgs |]. cbv beta iota. rewrite Ha, Hp.
      apply runs_ret.
    + intros Ha Hp. unfold GetState.
      eapply runs_bind; [exact Hgs |]. cbv beta iota. rewrite Ha, Hp.
      apply runs_ret.
  - intros s err Hgs. unfold GetState.
    eapply runs_bind; [exact Hgs |]. cbv beta iota. apply runs_ret.
  - intros h' d' st e H. unfold GetState in H. run_inv H; reflexivity.
Qed.

(** ** The remote commands: [Upgrade] *)

Lemma GetSSHCommand_found (d d1 : Driver) (h h1 : History) (c : clcgo.Client)
    (s : clcgo.Server) (args : list string) :
  runs env (getServer d) h h1 (d1, inl (c, s)) ->
  publicIPFromServer s <> EmptyString ->
  runs env (GetSSHCommand d args) h h1
    (d1, inl (ssh.GetSSHCommand (publicIPFromServer s) 22 "root"
                (sshKeyPath d1) args)).
Proof.
  intros Hgs Hip. unfold GetSSHCommand.
  eapply runs_bind; [apply (GetIP_found _ _ _ _ _ _ Hgs Hip) |].
  cbv beta iota. apply runs_ret.
Qed.

(** C10.  When the command is built, [Upgrade] runs it; if that run fails,
    its error is returned and the command is not run again; if it succeeds,
    the same command is run a second time, and what the second run returns,
    an error or none, is what [Upgrade] returns. *)
Theorem Upgrade_runs_twice (d d1 : Driver) (h h1 : History) (cmd : ssh.Cmd) :
  runs env
    (GetSSHCommand d
       ["sudo apt-get update && apt-get install --upgrade lxc-docker"])
    (h ++ [Logf DebugLevel "Upgrading Docker" []]) h1 (d1, inl cmd) ->
  (forall e,
     env (CmdRun cmd) h1 = Some e ->
     runs env (Upgrade d) h (h1 ++ [CmdRun cmd]) (d1, Some e))
  /\
  (env (CmdRun cmd) h1 = None ->
   runs env (Upgrade d) h (h1 ++ [CmdRun cmd; CmdRun cmd])
     (d1, env (CmdRun cmd) (h1 ++ [CmdRun cmd]))).
Proof.
  intros Hcmd. split.
  - intros e Hrun. unfold Upgrade. run_call.
    eapply runs_bind; [exact Hcmd |]. cbv beta iota.
    run_call. rewrite Hrun. run_ret.
  - intros Hrun. unfold Upgrade. run_call.
    eapply runs_bind; [exact Hcmd |]. cbv beta iota.
    run_call. rewrite Hrun. run_call. run_ret.
Qed.

(** ** Provisioning: the steps *)

Lemma logAndReturnError_runs (err : error) (h : History) :
  runs env (logAndReturnError err) h (h ++ errorLines err) err.
Proof.
  destruct err as [code errs | msg]; cbn [logAndReturnError errorLines].
  - eapply runs_bind; [| apply runs_ret].
    apply runs_forEach. intros fms h0.
    replace (List.map (fun m => Logf ErrorLevel "%v: %v" [ArgS (fst fms); ArgS m])
               (snd fms))
      with (flat_map (fun m => [Logf ErrorLevel "%v: %v" [ArgS (fst fms); ArgS m]])
              (snd fms))
      by (induction (snd fms) as [| m ms IH]; cbn; [reflexivity | rewrite IH; reflexivity]).
    apply runs_forEach. intros m h1.
    pose proof (runs_call env (Logf ErrorLevel "%v: %v" [ArgS (fst fms); ArgS m]) h1) as H.
    destruct (env (Logf ErrorLevel "%v: %v" [ArgS (fst fms); ArgS m]) h1).
    exact H.
  - rewrite app_nil_r. apply runs_ret.
Qed.

Lemma createServer_succeeds (d : Driver) (c : clcgo.Client) (h : History)
    (s1 s2 : clcgo.Server) (st0 fin : clcgo.Status) (sts : list clcgo.Status) :
  let create := SaveServer c (requestedServer d) in
  env create (h ++ [creationLog]) = (s1, (st0, None)) ->
  HasSucceeded st0 = false ->
  Forall notSucceeded sts -> HasSucceeded fin = true ->
  answersStatus env (h ++ [creationLog; create])
    (List.map reported (sts ++ [fin])) ->
  let h1 := h ++ [creationLog; create]
              ++ pollTrace (checkedRound c) st0 (sts ++ [fin]) in
  env (GetServer c s1) h1 = (s2, None) ->
  runs env (createServer d c) h
    (h1 ++ [GetServer c s1;
            Logf InfoLevel "Server '%s' is provisioned" [ArgS (clcgo.Name s2)]])
    (setServerID d (clcgo.ID s2), (s2, None)).
Proof.
  intros create Hsave H0 Hsts Hfin Hans h1 Hget. unfold createServer.
  run_call. run_call. fold creationLog (requestedServer d) create.
  rewrite Hsave. cbv beta iota.
  eapply runs_bind.
  - rewrite <- app_assoc. cbn [app].
    apply (checked_succeeds c sts fin Hsts Hfin st0 _ H0 Hans).
  - cbv beta iota. run_call.
    replace ((h ++ [creationLog; create])
               ++ pollTrace (checkedRound c) st0 (sts ++ [fin])) with h1
      by (unfold h1; rewrite <- app_assoc; reflexivity).
    rewrite Hget. run_call. run_ret.
Qed.

Lemma addPublicIPAddress_save_failed (d : Driver) (c : clcgo.Client)
    (s : clcgo.Server) (h : History) (st : clcgo.Status) (e : error) :
  env (attachSave c s) (h ++ [attachLog]) = (st, Some e) ->
  runs env (addPublicIPAddress d c s) h
    (h ++ [attachLog; attachSave c s] ++ errorLines e) (s, Some e).
Proof.
  intros Hsave. unfold addPublicIPAddress.
  run_call. run_call. fold attachLog (attachSave c s).
  rewrite Hsave. cbv beta iota.
  eapply runs_bind; [apply logAndReturnError_runs |]. run_ret.
Qed.

(** ** Provisioning: [Create] *)

Lemma updateAPICredentials_calls (d : Driver) (c : clcgo.Client) :
  makesOnly env beforeTrust (updateAPICredentials d c).
Proof. unfold updateAPICredentials. cbv zeta. only_calls. Qed.

Lemma getClientWithPersistence_calls (d : Driver) :
  makesOnly env beforeTrust (getClientWithPersistence d).
Proof.
  pose proof updateAPICredentials_calls.
  unfold getClientWithPersistence. cbv zeta. only_calls.
Qed.

Lemma logAndReturnError_calls (err : error) :
  makesOnly env beforeTrust (logAndReturnError err).
Proof. unfold logAndReturnError. only_calls. Qed.

Lemma createServer_calls (d : Driver) (c : clcgo.Client) :
  makesOnly env beforeTrust (createServer d c).
Proof.
  pose proof logAndReturnError_calls.
  unfold createServer. cbv zeta. only_calls.
Qed.

Lemma addPublicIPAddress_calls (d : Driver) (c : clcgo.Client) (s : clcgo.Server) :
  makesOnly env beforeTrust (addPublicIPAddress d c s).
Proof.
  pose proof logAndReturnError_calls.
  unfold addPublicIPAddress. cbv zeta. only_calls.
Qed.

Lemma updateAPICredentials_extends (d : Driver) (c : clcgo.Client) :
  makesOnly env anyCall (updateAPICredentials d c).
Proof. unfold updateAPICredentials. cbv zeta. only_calls. Qed.

Lemma getClientWithPersistence_extends (d : Driver) :
  makesOnly env anyCall (getClientWithPersistence d).
Proof.
  pose proof updateAPICredentials_extends.
  unfold getClientWithPersistence. cbv zeta. only_calls.
Qed.

Lemma GetSSHCommand_extends (d : Driver) (args : list string) :
  makesOnly env anyCall (GetSSHCommand d args).
Proof.
  pose proof getClientWithPersistence_extends.
  unfold GetSSHCommand, GetIP, getServer. cbv zeta. only_calls.
Qed.

Lemma generateAndWriteSSHKey_starts (d : Driver) (c : clcgo.Client)
    (s : clcgo.Server) (h h' : History) (r : option error) :
  runs env (generateAndWriteSSHKey d c s) h h' r -> startsAfterAttach h h'.
Proof.
  unfold generateAndWriteSSHKey. cbv zeta. intros H.
  apply runs_bind_inv in H. destruct H as (h1 & a & Hc & H).
  apply runs_call_inv in Hc. destruct Hc as [-> ->].
  match type of H with
  | runs _ ?k _ _ _ =>
      assert (Hk : makesOnly env anyCall k) by only_calls
  end.
  destruct (Hk _ _ _ H) as (tr & -> & _).
  eexists _, tr. split; [rewrite <- app_assoc; reflexivity | reflexivity].
Qed.

Lemma setHostname_starts (d d' : Driver) (h h' : History) (r : option error) :
  runs env (setHostname d) h h' (d', r) -> startsAfterAttach h h'.
Proof.
  unfold setHostname. intros H.
  apply runs_bind_inv in H. destruct H as (h1 & a & Hc & H).
  apply runs_call_inv in Hc. destruct Hc as [-> ->].
  pose proof GetSSHCommand_extends.
  match type of H with
  | runs _ ?k _ _ _ =>
      assert (Hk : makesOnly env anyCall k) by only_calls
  end.
  destruct (Hk _ _ _ H) as (tr & -> & _).
  eexists _, tr. split; [rewrite <- app_assoc; reflexivity | reflexivity].
Qed.

Lemma installDocker_starts (d d' : Driver) (h h' : History) (r : option error) :
  runs env (installDocker d) h h' (d', r) -> startsAfterAttach h h'.
Proof.
  unfold installDocker. intros H.
  apply runs_bind_inv in H. destruct H as (h1 & a & Hc & H).
  apply runs_call_inv in Hc. destruct Hc as [-> ->].
  pose proof GetSSHCommand_extends.
  match type of H with
  | runs _ ?k _ _ _ =>
      assert (Hk : makesOnly env anyCall k) by only_calls
  end.
  destruct (Hk _ _ _ H) as (tr & -> & _).
  eexists _, tr. split; [rewrite <- app_assoc; reflexivity | reflexivity].
Qed.

(** C5.  With the client in hand, [Create] runs [createServer],
    [addPublicIPAddress], [generateAndWriteSSHKey], [setHostname] and
    [installDocker] in this order, each from the history the one before
    left, and each only when the one before returned no error; the error of
    the first that fails is what [Create] returns, and its history stops
    where that step stopped.  When [addPublicIPAddress] fails, the calls
    made since [Create] was entered hold none of the calls of the three
    steps that follow it, each of which begins with such a call whenever it
    runs. *)
Theorem Create_steps_in_order (d d1 : Driver) (h h1 : History)
    (c : clcgo.Client) :
  runs env (getClientWithPersistence d) h h1 (d1, inl c) ->
  (forall h2 d2 s e,
     runs env (createServer d1 c) h1 h2 (d2, (s, Some e)) ->
     runs env (Create d) h h2 (d2, Some e))
  /\
  (forall h2 d2 s,
     runs env (createServer d1 c) h1 h2 (d2, (s, None)) ->
     (forall h3 s' e,
        runs env (addPublicIPAddress d2 c s) h2 h3 (s', Some e) ->
        runs env (Create d) h h3 (d2, Some e)
        /\ exists tr, h3 = h ++ tr /\ Forall beforeTrust tr)
     /\
     (forall h3 s',
        runs env (addPublicIPAddress d2 c s) h2 h3 (s', None) ->
        (forall h4 e,
           runs env (generateAndWriteSSHKey d2 c s') h3 h4 (Some e) ->
           runs env (Create d) h h4 (d2, Some e))
        /\
        (forall h4,
           runs env (generateAndWriteSSHKey d2 c s') h3 h4 None ->
           (forall h5 d5 e,
              runs env (setHostname d2) h4 h5 (d5, Some e) ->
              runs env (Create d) h h5 (d5, Some e))
           /\
           (forall h5 d5,
              runs env (setHostname d2) h4 h5 (d5, None) ->
              forall h6 d6 r,
                runs env (installDocker d5) h5 h6 (d6, r) ->
                runs env (Create d) h h6 (d6, r)))))
  /\
  (forall d0 c0 s0 h0 h' r,
     runs env (generateAndWriteSSHKey d0 c0 s0) h0 h' r ->
     startsAfterAttach h0 h')
  /\
  (forall d0 h0 h' d' r,
     runs env (setHostname d0) h0 h' (d', r) -> startsAfterAttach h0 h')
  /\
  (forall d0 h0 h' d' r,
     runs env (installDocker d0) h0 h' (d', r) -> startsAfterAttach h0 h').
Proof.
  intros Hc.
  assert (Hstart : forall (k : Driver * (clcgo.Client + option clcgo.Client * error)
                               -> itree driverE (Driver * option error)) h' x,
             runs env (k (d1, inl c)) h1 h' x ->
             runs env (ITree.bind (getClientWithPersistence d) k) h h' x)
    by (intros k h' x H; eapply runs_bind; [exact Hc | exact H]).
  split; [| split; [| split; [| split]]].
  - intros h2 d2 s e H2. unfold Create. apply Hstart. cbv beta iota.
    eapply runs_bind; [exact H2 |]. cbv beta iota. apply runs_ret.
  - intros h2 d2 s H2. split.
    + intros h3 s' e H3. split.
      * unfold Create. apply Hstart. cbv beta iota.
        eapply runs_bind; [exact H2 |]. cbv beta iota.
        eapply runs_bind; [exact H3 |]. cbv beta iota. apply runs_ret.
      * destruct (getClientWithPersistence_calls _ _ _ _ Hc) as (tr1 & -> & Htr1).
        destruct (createServer_calls _ _ _ _ _ H2) as (tr2 & -> & Htr2).
        destruct (addPublicIPAddress_calls _ _ _ _ _ _ H3) as (tr3 & -> & Htr3).
        exists (tr1 ++ tr2 ++ tr3). split.
        -- rewrite <- !app_assoc. reflexivity.
        -- repeat (apply Forall_app; split); assumption.
    + intros h3 s' H3. split.
      * intros h4 e H4. unfold Create. apply Hstart. cbv beta iota.
        eapply runs_bind; [exact H2 |]. cbv beta iota.
        eapply runs_bind; [exact H3 |]. cbv beta iota.
        eapply runs_bind; [exact H4 |]. cbv beta iota. apply runs_ret.
      * intros h4 H4. split.
        -- intros h5 d5 e H5. unfold Create. apply Hstart. cbv beta iota.
           eapply runs_bind; [exact H2 |]. cbv beta iota.
           eapply runs_bind; [exact H3 |]. cbv beta iota.
           eapply runs_bind; [exact H4 |]. cbv beta iota.
           eapply runs_bind; [exact H5 |]. cbv beta iota. apply runs_ret.
        -- intros h5 d5 H5 h6 d6 r H6. unfold Create. apply Hstart. cbv beta iota.
           eapply runs_bind; [exact H2 |]. cbv beta iota.
           eapply runs_bind; [exact H3 |]. cbv beta iota.
           eapply runs_bind; [exact H4 |]. cbv beta iota.
           eapply runs_bind; [exact H5 |]. cbv beta iota.
           eapply runs_bind; [exact H6 |]. cbv beta iota.
           destruct r; apply runs_ret.
  - intros d0 c0 s0 h0 h' r. apply generateAndWriteSSHKey_starts.
  - intros d0 h0 h' d' r. apply setHostname_starts.
  - intros d0 h0 h' d' r. apply installDocker_starts.
Qed.

End DriverFacts.



(** * Further properties of the driver *)

(** ** Pure functions *)

(** X1.  [publicIPFromServer] returns the empty string exactly when no
    address of the server has a [Public] part; any other result is the
    [Public] part of one of the server's addresses. *)
Theorem publicIPFromServer_empty_iff (s : clcgo.Server) :
  (publicIPFromServer s = EmptyString <->
   Forall noPublic (clcgo.IPAddresses (clcgo.Details s)))
  /\
  (publicIPFromServer s <> EmptyString ->
   exists a, In a (clcgo.IPAddresses (clcgo.Details s))
             /\ clcgo.Public a = publicIPFromServer s).
Proof.
  unfold publicIPFromServer.
  induction (clcgo.IPAddresses (clcgo.Details s)) as [| a l [IH1 IH2]].
  - split; [split; [constructor | reflexivity] | intros H; contradiction H; reflexivity].
  - destruct (isEmpty (clcgo.Public a)) eqn:Ha; cbn [negb].
    + apply isEmpty_true in Ha. split.
      * rewrite IH1. split.
        -- intros H. constructor; [exact Ha | exact H].
        -- intros H. inversion H. assumption.
      * intros H. destruct (IH2 H) as (x & Hin & Hx).
        exists x. split; [right; exact Hin | exact Hx].
    + apply isEmpty_false in Ha. split.
      * split.
        -- intros H. contradiction (Ha H).
        -- intros H. inversion H as [| ? ? Hn _]. contradiction (Ha Hn).
      * intros _. exists a. split; [left; reflexivity | reflexivity].
Qed.

(** X2.  [SetConfigFromFlags] returns no error exactly when the username,
    the server name and the group are all given; the first of the three
    that is missing, in this order, decides the error.  Error or not, the
    seven configured fields are taken from the options, and the other
    fields of the driver stay as they were. *)
Theorem SetConfigFromFlags_requires (d : Driver) (o : drivers.DriverOptions) :
  let user := drivers.String o "centurylinkcloud-username" in
  let name := drivers.String o "centurylinkcloud-server-name" in
  let group := drivers.String o "centurylinkcloud-group-id" in
  let d' := fst (SetConfigFromFlags d o) in
  (snd (SetConfigFromFlags d o) = None <->
   user <> EmptyString /\ name <> EmptyString /\ group <> EmptyString)
  /\
  (user = EmptyString ->
   snd (SetConfigFromFlags d o) = Some (errorString
     "centurylinkcloud driver requires the --centurylinkcloud-username option"))
  /\
  (user <> EmptyString -> name = EmptyString ->
   snd (SetConfigFromFlags d o) = Some (errorString
     "centurylinkcloud driver requires the --centurylinkcloud-server-name option"))
  /\
  (user <> EmptyString -> name <> EmptyString -> group = EmptyString ->
   snd (SetConfigFromFlags d o) = Some (errorString
     "centurylinkcloud driver requires the --centurylinkcloud-group-id option"))
  /\
  (Username d' = user /\ ServerName d' = name /\ GroupID d' = group
   /\ Password d' = drivers.String o "centurylinkcloud-password"
   /\ SourceServerID d' = drivers.String o "centurylinkcloud-source-server-id"
   /\ CPU d' = drivers.Int o "centurylinkcloud-cpu"
   /\ MemoryGB d' = drivers.Int o "centurylinkcloud-memory-gb")
  /\
  (MachineName d' = MachineName d /\ storePath d' = storePath d
   /\ CaCertPath d' = CaCertPath d /\ PrivateKeyPath d' = PrivateKeyPath d
   /\ BearerToken d' = BearerToken d /\ AccountAlias d' = AccountAlias d
   /\ ServerID d' = ServerID d).
Proof.
  intros user name group d'. subst d'. unfold SetConfigFromFlags.
  cbv zeta. cbn [Username ServerName GroupID]. fold user name group.
  destruct (isEmpty user) eqn:Hu; [apply isEmpty_true in Hu | apply isEmpty_false in Hu];
    [| destruct (isEmpty name) eqn:Hn;
       [apply isEmpty_true in Hn | apply isEmpty_false in Hn];
       [| destruct (isEmpty group) eqn:Hg;
          [apply isEmpty_true in Hg | apply isEmpty_false in Hg]]];
    cbn [fst snd];
    (split; [split; [intros H; discriminate H || (repeat split; assumption)
                    | intros (H1 & H2 & H3);
                      try reflexivity; try contradiction] |]);
    (split; [intros H; try reflexivity; try contradiction |]);
    (split; [intros H1 H2; try reflexivity; try contradiction |]);
    (split; [intros H1 H2 H3; try reflexivity; try contradiction |]);
    (split; repeat split).
Qed.

(** X3.  The result of [SetConfigFromFlags] depends on the options only
    through the flags that [getCreateFlags] declares, each read with the
    method of its type. *)
Theorem SetConfigFromFlags_reads_declared (d : Driver)
    (o1 o2 : drivers.DriverOptions) :
  agreeOn getCreateFlags o1 o2 ->
  SetConfigFromFlags d o1 = SetConfigFromFlags d o2.
Proof.
  intros H. unfold SetConfigFromFlags. cbv zeta.
  cbn [Username ServerName GroupID].
  pose proof (H _ (or_introl eq_refl)) as H1. cbv beta iota in H1.
  pose proof (H _ (or_intror (or_introl eq_refl))) as H2. cbv beta iota in H2.
  pose proof (H _ (or_intror (or_intror (or_introl eq_refl)))) as H3.
  cbv beta iota in H3.
  pose proof (H _ (or_intror (or_intror (or_intror (or_introl eq_refl))))) as H4.
  cbv beta iota in H4.
  pose proof (H _ (or_intror (or_intror (or_intror
               (or_intror (or_introl eq_refl)))))) as H5.
  cbv beta iota in H5.
  pose proof (H _ (or_intror (or_intror (or_intror (or_intror
               (or_intror (or_introl eq_refl))))))) as H6.
  cbv beta iota in H6.
  pose proof (H _ (or_intror (or_intror (or_intror (or_intror (or_intror
               (or_intror (or_introl eq_refl)))))))) as H7.
  cbv beta iota in H7.
  rewrite H1, H2, H3, H4, H5, H6, H7. reflexivity.
Qed.

Lemma SetConfigFromFlags_fields (d : Driver) (o : drivers.DriverOptions) :
  let d' := fst (SetConfigFromFlags d o) in
  BearerToken d' = BearerToken d /\ AccountAlias d' = AccountAlias d
  /\ Username d' = drivers.String o "centurylinkcloud-username"
  /\ Password d' = drivers.String o "centurylinkcloud-password".
Proof.
  unfold SetConfigFromFlags. cbv zeta.
  repeat match goal with |- context [if ?b then _ else _] => destruct b end;
    repeat split.
Qed.

Section SessionFacts.

Context {imported : Imported} (env : Env).

(** ** The session *)

(** X4.  Whatever the environment answers, a run of
    [updateAPICredentials] takes the password from the driver when it has
    one, and then its only call is the authentication; with no password it
    prompts and reads a line, authenticates with the line trimmed, and makes
    no authentication when the read fails.  The password of the driver is
    the same after as before: a password typed at the prompt is not kept. *)
Theorem updateAPICredentials_password_source (d d' : Driver)
    (c c' : clcgo.Client) (h h' : History) (r : option error) :
  runs env (updateAPICredentials d c) h h' (d', c', r) ->
  Password d' = Password d
  /\
  (Password d <> EmptyString ->
   h' = h ++ [GetAPICredentials c (Username d) (Password d)])
  /\
  (Password d = EmptyString ->
   let read := env ReadString (h ++ [Printf passwordPrompt]) in
   match snd read with
   | Some e =>
       h' = h ++ [Printf passwordPrompt; ReadString]
       /\ r = Some e /\ c' = c /\ d' = d
   | None =>
       h' = h ++ [Printf passwordPrompt; ReadString;
                  GetAPICredentials c (Username d)
                    (strings_TrimSpace (fst read))]
   end).
Proof.
  intros H.
  pose proof (updateAPICredentials_frame env _ _ _ _ _ _ _ H) as Hf.
  split.
  { destruct r; subst d'; reflexivity. }
  unfold updateAPICredentials in H. cbv zeta in H.
  destruct (isEmpty (Password d)) eqn:Hpw; cbn [negb] in H.
  - apply isEmpty_true in Hpw. split; [intros Hn; contradiction (Hn Hpw) |].
    intros _. cbv zeta. run_inv H; cbn [fst snd];
      rewrite <- ?app_assoc; repeat split.
  - apply isEmpty_false in Hpw. split; [| intros Hn; contradiction (Hpw Hn)].
    intros _. run_inv H; reflexivity.
Qed.

Lemma updateAPICredentials_no_probe (d : Driver) (c : clcgo.Client) :
  makesOnly env (fun x => isProbe x = false) (updateAPICredentials d c).
Proof. unfold updateAPICredentials. cbv zeta. only_calls. Qed.

(** X5.  With no cached pair (the token or the alias is empty),
    [getClientWithPersistence] makes no probe; it returns a client exactly
    when the authentication succeeds, and then the driver caches the
    client's pair; when it fails, the client returned is [nil] and the
    driver is as it was. *)
Theorem getClientWithPersistence_without_pair (d d' : Driver) (h h' : History)
    (r : clcgo.Client + option clcgo.Client * error) :
  isEmpty (BearerToken d) || isEmpty (AccountAlias d) = true ->
  runs env (getClientWithPersistence d) h h' (d', r) ->
  (exists tr, h' = h ++ tr /\ Forall (fun x => isProbe x = false) tr)
  /\
  match r with
  | inl c => d' = setAPICredentials d (clcgo.Credentials_of c)
  | inr (oc, _) => oc = None /\ d' = d
  end.
Proof.
  intros Hno H. unfold getClientWithPersistence in H. cbv zeta in H.
  rewrite Hno in H.
  apply runs_bind_inv in H. destruct H as (h1 & [[d1 c1] r1] & Hu & H).
  cbv beta iota in H.
  pose proof (updateAPICredentials_frame env _ _ _ _ _ _ _ Hu) as Hf.
  destruct (updateAPICredentials_no_probe _ _ _ _ _ Hu) as (tr & -> & Htr).
  destruct r1 as [e |]; apply runs_ret_inv in H; destruct H as [-> H];
    inversion H; subst.
  - split; [exists tr; split; [reflexivity | exact Htr] |].
    split; reflexivity.
  - split; [exists tr; split; [reflexivity | exact Htr] |]. reflexivity.
Qed.

(** The client that [getClientWithPersistence] returns holds the pair the
    driver caches. *)
Lemma returned_client_pair (d d' : Driver) (h h' : History) (c : clcgo.Client) :
  runs env (getClientWithPersistence d) h h' (d', inl c) ->
  clcgo.Credentials_of c = cachedPair d'.
Proof.
  unfold getClientWithPersistence. intros H. run_inv H;
    try reflexivity;
    match goal with
    | Hu : runs env (updateAPICredentials _ _) _ _ (_, ?c0, _) |- _ =>
        apply updateAPICredentials_frame in Hu; cbv beta iota in Hu; subst;
        destruct c0 as [[t a]]; reflexivity
    end.
Qed.

(** X6.  Whatever the environment answers, when [getServer] returns a
    server, the client beside it holds the pair the driver now caches, the
    last call made is the fetch, with that client, of the server whose
    identifier is the driver's, and the server returned is what that fetch
    answered, with no error. *)
Theorem getServer_fetches_with_cached_pair (d d' : Driver) (h h' : History)
    (c : clcgo.Client) (s : clcgo.Server) :
  runs env (getServer d) h h' (d', inl (c, s)) ->
  clcgo.Credentials_of c = cachedPair d'
  /\ ServerID d' = ServerID d
  /\ exists hp,
       h' = hp ++ [GetServer c (serverWithID (ServerID d))]
       /\ env (GetServer c (serverWithID (ServerID d))) hp = (s, None).
Proof.
  unfold getServer. cbv zeta. intros H.
  apply runs_bind_inv in H. destruct H as (h1 & [d1 rc] & Hc & H).
  cbv beta iota in H. destruct rc as [c1 | [oc e]].
  - apply runs_bind_inv in H. destruct H as (h2 & [s1 err] & Hf & H).
    apply runs_call_inv in Hf. destruct Hf as [-> Hf].
    cbv beta iota in H.
    destruct err as [e |];
      [destruct (isRequestError 404 e) |];
      apply runs_ret_inv in H; destruct H as [-> H]; inversion H; subst.
    split; [exact (returned_client_pair _ _ _ _ _ Hc) |].
    split; [exact (getClientWithPersistence_ServerID env _ _ _ _ _ Hc) |].
    exists h1. split; [reflexivity | symmetry; exact Hf].
  - apply runs_ret_inv in H. destruct H as [_ H]. inversion H.
Qed.

(** X7.  Two calls in a row: when [getClientWithPersistence] has returned
    a client, the pair it left in the driver is not empty, and the provider
    accepts the next probe, a second call makes that probe with the same
    pair and nothing else, and returns the same client and driver. *)
Theorem getClientWithPersistence_again (d d1 : Driver) (h h1 : History)
    (c : clcgo.Client) :
  runs env (getClientWithPersistence d) h h1 (d1, inl c) ->
  BearerToken d1 <> EmptyString ->
  AccountAlias d1 <> EmptyString ->
  env (GetDataCenters c) h1 = None ->
  runs env (getClientWithPersistence d1) h1 (h1 ++ [GetDataCenters c])
    (d1, inl c).
Proof.
  intros H Ht Ha Hp.
  pose proof (returned_client_pair _ _ _ _ _ H) as Hc.
  assert (Hc' : c = {| clcgo.Credentials_of := cachedPair d1 |})
    by (destruct c as [cr]; cbn in Hc; rewrite Hc; reflexivity).
  rewrite Hc' in Hp |- *.
  apply isEmpty_false in Ht. apply isEmpty_false in Ha.
  apply (getClientWithPersistence_accepted env d1 h1 Ht Ha Hp).
Qed.

Lemma getClientWithPersistence_first (d : Driver) (h : History)
    (cr : clcgo.APICredentials) :
  isEmpty (BearerToken d) || isEmpty (AccountAlias d) = true ->
  Password d <> EmptyString ->
  let login := GetAPICredentials clcgo.NewClient (Username d) (Password d) in
  env login h = (cr, None) ->
  runs env (getClientWithPersistence d) h (h ++ [login])
    (setAPICredentials d cr, inl {| clcgo.Credentials_of := cr |}).
Proof.
  intros Hno Hpw login Hl.
  unfold getClientWithPersistence. cbv zeta. rewrite Hno.
  eapply runs_bind.
  - apply updateAPICredentials_password. apply isEmpty_false. exact Hpw.
  - fold login. rewrite Hl. cbn [fst snd]. apply runs_ret.
Qed.

(** X8.  A driver made by [NewDriver] and configured by
    [SetConfigFromFlags] caches no pair: when the options give a password,
    its first [getClientWithPersistence] makes one call, the authentication
    of a new client with the username and the password of the options, and
    on success the driver caches the pair the provider gave. *)
Theorem new_driver_authenticates_first (machineName store caCert privateKey : string)
    (o : drivers.DriverOptions) (h : History) (cr : clcgo.APICredentials) :
  let d := fst (SetConfigFromFlags
                  (fst (NewDriver machineName store caCert privateKey)) o) in
  let login :=
    GetAPICredentials clcgo.NewClient
      (drivers.String o "centurylinkcloud-username")
      (drivers.String o "centurylinkcloud-password") in
  drivers.String o "centurylinkcloud-password" <> EmptyString ->
  env login h = (cr, None) ->
  runs env (getClientWithPersistence d) h (h ++ [login])
    (setAPICredentials d cr, inl {| clcgo.Credentials_of := cr |})
  /\ cachedPair (setAPICredentials d cr) = cr.
Proof.
  intros d login Hpw Hlogin.
  assert (Hd : BearerToken d = EmptyString /\ AccountAlias d = EmptyString
               /\ Username d = drivers.String o "centurylinkcloud-username"
               /\ Password d = drivers.String o "centurylinkcloud-password").
  { destruct (SetConfigFromFlags_fields
                (fst (NewDriver machineName store caCert privateKey)) o)
      as (H1 & H2 & H3 & H4).
    repeat split; assumption. }
  destruct Hd as (Ht & Ha & Hu & Hp).
  split; [| destruct cr; reflexivity].
  unfold getClientWithPersistence. cbv zeta. rewrite Ht. cbn [isEmpty orb].
  eapply runs_bind.
  - apply updateAPICredentials_password. rewrite Hp.
    apply isEmpty_false. exact Hpw.
  - rewrite Hu, Hp. fold login. rewrite Hlogin. cbn [fst snd]. apply runs_ret.
Qed.

Lemma getClientWithPersistence_refreshed (d : Driver) (h : History)
    (errs : list (string * list string)) (cr : clcgo.APICredentials) :
  isEmpty (BearerToken d) = false ->
  isEmpty (AccountAlias d) = false ->
  Password d <> EmptyString ->
  let c := {| clcgo.Credentials_of := cachedPair d |} in
  let login := GetAPICredentials c (Username d) (Password d) in
  env (GetDataCenters c) h = Some (RequestError 401 errs) ->
  env login (h ++ [GetDataCenters c]) = (cr, None) ->
  runs env (getClientWithPersistence d) h (h ++ [GetDataCenters c; login])
    (setAPICredentials d cr, inl {| clcgo.Credentials_of := cr |}).
Proof.
  intros Ht Ha Hpw c login Hp Hl.
  unfold getClientWithPersistence. cbv zeta. rewrite Ht, Ha. cbn [orb].
  run_call. fold (cachedPair d). fold c. rewrite Hp.
  cbn [isRequestError Z.eqb Pos.eqb].
  eapply runs_bind.
  { apply updateAPICredentials_password. apply isEmpty_false. exact Hpw. }
  fold login. rewrite Hl. cbn [fst snd]. run_ret.
Qed.

(** X22.  A stale pair is refreshed on the way: when the driver caches a
    pair, the probe is answered with status 401, the driver has a password
    and the authentication gives the pair [cr], then [getServer] makes three
    calls, the probe with the old pair, one authentication, and the fetch of
    the server with the new pair; it returns what that fetch answers, and the
    driver then caches [cr]. *)
Theorem getServer_refreshes_stale_pair (d : Driver) (h : History)
    (errs : list (string * list string)) (cr : clcgo.APICredentials)
    (s : clcgo.Server) :
  BearerToken d <> EmptyString ->
  AccountAlias d <> EmptyString ->
  Password d <> EmptyString ->
  let old := {| clcgo.Credentials_of := cachedPair d |} in
  let new := {| clcgo.Credentials_of := cr |} in
  let probe := GetDataCenters old in
  let login := GetAPICredentials old (Username d) (Password d) in
  let fetch := GetServer new (serverWithID (ServerID d)) in
  env probe h = Some (RequestError 401 errs) ->
  env login (h ++ [probe]) = (cr, None) ->
  env fetch (h ++ [probe; login]) = (s, None) ->
  runs env (getServer d) h (h ++ [probe; login; fetch])
    (setAPICredentials d cr, inl (new, s))
  /\ cachedPair (setAPICredentials d cr) = cr.
Proof.
  intros Ht Ha Hpw old new probe login fetch Hp Hl Hf.
  split; [| destruct cr; reflexivity].
  apply isEmpty_false in Ht. apply isEmpty_false in Ha.
  pose proof (getClientWithPersistence_refreshed d h errs cr Ht Ha Hpw Hp Hl)
    as Hc.
  pose proof (getServer_found env _ _ _ _ _ s Hc Hf) as H.
  rewrite <- app_assoc in H. exact H.
Qed.

End SessionFacts.

Section OperationFacts.

Context {imported : Imported} (env : Env).

(** ** What the methods call *)

Lemma updateAPICredentials_reads (d : Driver) (c : clcgo.Client) :
  makesOnly env (fun x => readingCall x = true) (updateAPICredentials d c).
Proof. unfold updateAPICredentials. cbv zeta. only_calls. Qed.

Lemma getClientWithPersistence_reads (d : Driver) :
  makesOnly env (fun x => readingCall x = true) (getClientWithPersistence d).
Proof.
  pose proof updateAPICredentials_reads.
  unfold getClientWithPersistence. cbv zeta. only_calls.
Qed.

Lemma getServer_reads (d : Driver) :
  makesOnly env (fun x => readingCall x = true) (getServer d).
Proof.
  pose proof getClientWithPersistence_reads.
  unfold getServer. cbv zeta. only_calls.
Qed.

Lemma makesOnly_weaken (P Q : Call -> Prop) {R : Type} (p : itree driverE R) :
  (forall x, P x -> Q x) -> makesOnly env P p -> makesOnly env Q p.
Proof.
  intros HPQ Hp h h' r H. destruct (Hp _ _ _ H) as (tr & -> & Htr).
  exists tr. split; [reflexivity |].
  eapply Forall_impl; [exact HPQ | exact Htr].
Qed.

(** X9.  The queries only read: whatever the environment answers, the
    calls of [GetIP], [GetURL], [GetState] and [GetSSHCommand] are probes,
    authentications, prompts and fetches of the server; they submit
    nothing, wait for nothing and run nothing on the machine. *)
Theorem queries_only_read (d : Driver) (args : list string) :
  makesOnly env (fun x => readingCall x = true) (GetIP d)
  /\ makesOnly env (fun x => readingCall x = true) (GetURL d)
  /\ makesOnly env (fun x => readingCall x = true) (GetState d)
  /\ makesOnly env (fun x => readingCall x = true) (GetSSHCommand d args).
Proof.
  pose proof getServer_reads as Hgs.
  assert (Hip : forall d0, makesOnly env (fun x => readingCall x = true) (GetIP d0))
    by (intros d0; unfold GetIP; cbv zeta; only_calls).
  split; [apply Hip |]. split; [| split].
  - unfold GetURL. only_calls.
  - unfold GetState. only_calls.
  - unfold GetSSHCommand. only_calls.
Qed.

Lemma GetSSHCommand_reads (d : Driver) (args : list string) :
  makesOnly env (fun x => readingCall x = true) (GetSSHCommand d args).
Proof.
  pose proof getServer_reads as Hgs.
  unfold GetSSHCommand, GetIP. cbv zeta. only_calls.
Qed.

(** X10.  Whatever the environment answers, a power operation
    ([doOperation], and [Start], [Stop], [Restart], [Kill]) never deletes
    or creates anything and runs nothing on the machine: beside reading and
    waiting its only submission is a [ServerOperation]; [Remove] beside
    reading and waiting only submits the deletion; and [StartDocker],
    [StopDocker], [Upgrade], [installDocker] and [setHostname] submit
    nothing to the provider: beside reading they only log and run
    commands. *)
Theorem operations_calls_confined (d : Driver) (t : clcgo.OperationType) :
  (makesOnly env (fun x => powerCall x = true) (doOperation t d)
   /\ makesOnly env (fun x => powerCall x = true) (Start d)
   /\ makesOnly env (fun x => powerCall x = true) (Stop d)
   /\ makesOnly env (fun x => powerCall x = true) (Restart d)
   /\ makesOnly env (fun x => powerCall x = true) (Kill d))
  /\ makesOnly env (fun x => removalCall x = true) (Remove d)
  /\ (makesOnly env (fun x => commandCall x = true) (StartDocker d)
      /\ makesOnly env (fun x => commandCall x = true) (StopDocker d)
      /\ makesOnly env (fun x => commandCall x = true) (Upgrade d)
      /\ makesOnly env (fun x => commandCall x = true) (installDocker d)
      /\ makesOnly env (fun x => commandCall x = true) (setHostname d)).
Proof.
  assert (Hp : forall d0, makesOnly env (fun x => powerCall x = true) (getServer d0)).
  { intros d0. apply (makesOnly_weaken (fun x => readingCall x = true));
      [| apply getServer_reads].
    intros x Hx. destruct x; try discriminate Hx; reflexivity. }
  assert (Hr : forall d0, makesOnly env (fun x => removalCall x = true) (getServer d0)).
  { intros d0. apply (makesOnly_weaken (fun x => readingCall x = true));
      [| apply getServer_reads].
    intros x Hx. destruct x; try discriminate Hx; reflexivity. }
  assert (Hc : forall d0 a,
             makesOnly env (fun x => commandCall x = true) (GetSSHCommand d0 a)).
  { intros d0 a. apply (makesOnly_weaken (fun x => readingCall x = true));
      [| apply GetSSHCommand_reads].
    intros x Hx. destruct x; try discriminate Hx; reflexivity. }
  assert (Hdo : forall t0 d0,
             makesOnly env (fun x => powerCall x = true) (doOperation t0 d0))
    by (intros t0 d0; unfold doOperation; cbv zeta; only_calls).
  split; [| split].
  - split; [apply Hdo |]. split; [| split; [| split]].
    + unfold Start. only_calls.
    + unfold Stop. only_calls.
    + unfold Restart. only_calls.
    + unfold Kill. only_calls.
  - unfold Remove. only_calls.
  - split; [| split; [| split; [| split]]].
    + unfold StartDocker. only_calls.
    + unfold StopDocker. only_calls.
    + unfold Upgrade. only_calls.
    + unfold installDocker. only_calls.
    + unfold setHostname. only_calls.
Qed.

(** ** What the methods leave in the driver *)

Lemma getServer_frame (d d' : Driver) (h h' : History)
    (r : clcgo.Client * clcgo.Server + clcgo.Server * error) :
  runs env (getServer d) h h' (d', r) -> samePair d d'.
Proof.
  unfold getServer. cbv zeta. intros H.
  apply runs_bind_inv in H. destruct H as (h1 & [d1 rc] & Hc & H).
  apply getClientWithPersistence_frame in Hc. cbv beta iota in H.
  run_inv H; exact Hc.
Qed.

Lemma GetIP_frame (d d' : Driver) (h h' : History) (r : string + error) :
  runs env (GetIP d) h h' (d', r) -> samePair d d'.
Proof.
  unfold GetIP. cbv zeta. intros H.
  apply runs_bind_inv in H. destruct H as (h1 & [d1 rc] & Hc & H).
  apply getServer_frame in Hc. cbv beta iota in H.
  run_inv H; exact Hc.
Qed.

Lemma GetSSHCommand_frame (d d' : Driver) (args : list string)
    (h h' : History) (r : ssh.Cmd + error) :
  runs env (GetSSHCommand d args) h h' (d', r) -> samePair d d'.
Proof.
  unfold GetSSHCommand. intros H.
  apply runs_bind_inv in H. destruct H as (h1 & [d1 rc] & Hc & H).
  apply GetIP_frame in Hc. cbv beta iota in H.
  run_inv H; exact Hc.
Qed.

Lemma doOperation_frame (t : clcgo.OperationType) (d d' : Driver)
    (h h' : History) (r : option error) :
  runs env (doOperation t d) h h' (d', r) -> samePair d d'.
Proof.
  unfold doOperation. intros H.
  apply runs_bind_inv in H. destruct H as (h1 & [d1 rc] & Hc & H).
  apply getServer_frame in Hc. cbv beta iota in H.
  run_inv H; try exact Hc.
  apply tracked_returns in H. destruct H as [-> _]. exact Hc.
Qed.

Lemma samePair_ServerID (d d' : Driver) :
  samePair d d' -> ServerID d' = ServerID d.
Proof. intros [-> | [cr ->]]; reflexivity. Qed.

(** X11.  Whatever the environment answers, a run of [doOperation], of
    [Start], [Stop], [Restart], [Kill], of [Remove], of [GetIP], [GetURL],
    [GetState] or [GetSSHCommand] changes no field of the driver but the
    cached pair; in particular the identifier of the server stays, also
    after a [Remove] that succeeded. *)
Theorem operations_keep_fields (d d' : Driver) (h h' : History) :
  (forall t r, runs env (doOperation t d) h h' (d', r) -> samePair d d')
  /\ (forall r, runs env (Start d) h h' (d', r) -> samePair d d')
  /\ (forall r, runs env (Stop d) h h' (d', r) -> samePair d d')
  /\ (forall r, runs env (Restart d) h h' (d', r) -> samePair d d')
  /\ (forall r, runs env (Kill d) h h' (d', r) -> samePair d d')
  /\ (forall r, runs env (Remove d) h h' (d', r) ->
        samePair d d' /\ ServerID d' = ServerID d)
  /\ (forall r, runs env (GetIP d) h h' (d', r) -> samePair d d')
  /\ (forall r, runs env (GetURL d) h h' (d', r) -> samePair d d')
  /\ (forall r, runs env (GetState d) h h' (d', r) -> samePair d d')
  /\ (forall args r,
        runs env (GetSSHCommand d args) h h' (d', r) -> samePair d d').
Proof.
  assert (Hw : forall t (k : Driver * option error
                            -> itree driverE (Driver * option error)) r,
             (forall d0 e, k (d0, e) = Ret (d0, e)
                           \/ exists e', k (d0, e) = Ret (d0, e')) ->
             runs env (ITree.bind (doOperation t d) k) h h' (d', r) ->
             samePair d d').
  { intros t k r Hk H.
    apply runs_bind_inv in H. destruct H as (h1 & [d1 r1] & H1 & H).
    apply doOperation_frame in H1.
    destruct (Hk d1 r1) as [Heq | [e' Heq]]; rewrite Heq in H;
      apply runs_ret_inv in H; destruct H as [_ H]; inversion H; subst;
      exact H1. }
  split; [intros t r; apply doOperation_frame |].
  split; [intros r; apply (Hw clcgo.PowerOnServer); intros d0 [e |];
          left; reflexivity |].
  split; [intros r; apply (Hw clcgo.PowerOffServer); intros d0 [e |];
          left; reflexivity |].
  split; [intros r; apply (Hw clcgo.RebootServer); intros d0 [e |];
          left; reflexivity |].
  split; [intros r; apply (Hw clcgo.PowerOffServer); intros d0 [e |];
          left; reflexivity |].
  split.
  { intros r H.
    assert (Hs : samePair d d').
    { unfold Remove in H.
      apply runs_bind_inv in H. destruct H as (h1 & [d1 rc] & Hc & H).
      apply getServer_frame in Hc. cbv beta iota in H.
      run_inv H; try exact Hc.
      apply tracked_returns in H. destruct H as [-> _]. exact Hc. }
    split; [exact Hs | exact (samePair_ServerID _ _ Hs)]. }
  split; [intros r; apply GetIP_frame |].
  split.
  { intros r H. unfold GetURL in H.
    apply runs_bind_inv in H. destruct H as (h1 & [d1 rc] & Hc & H).
    apply GetIP_frame in Hc. cbv beta iota in H. run_inv H; exact Hc. }
  split.
  { intros r H. unfold GetState in H.
    apply runs_bind_inv in H. destruct H as (h1 & [d1 rc] & Hc & H).
    apply getServer_frame in Hc. cbv beta iota in H. run_inv H; exact Hc. }
  intros args r. apply GetSSHCommand_frame.
Qed.

(** With an error from [getServer], the methods return it and make no
    call after those of [getServer]. *)
Lemma unresolved_server (d d1 : Driver) (h h1 : History)
    (s : clcgo.Server) (err : error) :
  runs env (getServer d) h h1 (d1, inr (s, err)) ->
  (forall t, runs env (doOperation t d) h h1 (d1, Some err))
  /\ runs env (Start d) h h1 (d1, Some err)
  /\ runs env (Stop d) h h1 (d1, Some err)
  /\ runs env (Restart d) h h1 (d1, Some err)
  /\ runs env (Kill d) h h1 (d1, Some err)
  /\ runs env (Remove d) h h1 (d1, Some err)
  /\ runs env (GetIP d) h h1 (d1, inr err)
  /\ runs env (GetURL d) h h1 (d1, inr err)
  /\ (forall args, runs env (GetSSHCommand d args) h h1 (d1, inr err)).
Proof.
  intros Hgs.
  assert (Hdo : forall t, runs env (doOperation t d) h h1 (d1, Some err)).
  { intros t. unfold doOperation.
    eapply runs_bind; [exact Hgs |]. cbv beta iota. apply runs_ret. }
  assert (Hip : runs env (GetIP d) h h1 (d1, inr err)).
  { unfold GetIP. eapply runs_bind; [exact Hgs |]. cbv beta iota.
    apply runs_ret. }
  split; [exact Hdo |].
  split; [apply Start_doOperation, Hdo |].
  split; [apply Stop_doOperation, Hdo |].
  split; [apply Restart_doOperation, Hdo |].
  split; [apply Kill_doOperation, Hdo |].
  split.
  { unfold Remove. eapply runs_bind; [exact Hgs |]. cbv beta iota.
    apply runs_ret. }
  split; [exact Hip |].
  split.
  { unfold GetURL. eapply runs_bind; [exact Hip |]. cbv beta iota.
    apply runs_ret. }
  intros args. unfold GetSSHCommand.
  eapply runs_bind; [exact Hip |]. cbv beta iota. apply runs_ret.
Qed.

Lemma getServer_missing (d d1 : Driver) (h h1 : History) (c : clcgo.Client)
    (s : clcgo.Server) (errs : list (string * list string)) :
  runs env (getClientWithPersistence d) h h1 (d1, inl c) ->
  env (GetServer c (serverWithID (ServerID d))) h1
    = (s, Some (RequestError 404 errs)) ->
  runs env (getServer d) h (h1 ++ [GetServer c (serverWithID (ServerID d))])
    (d1, inr (s, errorString
               ("unable to find a server with the ID '" ++ ServerID d ++ "'")%string)).
Proof.
  intros Hc Hs.
  pose proof (getClientWithPersistence_ServerID env _ _ _ _ _ Hc) as Hid.
  unfold getServer. eapply runs_bind; [exact Hc |]. cbv beta iota.
  run_call. rewrite Hs. cbn [isRequestError Z.eqb Pos.eqb].
  rewrite Hid. run_ret.
Qed.

(** X12.  On a server that the provider does not know (it answers the
    fetch with status 404), each of [doOperation], [Start], [Stop],
    [Restart], [Kill], [Remove], [GetIP], [GetURL] and [GetSSHCommand]
    returns the error that names the driver's identifier, and the fetch is
    the last call made: nothing is submitted, deleted or run. *)
Theorem unknown_server_stops (d d1 : Driver) (h h1 : History)
    (c : clcgo.Client) (s : clcgo.Server)
    (errs : list (string * list string)) :
  runs env (getClientWithPersistence d) h h1 (d1, inl c) ->
  let fetch := GetServer c (serverWithID (ServerID d)) in
  env fetch h1 = (s, Some (RequestError 404 errs)) ->
  let err := errorString
    ("unable to find a server with the ID '" ++ ServerID d ++ "'")%string in
  let h2 := h1 ++ [fetch] in
  (forall t, runs env (doOperation t d) h h2 (d1, Some err))
  /\ runs env (Start d) h h2 (d1, Some err)
  /\ runs env (Stop d) h h2 (d1, Some err)
  /\ runs env (Restart d) h h2 (d1, Some err)
  /\ runs env (Kill d) h h2 (d1, Some err)
  /\ runs env (Remove d) h h2 (d1, Some err)
  /\ runs env (GetIP d) h h2 (d1, inr err)
  /\ runs env (GetURL d) h h2 (d1, inr err)
  /\ (forall args, runs env (GetSSHCommand d args) h h2 (d1, inr err)).
Proof.
  intros Hc fetch Hs err h2.
  exact (unresolved_server _ _ _ _ _ _ (getServer_missing _ _ _ _ _ _ _ Hc Hs)).
Qed.

(** ** The commands run on the machine *)

Lemma countCmdRun_app (a b : History) :
  countCmdRun (a ++ b) = countCmdRun a + countCmdRun b.
Proof. unfold countCmdRun. rewrite filter_app, length_app. reflexivity. Qed.

Lemma countCmdRun_reading (tr : list Call) :
  Forall (fun x => readingCall x = true) tr -> countCmdRun tr = 0.
Proof.
  induction 1 as [| x tr Hx _ IH]; [reflexivity |].
  change (x :: tr) with ([x] ++ tr). rewrite countCmdRun_app, IH.
  destruct x; try discriminate Hx; reflexivity.
Qed.

(** The command that [GetSSHCommand] returns. *)
Lemma GetSSHCommand_returns (d d' : Driver) (args : list string)
    (h h' : History) (cmd : ssh.Cmd) :
  runs env (GetSSHCommand d args) h h' (d', inl cmd) ->
  exists c s,
    runs env (getServer d) h h' (d', inl (c, s))
    /\ publicIPFromServer s <> EmptyString
    /\ cmd = ssh.GetSSHCommand (publicIPFromServer s) 22 "root"
               (sshKeyPath d') args.
Proof.
  unfold GetSSHCommand, GetIP. cbv zeta. intros H.
  apply runs_bind_inv in H. destruct H as (h1 & [d1 rip] & Hip & H).
  apply runs_bind_inv in Hip. destruct Hip as (h2 & [d2 rs] & Hgs & Hip).
  cbv beta iota in Hip, H.
  destruct rs as [[c s] | [s e]].
  - destruct (isEmpty (publicIPFromServer s)) eqn:He; cbn [negb] in Hip;
      apply runs_ret_inv in Hip; destruct Hip as [-> Hip];
      inversion Hip; subst; cbv beta iota in H;
      apply runs_ret_inv in H; destruct H as [-> H]; inversion H; subst.
    exists c, s. split; [exact Hgs |].
    split; [apply isEmpty_false; exact He | reflexivity].
  - apply runs_ret_inv in Hip. destruct Hip as [-> Hip].
    inversion Hip; subst. cbv beta iota in H.
    apply runs_ret_inv in H. destruct H as [_ H]. inversion H.
Qed.

(** A method that logs a line, builds a command and runs it once. *)
Lemma runs_one_command (line : Call) (d : Driver) (args : list string) :
  isCmdRun line = false ->
  runsCommands env 1
    (call line;;
     '(d, r) <- GetSSHCommand d args;;
     match r with
     | inr err => Ret (d, Some err)
     | inl cmd =>
         err <- call (CmdRun cmd);;
         match err with
         | Some err => Ret (d, Some err)
         | None => Ret (d, None)
         end
     end).
Proof.
  intros Hline h h' d' r H.
  apply runs_bind_inv in H. destruct H as (h1 & u & Hl & H).
  apply runs_call_inv in Hl. destruct Hl as [-> _].
  apply runs_bind_inv in H. destruct H as (h2 & [d2 rc] & Hc & H).
  destruct (GetSSHCommand_reads _ _ _ _ _ Hc) as (tr & -> & Htr).
  apply countCmdRun_reading in Htr. cbv beta iota in H.
  destruct rc as [cmd | e].
  - apply runs_bind_inv in H. destruct H as (h3 & err & Hr & H).
    apply runs_call_inv in Hr. destruct Hr as [-> ->].
    exists ([line] ++ tr ++ [CmdRun cmd]).
    split; [| split].
    + destruct (env (CmdRun cmd) ((h ++ [line]) ++ tr));
        apply runs_ret_inv in H; destruct H as [-> _];
        rewrite <- !app_assoc; reflexivity.
    + rewrite !countCmdRun_app, Htr. unfold countCmdRun at 1. cbn [filter].
      rewrite Hline. cbn. apply le_n.
    + intros _. rewrite !countCmdRun_app, Htr. unfold countCmdRun at 1.
      cbn [filter]. rewrite Hline. reflexivity.
  - apply runs_ret_inv in H. destruct H as [-> H]. inversion H; subst.
    exists ([line] ++ tr). split; [rewrite <- app_assoc; reflexivity |].
    split; [| intros Hn; discriminate Hn].
    rewrite countCmdRun_app, Htr. unfold countCmdRun. cbn [filter].
    rewrite Hline. cbn. apply le_S, le_n.
Qed.

(** X13.  Whatever the environment answers, [StartDocker], [StopDocker],
    [installDocker] and [setHostname] each run at most one command on the
    machine, and exactly one when they return no error; [Upgrade] runs at
    most two, and exactly two when it returns no error. *)
Theorem command_methods_count (d : Driver) :
  runsCommands env 1 (StartDocker d)
  /\ runsCommands env 1 (StopDocker d)
  /\ runsCommands env 1 (installDocker d)
  /\ runsCommands env 1 (setHostname d)
  /\ runsCommands env 2 (Upgrade d).
Proof.
  split.
  { exact (runs_one_command (Logf DebugLevel "Starting Docker..." []) d
             ["sudo service docker start"] eq_refl). }
  split.
  { exact (runs_one_command (Logf DebugLevel "Stopping Docker..." []) d
             ["sudo service docker stop"] eq_refl). }
  split.
  { exact (runs_one_command (Logf DebugLevel "Installing Docker..." []) d
             _ eq_refl). }
  split.
  { exact (runs_one_command
             (Logf DebugLevel "Setting hostname: %s" [ArgS (MachineName d)]) d
             _ eq_refl). }
  intros h h' d' r H. unfold Upgrade in H.
  set (line := Logf DebugLevel "Upgrading Docker" []) in H.
  apply runs_bind_inv in H. destruct H as (h1 & u & Hl & H).
  apply runs_call_inv in Hl. destruct Hl as [-> _].
  apply runs_bind_inv in H. destruct H as (h2 & [d2 rc] & Hc & H).
  destruct (GetSSHCommand_reads _ _ _ _ _ Hc) as (tr & -> & Htr).
  apply countCmdRun_reading in Htr. cbv beta iota in H.
  destruct rc as [cmd | e].
  - apply runs_bind_inv in H. destruct H as (h3 & err & Hr & H).
    apply runs_call_inv in Hr. destruct Hr as [-> ->].
    destruct (env (CmdRun cmd) ((h ++ [line]) ++ tr)) as [e |].
    + apply runs_ret_inv in H. destruct H as [-> H]. inversion H; subst.
      exists ([line] ++ tr ++ [CmdRun cmd]).
      split; [rewrite <- !app_assoc; reflexivity |].
      split; [| intros Hn; discriminate Hn].
      rewrite !countCmdRun_app, Htr. apply le_S, le_n.
    + apply runs_bind_inv in H. destruct H as (h4 & err & Hr & H).
      apply runs_call_inv in Hr. destruct Hr as [-> ->].
      apply runs_ret_inv in H. destruct H as [-> H].
      exists ([line] ++ tr ++ [CmdRun cmd; CmdRun cmd]).
      split; [rewrite <- !app_assoc; reflexivity |].
      split; [| intros _]; rewrite !countCmdRun_app, Htr;
        [apply le_n | reflexivity].
  - apply runs_ret_inv in H. destruct H as [-> H]. inversion H; subst.
    exists ([line] ++ tr). split; [rewrite <- app_assoc; reflexivity |].
    split; [| intros Hn; discriminate Hn].
    rewrite countCmdRun_app, Htr. apply le_S, le_S, le_n.
Qed.

(** X14.  Whatever the environment answers, the URL that [GetURL] returns
    is "tcp://", a public address of the server that is not empty, and
    ":2376"; and the command that [GetSSHCommand] returns is for such an
    address, port 22, the user root and the key "id_rsa" of the driver's
    store path, with the arguments asked for. *)
Theorem addresses_never_empty (d d' : Driver) (h h' : History) :
  (forall u,
     runs env (GetURL d) h h' (d', inl u) ->
     exists c s,
       runs env (getServer d) h h' (d', inl (c, s))
       /\ publicIPFromServer s <> EmptyString
       /\ u = ("tcp://" ++ publicIPFromServer s ++ ":2376")%string)
  /\
  (forall args cmd,
     runs env (GetSSHCommand d args) h h' (d', inl cmd) ->
     exists c s,
       runs env (getServer d) h h' (d', inl (c, s))
       /\ ssh.host cmd = publicIPFromServer s
       /\ ssh.host cmd <> EmptyString
       /\ ssh.port cmd = 22%Z
       /\ ssh.user cmd = "root"
       /\ ssh.sshKey cmd = filepath_Join (storePath d) "id_rsa"
       /\ ssh.args cmd = args).
Proof.
  split.
  - intros u H. unfold GetURL, GetIP in H. cbv zeta in H.
    apply runs_bind_inv in H. destruct H as (h1 & [d1 rip] & Hip & H).
    apply runs_bind_inv in Hip. destruct Hip as (h2 & [d2 rs] & Hgs & Hip).
    cbv beta iota in Hip, H.
    destruct rs as [[c s] | [s e]].
    + destruct (isEmpty (publicIPFromServer s)) eqn:He; cbn [negb] in Hip;
        apply runs_ret_inv in Hip; destruct Hip as [-> Hip];
        inversion Hip; subst; cbv beta iota in H;
        apply runs_ret_inv in H; destruct H as [-> H]; inversion H; subst.
      exists c, s. split; [exact Hgs |].
      split; [apply isEmpty_false; exact He | reflexivity].
    + apply runs_ret_inv in Hip. destruct Hip as [-> Hip].
      inversion Hip; subst. cbv beta iota in H.
      apply runs_ret_inv in H. destruct H as [_ H]. inversion H.
  - intros args cmd H.
    pose proof (GetSSHCommand_frame _ _ _ _ _ _ H) as Hf.
    destruct (GetSSHCommand_returns _ _ _ _ _ _ H) as (c & s & Hgs & Hip & ->).
    exists c, s. split; [exact Hgs |]. cbn.
    repeat split; try assumption.
    unfold sshKeyPath. destruct Hf as [-> | [cr ->]]; reflexivity.
Qed.


End OperationFacts.

Section ProvisionFacts.

Context {imported : Imported} (env : Env).

(** ** The steps of provisioning *)

Lemma errorLines_count (err : error) :
  List.length (errorLines err) = countMessages err
  /\ Forall (fun x => isErrorLine x = true) (errorLines err).
Proof.
  destruct err as [code errs | msg]; cbn [errorLines countMessages];
    [| split; [reflexivity | constructor]].
  induction errs as [| fms errs [IH1 IH2]]; [split; [reflexivity | constructor] |].
  cbn [flat_map List.map list_sum]. split.
  - rewrite length_app, length_map, IH1. reflexivity.
  - apply Forall_app. split; [| exact IH2].
    induction (snd fms) as [| m ms IHm]; cbn [List.map]; constructor;
      [reflexivity | exact IHm].
Qed.

(** X16.  Whatever the environment answers, [logAndReturnError] returns
    the error it was given, and what it calls is one log line at the level
    of errors for each message the error carries: none for an error that is
    not a [RequestError]. *)
Theorem logAndReturnError_returns_argument (err r : error) (h h' : History) :
  runs env (logAndReturnError err) h h' r ->
  r = err
  /\ exists tr, h' = h ++ tr
                /\ List.length tr = countMessages err
                /\ Forall (fun x => isErrorLine x = true) tr.
Proof.
  intros H.
  destruct (runs_det _ _ _ _ _ _ _ H (logAndReturnError_runs env err h))
    as [-> ->].
  split; [reflexivity |]. exists (errorLines err).
  split; [reflexivity | apply errorLines_count].
Qed.

Lemma logAndReturnError_extends (err : error) :
  makesOnly env anyCall (logAndReturnError err).
Proof. unfold logAndReturnError. only_calls. Qed.

(** What [createServer] leaves in the driver. *)
Lemma createServer_driver (d d' : Driver) (c : clcgo.Client) (h h' : History)
    (s : clcgo.Server) (r : option error) :
  runs env (createServer d c) h h' (d', (s, r)) ->
  match r with
  | Some _ => d' = d
  | None =>
      d' = setServerID d (clcgo.ID s)
      /\ exists hp s1,
           h' = hp ++ [GetServer c s1;
                       Logf InfoLevel "Server '%s' is provisioned"
                         [ArgS (clcgo.Name s)]]
           /\ env (GetServer c s1) hp = (s, None)
  end.
Proof.
  unfold createServer. cbv zeta. intros H. run_inv H; try reflexivity.
  split; [reflexivity |].
  eexists _, _. split; [rewrite <- app_assoc; reflexivity | eassumption].
Qed.

(** X17.  Whatever the environment answers, [createServer] starts by
    logging a line and submitting the server built from the driver's
    configuration; it records an identifier in the driver only when it
    returns no error, and the identifier is that of the server it returns,
    which is what the fetch made last, before the closing log line,
    answered; when it returns an error the driver is as it was. *)
Theorem createServer_records_identifier (d d' : Driver) (c : clcgo.Client)
    (h h' : History) (s : clcgo.Server) (r : option error) :
  runs env (createServer d c) h h' (d', (s, r)) ->
  (exists tr,
      h' = h ++ creationLog :: SaveServer c (requestedServer d) :: tr)
  /\
  match r with
  | Some _ => d' = d
  | None =>
      d' = setServerID d (clcgo.ID s)
      /\ exists hp s1,
           h' = hp ++ [GetServer c s1;
                       Logf InfoLevel "Server '%s' is provisioned"
                         [ArgS (clcgo.Name s)]]
           /\ env (GetServer c s1) hp = (s, None)
  end.
Proof.
  intros H. split; [| exact (createServer_driver _ _ _ _ _ _ _ H)].
  unfold createServer in H. cbv zeta in H.
  apply runs_bind_inv in H. destruct H as (h1 & u & Hl & H).
  apply runs_call_inv in Hl. destruct Hl as [-> _].
  apply runs_bind_inv in H. destruct H as (h2 & a & Hs & H).
  apply runs_call_inv in Hs. destruct Hs as [-> _].
  pose proof logAndReturnError_extends as Hlog.
  match type of H with
  | runs _ ?k _ _ _ => assert (Hk : makesOnly env anyCall k) by only_calls
  end.
  destruct (Hk _ _ _ H) as (tr & -> & _).
  exists tr. rewrite <- !app_assoc. reflexivity.
Qed.


(** ** Establishing trust *)

(** X19.  Whatever the environment answers, a [generateAndWriteSSHKey]
    that returns no error has made, in this order and nothing else: the
    fetch of the server's credentials, the wait for port 22 of its public
    address, the dialling as root with the password fetched, the opening of
    a session, the generation of the key at the driver's key path, the read
    of the ".pub" file beside it, the command that appends what was read to
    the authorized keys, and the closing of the connection. *)
Theorem generateAndWriteSSHKey_sequence (d : Driver) (c : clcgo.Client)
    (s : clcgo.Server) (h h' : History) :
  runs env (generateAndWriteSSHKey d c s) h h' None ->
  exists cr pk,
    env (GetCredentials c (credentialsOf s)) h = (cr, None)
    /\ h' = h ++ trustCalls d c s (clcgo.Password cr) pk
    /\ env (ReadFile (sshKeyPath d ++ ".pub")%string)
           (h ++ firstn 7 (trustCalls d c s (clcgo.Password cr) pk))
       = (pk, None).
Proof.
  unfold generateAndWriteSSHKey. cbv zeta. intros H. run_inv H.
  fold (credentialsOf s) (sshAddressOf s) in *.
  match goal with
  | Hc : env (GetCredentials c (credentialsOf s)) h = (?cr, None),
    Hp : env (ReadFile _) _ = (?pk, None) |- _ =>
      exists cr, pk; split; [exact Hc |]; split;
        [| rewrite <- Hp; f_equal]
  end;
  unfold trustCalls, reachCalls; cbn [app firstn];
    rewrite <- ?app_assoc; reflexivity.
Qed.

(** X20.  Once [generateAndWriteSSHKey] has fetched the credentials, the
    port answers and the dialling succeeds, every run closes the
    connection as its last call and only then, whatever fails afterwards;
    and when the dialling fails, its error is returned and nothing is
    closed. *)
Theorem generateAndWriteSSHKey_closes (d : Driver) (c : clcgo.Client)
    (s : clcgo.Server) (h : History) (cr : clcgo.Credentials) :
  env (GetCredentials c (credentialsOf s)) h = (cr, None) ->
  env (WaitForTCP (sshAddressOf s))
      (h ++ firstn 2 (reachCalls c s)) = None ->
  let dial := Dial "tcp" (sshAddressOf s) "root" (clcgo.Password cr) in
  (env dial (h ++ reachCalls c s) = None ->
   forall h' r,
     runs env (generateAndWriteSSHKey d c s) h h' r ->
     exists tr,
       h' = h ++ reachCalls c s ++ dial :: tr ++ [ClientClose]
       /\ Forall (fun x => isClose x = false) tr)
  /\
  (forall e,
     env dial (h ++ reachCalls c s) = Some e ->
     runs env (generateAndWriteSSHKey d c s) h
       (h ++ reachCalls c s ++ [dial]) (Some e)).
Proof.
  intros Hcr Hwait dial. cbn [firstn reachCalls] in Hwait. split.
  - intros Hdial h' r H.
    unfold generateAndWriteSSHKey in H. cbv zeta in H.
    fold (credentialsOf s) (sshAddressOf s) in H.
    apply runs_bind_inv in H. destruct H as (h1 & a & Hc & H).
    apply runs_call_inv in Hc. destruct Hc as [-> ->].
    rewrite Hcr in H. cbv beta iota in H.
    apply runs_bind_inv in H. destruct H as (h1 & u & Hc & H).
    apply runs_call_inv in Hc. destruct Hc as [-> _].
    apply runs_bind_inv in H. destruct H as (h1 & a & Hc & H).
    apply runs_call_inv in Hc. destruct Hc as [-> ->].
    rewrite <- app_assoc in H. cbn [app] in H. rewrite Hwait in H.
    apply runs_bind_inv in H. destruct H as (h1 & u' & Hc & H).
    apply runs_call_inv in Hc. destruct Hc as [-> _].
    apply runs_bind_inv in H. destruct H as (h1 & a & Hc & H).
    apply runs_call_inv in Hc. destruct Hc as [-> ->].
    rewrite <- !app_assoc in H. cbn [app] in H.
    fold dial in H. unfold reachCalls in Hdial. rewrite Hdial in H.
    apply runs_bind_inv in H. destruct H as (h1 & r0 & Hin & H).
    match type of Hin with
    | runs _ ?k _ _ _ =>
        assert (Hk : makesOnly env (fun x => isClose x = false) k) by only_calls
    end.
    destruct (Hk _ _ _ Hin) as (tr & -> & Htr).
    apply runs_bind_inv in H. destruct H as (h1 & u'' & Hc & H).
    apply runs_call_inv in Hc. destruct Hc as [-> _].
    apply runs_ret_inv in H. destruct H as [-> _].
    exists tr. split; [| exact Htr].
    unfold reachCalls. rewrite <- !app_assoc. reflexivity.
  - intros e Hdial. unfold generateAndWriteSSHKey. cbv zeta.
    fold (credentialsOf s) (sshAddressOf s).
    run_call. rewrite Hcr. cbv beta iota. run_call. run_call.
    rewrite <- app_assoc. cbn [app]. rewrite Hwait.
    run_call. run_call. rewrite <- !app_assoc. cbn [app].
    fold dial. unfold reachCalls in Hdial. rewrite Hdial.
    eapply runs_eq; [apply runs_ret | | reflexivity].
    unfold reachCalls. rewrite <- ?app_assoc. reflexivity.
Qed.

(** ** What provisioning leaves in the driver *)

Lemma commandMethod_frame (line : Call) (d d' : Driver) (args : list string)
    (h h' : History) (r : option error) :
  runs env
    (call line;;
     '(d, r) <- GetSSHCommand d args;;
     match r with
     | inr err => Ret (d, Some err)
     | inl cmd =>
         err <- call (CmdRun cmd);;
         match err with
         | Some err => Ret (d, Some err)
         | None => Ret (d, None)
         end
     end) h h' (d', r) ->
  samePair d d'.
Proof.
  intros H.
  apply runs_bind_inv in H. destruct H as (h1 & u & Hl & H).
  apply runs_bind_inv in H. destruct H as (h2 & [d2 rc] & Hc & H).
  apply GetSSHCommand_frame in Hc. cbv beta iota in H.
  run_inv H; exact Hc.
Qed.

(** X21.  No rollback: once [createServer] has succeeded inside [Create],
    the driver that [Create] returns records the identifier of the server
    created, whether the later steps succeed or fail. *)
Theorem Create_keeps_identifier (d d1 d2 : Driver) (h h1 h2 : History)
    (c : clcgo.Client) (s : clcgo.Server) :
  runs env (getClientWithPersistence d) h h1 (d1, inl c) ->
  runs env (createServer d1 c) h1 h2 (d2, (s, None)) ->
  forall h' d' r,
    runs env (Create d) h h' (d', r) ->
    ServerID d' = clcgo.ID s.
Proof.
  intros Hc Hs h' d' r H.
  pose proof (createServer_driver _ _ _ _ _ _ _ Hs) as [Hd2 _].
  assert (Hid : ServerID d2 = clcgo.ID s) by (rewrite Hd2; reflexivity).
  unfold Create in H.
  apply runs_bind_inv in H. destruct H as (hx & a & Ha & H).
  destruct (runs_det _ _ _ _ _ _ _ Ha Hc) as [-> ->]. cbv beta iota in H.
  apply runs_bind_inv in H. destruct H as (hx & a & Ha' & H).
  destruct (runs_det _ _ _ _ _ _ _ Ha' Hs) as [-> ->]. cbv beta iota in H.
  apply runs_bind_inv in H. destruct H as (h3 & [s3 r3] & _ & H).
  cbv beta iota in H.
  destruct r3 as [e |];
    [apply runs_ret_inv in H; destruct H as [_ H]; inversion H; subst;
     exact Hid |].
  apply runs_bind_inv in H. destruct H as (h4 & r4 & _ & H).
  destruct r4 as [e |];
    [apply runs_ret_inv in H; destruct H as [_ H]; inversion H; subst;
     exact Hid |].
  apply runs_bind_inv in H. destruct H as (h5 & [d5 r5] & H5 & H).
  unfold setHostname in H5. apply commandMethod_frame in H5.
  apply samePair_ServerID in H5. cbv beta iota in H.
  destruct r5 as [e |];
    [apply runs_ret_inv in H; destruct H as [_ H]; inversion H; subst;
     rewrite H5; exact Hid |].
  apply runs_bind_inv in H. destruct H as (h6 & [d6 r6] & H6 & H).
  unfold installDocker in H6. apply commandMethod_frame in H6.
  apply samePair_ServerID in H6. cbv beta iota in H.
  destruct r6 as [e |];
    apply runs_ret_inv in H; destruct H as [_ H]; inversion H; subst;
    rewrite H6, H5; exact Hid.
Qed.

End ProvisionFacts.

(** * Sample runs *)

Section Samples.

#[local] Existing Instance sampleImported.

Lemma sample_client (s : Script) (h : History) :
  on_GetDataCenters s = None ->
  runs (scripted s) (getClientWithPersistence sampleDriver) h
    (h ++ [GetDataCenters sampleClient]) (sampleDriver, inl sampleClient).
Proof.
  intros Hp.
  apply (getClientWithPersistence_accepted (scripted s) sampleDriver h
           eq_refl eq_refl Hp).
Qed.

Lemma sample_server (s : Script) (h : History) (srv : clcgo.Server) :
  on_GetDataCenters s = None ->
  on_GetServer s = (srv, None) ->
  runs (scripted s) (getServer sampleDriver) h (h ++ resolved)
    (sampleDriver, inl (sampleClient, srv)).
Proof.
  intros Hp Hs.
  pose proof (getServer_found (scripted s) sampleDriver sampleDriver h _
                sampleClient srv (sample_client s h Hp) Hs) as H.
  rewrite <- app_assoc in H. exact H.
Qed.

Lemma scripted_answers (s : Script) (h0 : History) :
  countStatus h0 = 0 ->
  answersStatus (scripted s) h0 (on_GetStatus s).
Proof.
  intros H0 h c st r Hn. cbn [scripted].
  rewrite countStatus_app, H0. cbn [Nat.add].
  apply nth_error_nth. exact Hn.
Qed.

Lemma doOperation_drops_submission_error_witness :
  let env := scripted (withSave (pending, Some timedOut) allWell) in
  let log := operationLog clcgo.PowerOnServer running in
  let save := operationSave sampleClient running clcgo.PowerOnServer in
  runs env (getServer sampleDriver) [] resolved
    (sampleDriver, inl (sampleClient, running))
  /\ env save (resolved ++ [log]) = (pending, Some timedOut)
  /\ runs env (Start sampleDriver) [] (resolved ++ [log; save])
       (sampleDriver, None).
Proof.
  intros env log save.
  assert (Hgs : runs env (getServer sampleDriver) [] resolved
                  (sampleDriver, inl (sampleClient, running)))
    by (apply (sample_server _ [] running); reflexivity).
  split; [exact Hgs |]. split; [reflexivity |].
  destruct (doOperation_drops_submission_error env sampleDriver sampleDriver
              [] resolved sampleClient running Hgs) as (_ & HStart & _).
  apply HStart. exists pending, timedOut. reflexivity.
Defined.

Lemma doOperation_waits_for_success_witness :
  let env := scripted allWell in
  let log := operationLog clcgo.RebootServer running in
  let save := operationSave sampleClient running clcgo.RebootServer in
  let polled :=
    pollTrace (trackedRound "Operation status: %s" sampleClient) pending
      [pending; executing; succeeded] in
  runs env (getServer sampleDriver) [] resolved
    (sampleDriver, inl (sampleClient, running))
  /\ env save (resolved ++ [log]) = (pending, None)
  /\ HasSucceeded pending = false
  /\ Forall notSucceeded [pending; executing]
  /\ runs env (doOperation clcgo.RebootServer sampleDriver) []
       ((resolved ++ [log; save]) ++ polled) (sampleDriver, None)
  /\ countStatus polled = 3.
Proof.
  intros env log save polled.
  assert (Hgs : runs env (getServer sampleDriver) [] resolved
                  (sampleDriver, inl (sampleClient, running)))
    by (apply (sample_server _ [] running); reflexivity).
  assert (Hsts : Forall notSucceeded [pending; executing])
    by (repeat constructor).
  split; [exact Hgs |]. split; [reflexivity |]. split; [reflexivity |].
  split; [exact Hsts |].
  destruct (doOperation_waits_for_success env clcgo.RebootServer
              sampleDriver sampleDriver [] resolved sampleClient running
              pending Hgs eq_refl) as [_ H].
  destruct (H eq_refl [pending; executing] succeeded Hsts eq_refl)
    as (Hrun & _ & Hn & _).
  - apply scripted_answers. reflexivity.
  - split; [exact Hrun | exact Hn].
Defined.

Lemma getClientWithPersistence_cached_witness :
  let env := scripted (withProbe (Some unauthorized) allWell) in
  let login := GetAPICredentials sampleClient "user" "secret" in
  isEmpty (BearerToken sampleDriver) = false
  /\ isEmpty (AccountAlias sampleDriver) = false
  /\ runs env (getClientWithPersistence sampleDriver) []
       [GetDataCenters sampleClient; login]
       (setAPICredentials sampleDriver freshCredentials,
        inl {| clcgo.Credentials_of := freshCredentials |}).
Proof.
  intros env login. split; [reflexivity |]. split; [reflexivity |].
  destruct (getClientWithPersistence_cached env sampleDriver []
              eq_refl eq_refl) as (_ & H401 & _).
  destruct (H401 [] eq_refl) as [Hpw _].
  destruct (Hpw eq_refl freshCredentials) as [Hok _].
  destruct (Hok eq_refl) as [Hrun _]. exact Hrun.
Defined.

Lemma getServer_not_found_witness :
  let env := scripted (withServer (clcgo.zeroServer, Some notFound) allWell) in
  runs env (getClientWithPersistence sampleDriver) []
    [GetDataCenters sampleClient] (sampleDriver, inl sampleClient)
  /\ runs env (getServer sampleDriver) [] resolved
       (sampleDriver,
        inr (clcgo.zeroServer,
             errorString "unable to find a server with the ID 'ca1acctdemo01'")).
Proof.
  intros env.
  assert (Hc : runs env (getClientWithPersistence sampleDriver) []
                 [GetDataCenters sampleClient] (sampleDriver, inl sampleClient))
    by (apply (sample_client _ []); reflexivity).
  split; [exact Hc |].
  destruct (getServer_not_found env sampleDriver sampleDriver [] _
              sampleClient clcgo.zeroServer notFound Hc eq_refl) as [H _].
  apply (H [] eq_refl).
Defined.

Lemma GetIP_first_public_witness :
  let env := scripted allWell in
  runs env (getServer sampleDriver) [] resolved
    (sampleDriver, inl (sampleClient, running))
  /\ runs env (GetIP sampleDriver) [] resolved
       (sampleDriver, inl "203.0.113.7").
Proof.
  intros env.
  assert (Hgs : runs env (getServer sampleDriver) [] resolved
                  (sampleDriver, inl (sampleClient, running)))
    by (apply (sample_server _ [] running); reflexivity).
  split; [exact Hgs |].
  destruct (GetIP_first_public env sampleDriver sampleDriver [] resolved
              sampleClient running Hgs) as [H _].
  apply (H [privateAddress] publicAddress []).
  - reflexivity.
  - repeat constructor.
  - discriminate.
Defined.

Lemma GetState_maps_witness :
  let env := scripted allWell in
  runs env (getServer sampleDriver) [] resolved
    (sampleDriver, inl (sampleClient, running))
  /\ IsActive running = true
  /\ runs env (GetState sampleDriver) [] resolved
       (sampleDriver, (state.Running, None)).
Proof.
  intros env.
  assert (Hgs : runs env (getServer sampleDriver) [] resolved
                  (sampleDriver, inl (sampleClient, running)))
    by (apply (sample_server _ [] running); reflexivity).
  split; [exact Hgs |]. split; [reflexivity |].
  destruct (GetState_maps env sampleDriver sampleDriver [] resolved) as [H _].
  destruct (H sampleClient running Hgs) as [Hrun _].
  apply Hrun. reflexivity.
Defined.

Lemma status_fetch_failure_aborts_witness :
  let env :=
    scripted (withStatuses [reported executing; (executing, Some timedOut)]
                allWell) in
  let log := operationLog clcgo.PowerOnServer running in
  let save := operationSave sampleClient running clcgo.PowerOnServer in
  Forall notSucceeded [executing]
  /\ runs env (doOperation clcgo.PowerOnServer sampleDriver) []
       ((resolved ++ [log; save])
          ++ pollTrace (trackedRound "Operation status: %s" sampleClient)
               pending [executing]
          ++ [statusWait; GetStatus sampleClient executing])
       (sampleDriver, Some timedOut).
Proof.
  intros env log save.
  assert (Hsts : Forall notSucceeded [executing]) by (repeat constructor).
  split; [exact Hsts |].
  destruct (status_fetch_failure_aborts env [executing] executing timedOut Hsts)
    as [H _].
  apply (H clcgo.PowerOnServer sampleDriver sampleDriver [] resolved
           sampleClient running pending).
  - apply (sample_server _ [] running); reflexivity.
  - reflexivity.
  - reflexivity.
  - apply scripted_answers. reflexivity.
Defined.

Lemma Remove_propagates_submission_error_witness :
  let env := scripted (withSave (pending, Some timedOut) allWell) in
  runs env (getServer sampleDriver) [] resolved
    (sampleDriver, inl (sampleClient, running))
  /\ runs env (Remove sampleDriver) []
       (resolved ++ [DeleteServer sampleClient running])
       (sampleDriver, Some timedOut).
Proof.
  intros env.
  assert (Hgs : runs env (getServer sampleDriver) [] resolved
                  (sampleDriver, inl (sampleClient, running)))
    by (apply (sample_server _ [] running); reflexivity).
  split; [exact Hgs |].
  destruct (Remove_propagates_submission_error env sampleDriver sampleDriver
              [] resolved sampleClient running Hgs) as [H _].
  apply (H pending timedOut). reflexivity.
Defined.

Lemma Upgrade_runs_twice_witness :
  let env :=
    scripted (withCmdRun [None; Some (errorString "exec: already started")]
                allWell) in
  let line := Logf DebugLevel "Upgrading Docker" [] in
  let cmd :=
    ssh.GetSSHCommand "203.0.113.7" 22 "root" "/store/demo/id_rsa"
      ["sudo apt-get update && apt-get install --upgrade lxc-docker"] in
  runs env
    (GetSSHCommand sampleDriver
       ["sudo apt-get update && apt-get install --upgrade lxc-docker"])
    ([] ++ [line]) ([line] ++ resolved) (sampleDriver, inl cmd)
  /\ runs env (Upgrade sampleDriver) []
       (([line] ++ resolved) ++ [CmdRun cmd; CmdRun cmd])
       (sampleDriver, Some (errorString "exec: already started")).
Proof.
  intros env line cmd.
  assert (Hcmd : runs env
                   (GetSSHCommand sampleDriver
                      ["sudo apt-get update && apt-get install --upgrade lxc-docker"])
                   ([] ++ [line]) ([line] ++ resolved) (sampleDriver, inl cmd)).
  { eapply runs_eq.
    - apply (GetSSHCommand_found env sampleDriver sampleDriver _ _
               sampleClient running).
      + apply (sample_server _ [line] running); reflexivity.
      + discriminate.
    - reflexivity.
    - reflexivity. }
  split; [exact Hcmd |].
  destruct (Upgrade_runs_twice env sampleDriver sampleDriver [] _ cmd Hcmd)
    as [_ H].
  apply H. reflexivity.
Defined.

Lemma Create_steps_in_order_witness :
  let env := scripted (withAttach (pending, Some timedOut) allWell) in
  runs env (getClientWithPersistence sampleDriver) []
    [GetDataCenters sampleClient] (sampleDriver, inl sampleClient)
  /\ exists h3,
       runs env (Create sampleDriver) [] h3
         (setServerID sampleDriver "ca1acctdemo01", Some timedOut)
       /\ Forall beforeTrust h3.
Proof.
  intros env.
  assert (Hc : runs env (getClientWithPersistence sampleDriver) []
                 [GetDataCenters sampleClient] (sampleDriver, inl sampleClient))
    by (apply (sample_client _ []); reflexivity).
  split; [exact Hc |].
  destruct (Create_steps_in_order env sampleDriver sampleDriver [] _
              sampleClient Hc) as (_ & H & _).
  pose proof (createServer_succeeds env sampleDriver sampleClient
                [GetDataCenters sampleClient] (requestedServer sampleDriver)
                running pending succeeded [pending; executing]) as H2.
  cbv zeta in H2.
  specialize (H2 eq_refl eq_refl).
  assert (Hsts : Forall notSucceeded [pending; executing])
    by (repeat constructor).
  specialize (H2 Hsts eq_refl).
  assert (Hans : answersStatus env
                   ([GetDataCenters sampleClient]
                      ++ [creationLog;
                          SaveServer sampleClient (requestedServer sampleDriver)])
                   (List.map reported ([pending; executing] ++ [succeeded])))
    by (apply scripted_answers; reflexivity).
  specialize (H2 Hans eq_refl).
  destruct (H _ _ _ H2) as [Hfail _].
  match type of H2 with
  | runs _ _ _ ?h2 _ =>
      pose proof (addPublicIPAddress_save_failed env
                    (setServerID sampleDriver (clcgo.ID running)) sampleClient
                    running h2 pending timedOut eq_refl) as H3
  end.
  destruct (Hfail _ _ _ H3) as [Hrun (tr & Heq & Htr)].
  eexists. split; [exact Hrun |].
  rewrite Heq. exact Htr.
Defined.

End Samples.

(** * Sample runs of the further properties *)

Section MoreSamples.

#[local] Existing Instance sampleImported.

Lemma SetConfigFromFlags_reads_declared_witness :
  agreeOn getCreateFlags sampleOptions otherOptions
  /\ SetConfigFromFlags sampleDriver sampleOptions
     = SetConfigFromFlags sampleDriver otherOptions.
Proof.
  assert (H : agreeOn getCreateFlags sampleOptions otherOptions).
  { intros f Hin. cbn [getCreateFlags In] in Hin.
    repeat (destruct Hin as [<- | Hin]; [reflexivity |]). contradiction. }
  split; [exact H |].
  exact (SetConfigFromFlags_reads_declared sampleDriver _ _ H).
Defined.

Lemma sample_login (h : History) :
  runs (scripted allWell) (updateAPICredentials sampleDriver sampleClient) h
    (h ++ [GetAPICredentials sampleClient "user" "secret"])
    (setAPICredentials sampleDriver freshCredentials,
     {| clcgo.Credentials_of := freshCredentials |}, None).
Proof.
  eapply runs_eq.
  - apply (updateAPICredentials_password (scripted allWell) sampleDriver
             sampleClient h eq_refl).
  - reflexivity.
  - reflexivity.
Qed.

Lemma updateAPICredentials_password_source_witness :
  runs (scripted allWell) (updateAPICredentials sampleDriver sampleClient) []
    [GetAPICredentials sampleClient "user" "secret"]
    (setAPICredentials sampleDriver freshCredentials,
     {| clcgo.Credentials_of := freshCredentials |}, None)
  /\ Password (setAPICredentials sampleDriver freshCredentials) = "secret".
Proof.
  pose proof (sample_login []) as H. split; [exact H |].
  destruct (updateAPICredentials_password_source (scripted allWell)
              _ _ _ _ _ _ _ H) as [Hp _].
  exact Hp.
Defined.

Lemma sample_first_client (h : History) :
  runs (scripted allWell) (getClientWithPersistence newDriver) h
    (h ++ [GetAPICredentials clcgo.NewClient "user" "secret"])
    (setAPICredentials newDriver freshCredentials,
     inl {| clcgo.Credentials_of := freshCredentials |}).
Proof.
  apply (getClientWithPersistence_first (scripted allWell) newDriver h
           freshCredentials eq_refl).
  - discriminate.
  - reflexivity.
Qed.

Lemma getClientWithPersistence_without_pair_witness :
  isEmpty (BearerToken newDriver) || isEmpty (AccountAlias newDriver) = true
  /\ runs (scripted allWell) (getClientWithPersistence newDriver) []
       [GetAPICredentials clcgo.NewClient "user" "secret"]
       (setAPICredentials newDriver freshCredentials,
        inl {| clcgo.Credentials_of := freshCredentials |})
  /\ exists tr,
       [GetAPICredentials clcgo.NewClient "user" "secret"] = [] ++ tr
       /\ Forall (fun x => isProbe x = false) tr.
Proof.
  pose proof (sample_first_client []) as H.
  split; [reflexivity |]. split; [exact H |].
  destruct (getClientWithPersistence_without_pair (scripted allWell)
              newDriver _ _ _ _ eq_refl H) as [Htr _].
  exact Htr.
Defined.

Lemma getServer_fetches_with_cached_pair_witness :
  runs (scripted allWell) (getServer sampleDriver) [] resolved
    (sampleDriver, inl (sampleClient, running))
  /\ clcgo.Credentials_of sampleClient = cachedPair sampleDriver.
Proof.
  assert (Hgs : runs (scripted allWell) (getServer sampleDriver) [] resolved
                  (sampleDriver, inl (sampleClient, running)))
    by (apply (sample_server _ [] running); reflexivity).
  split; [exact Hgs |].
  destruct (getServer_fetches_with_cached_pair (scripted allWell)
              _ _ _ _ _ _ Hgs) as [Hp _].
  exact Hp.
Defined.

Lemma getClientWithPersistence_again_witness :
  let h1 := [GetDataCenters sampleClient] in
  runs (scripted allWell) (getClientWithPersistence sampleDriver) [] h1
    (sampleDriver, inl sampleClient)
  /\ runs (scripted allWell) (getClientWithPersistence sampleDriver) h1
       (h1 ++ [GetDataCenters sampleClient]) (sampleDriver, inl sampleClient).
Proof.
  intros h1.
  assert (Hc : runs (scripted allWell) (getClientWithPersistence sampleDriver)
                 [] h1 (sampleDriver, inl sampleClient))
    by (apply (sample_client _ []); reflexivity).
  split; [exact Hc |].
  apply (getClientWithPersistence_again (scripted allWell) _ _ _ _ _ Hc).
  - discriminate.
  - discriminate.
  - reflexivity.
Defined.

Lemma new_driver_authenticates_first_witness :
  drivers.String sampleOptions "centurylinkcloud-password" <> EmptyString
  /\ runs (scripted allWell) (getClientWithPersistence newDriver) []
       [GetAPICredentials clcgo.NewClient "user" "secret"]
       (setAPICredentials newDriver freshCredentials,
        inl {| clcgo.Credentials_of := freshCredentials |}).
Proof.
  assert (Hpw : drivers.String sampleOptions "centurylinkcloud-password"
                <> EmptyString) by discriminate.
  split; [exact Hpw |].
  destruct (new_driver_authenticates_first (scripted allWell)
              "demo" "/store/demo" "ca.pem" "key.pem" sampleOptions []
              freshCredentials Hpw eq_refl) as [H _].
  exact H.
Defined.

Lemma unknown_server_stops_witness :
  let env := scripted (withServer (clcgo.zeroServer, Some notFound) allWell) in
  runs env (getClientWithPersistence sampleDriver) []
    [GetDataCenters sampleClient] (sampleDriver, inl sampleClient)
  /\ runs env (Remove sampleDriver) [] resolved
       (sampleDriver,
        Some (errorString
                "unable to find a server with the ID 'ca1acctdemo01'")).
Proof.
  intros env.
  assert (Hc : runs env (getClientWithPersistence sampleDriver) []
                 [GetDataCenters sampleClient] (sampleDriver, inl sampleClient))
    by (apply (sample_client _ []); reflexivity).
  split; [exact Hc |].
  destruct (unknown_server_stops env sampleDriver sampleDriver [] _
              sampleClient clcgo.zeroServer [] Hc eq_refl)
    as (_ & _ & _ & _ & _ & H & _).
  exact H.
Defined.


Lemma logAndReturnError_returns_argument_witness :
  runs (scripted allWell) (logAndReturnError rejected) []
    (errorLines rejected) rejected
  /\ List.length (errorLines rejected) = 2.
Proof.
  pose proof (logAndReturnError_runs (scripted allWell) rejected []) as H.
  split; [exact H |].
  destruct (logAndReturnError_returns_argument (scripted allWell) _ _ _ _ H)
    as (_ & tr & Heq & Hlen & _).
  cbn [app] in Heq. rewrite Heq. exact Hlen.
Defined.

Lemma sample_created (sc : Script) :
  on_Save sc = (pending, None) ->
  on_GetStatus sc
    = [reported pending; reported executing; reported succeeded] ->
  on_GetServer sc = (running, None) ->
  exists h2,
    runs (scripted sc) (createServer sampleDriver sampleClient)
      [GetDataCenters sampleClient] h2
      (setServerID sampleDriver "ca1acctdemo01", (running, None)).
Proof.
  intros Hsave Hst Hget.
  pose proof (createServer_succeeds (scripted sc) sampleDriver sampleClient
                [GetDataCenters sampleClient] (requestedServer sampleDriver)
                running pending succeeded [pending; executing]) as H.
  cbv zeta in H.
  assert (Hsts : Forall notSucceeded [pending; executing])
    by (repeat constructor).
  eexists. apply H.
  - cbn [scripted]. rewrite Hsave. reflexivity.
  - reflexivity.
  - exact Hsts.
  - reflexivity.
  - pose proof (scripted_answers sc
                  ([GetDataCenters sampleClient]
                     ++ [creationLog;
                         SaveServer sampleClient (requestedServer sampleDriver)])
                  eq_refl) as Ha.
    rewrite Hst in Ha. exact Ha.
  - cbn [scripted]. exact Hget.
Qed.

Lemma createServer_records_identifier_witness :
  exists h2,
    runs (scripted allWell) (createServer sampleDriver sampleClient)
      [GetDataCenters sampleClient] h2
      (setServerID sampleDriver "ca1acctdemo01", (running, None))
    /\ exists tr,
         h2 = [GetDataCenters sampleClient]
              ++ creationLog
                 :: SaveServer sampleClient (requestedServer sampleDriver) :: tr.
Proof.
  destruct (sample_created allWell eq_refl eq_refl eq_refl) as [h2 H].
  exists h2. split; [exact H |].
  destruct (createServer_records_identifier (scripted allWell)
              _ _ _ _ _ _ _ H) as [Htr _].
  exact Htr.
Defined.

Lemma sample_trust (h : History) :
  runs (scripted allWell)
    (generateAndWriteSSHKey sampleDriver sampleClient running) h
    (h ++ trustCalls sampleDriver sampleClient running
            "root-password" "ssh-rsa AAAA")
    None.
Proof.
  unfold generateAndWriteSSHKey. cbv zeta.
  run_call. cbn [scripted allWell on_GetCredentials].
  run_call. run_call. cbn [scripted allWell on_ssh].
  run_call. run_call. cbn [scripted allWell on_ssh].
  eapply runs_bind.
  - run_call. cbn [scripted allWell on_ssh].
    run_call. cbn [scripted allWell on_ssh].
    run_call. cbn [scripted allWell on_ssh].
    run_call. run_call. cbn [scripted allWell on_ssh].
    apply runs_ret.
  - cbv beta. run_call.
    eapply runs_eq; [apply runs_ret | | reflexivity].
    unfold trustCalls, reachCalls, credentialsOf, sshAddressOf.
    rewrite <- !app_assoc. reflexivity.
Qed.

Lemma generateAndWriteSSHKey_sequence_witness :
  runs (scripted allWell)
    (generateAndWriteSSHKey sampleDriver sampleClient running) []
    (trustCalls sampleDriver sampleClient running
       "root-password" "ssh-rsa AAAA")
    None
  /\ exists cr pk,
       trustCalls sampleDriver sampleClient running
         "root-password" "ssh-rsa AAAA"
       = [] ++ trustCalls sampleDriver sampleClient running
                 (clcgo.Password cr) pk.
Proof.
  pose proof (sample_trust []) as H. split; [exact H |].
  destruct (generateAndWriteSSHKey_sequence (scripted allWell)
              _ _ _ _ _ H) as (cr & pk & _ & Heq & _).
  exists cr, pk. exact Heq.
Defined.

Lemma generateAndWriteSSHKey_closes_witness :
  let env := scripted allWell in
  let dial := Dial "tcp" (sshAddressOf running) "root" "root-password" in
  env (GetCredentials sampleClient (credentialsOf running)) []
    = (rootCredentials, None)
  /\ env (WaitForTCP (sshAddressOf running))
         ([] ++ firstn 2 (reachCalls sampleClient running)) = None
  /\ exists tr,
       trustCalls sampleDriver sampleClient running
         "root-password" "ssh-rsa AAAA"
       = [] ++ reachCalls sampleClient running
            ++ dial :: tr ++ [ClientClose]
       /\ Forall (fun x => isClose x = false) tr.
Proof.
  intros env dial. split; [reflexivity |]. split; [reflexivity |].
  destruct (generateAndWriteSSHKey_closes env sampleDriver sampleClient
              running [] rootCredentials eq_refl eq_refl) as [H _].
  exact (H eq_refl _ _ (sample_trust [])).
Defined.

Lemma Create_keeps_identifier_witness :
  let env := scripted (withAttach (pending, Some timedOut) allWell) in
  runs env (getClientWithPersistence sampleDriver) []
    [GetDataCenters sampleClient] (sampleDriver, inl sampleClient)
  /\ exists h3 d',
       runs env (Create sampleDriver) [] h3 (d', Some timedOut)
       /\ ServerID d' = "ca1acctdemo01".
Proof.
  intros env.
  assert (Hc : runs env (getClientWithPersistence sampleDriver) []
                 [GetDataCenters sampleClient] (sampleDriver, inl sampleClient))
    by (apply (sample_client _ []); reflexivity).
  split; [exact Hc |].
  destruct (sample_created (withAttach (pending, Some timedOut) allWell)
              eq_refl eq_refl eq_refl) as [h2 Hs].
  pose proof (addPublicIPAddress_save_failed env
                (setServerID sampleDriver "ca1acctdemo01") sampleClient
                running h2 pending timedOut eq_refl) as H3.
  assert (Hrun : runs env (Create sampleDriver) []
                   (h2 ++ [attachLog; attachSave sampleClient running]
                       ++ errorLines timedOut)
                   (setServerID sampleDriver "ca1acctdemo01", Some timedOut)).
  { unfold Create. eapply runs_bind; [exact Hc |]. cbv beta iota.
    eapply runs_bind; [exact Hs |]. cbv beta iota.
    eapply runs_bind; [exact H3 |]. cbv beta iota. apply runs_ret. }
  eexists _, _. split; [exact Hrun |].
  exact (Create_keeps_identifier env _ _ _ _ _ _ _ _ Hc Hs _ _ _ Hrun).
Defined.

Lemma getServer_refreshes_stale_pair_witness :
  let env := scripted (withProbe (Some unauthorized) allWell) in
  let new := {| clcgo.Credentials_of := freshCredentials |} in
  BearerToken sampleDriver <> EmptyString
  /\ AccountAlias sampleDriver <> EmptyString
  /\ Password sampleDriver <> EmptyString
  /\ runs env (getServer sampleDriver) []
       [GetDataCenters sampleClient;
        GetAPICredentials sampleClient "user" "secret";
        GetServer new (serverWithID "ca1acctdemo01")]
       (setAPICredentials sampleDriver freshCredentials, inl (new, running)).
Proof.
  intros env new.
  assert (Ht : BearerToken sampleDriver <> EmptyString) by discriminate.
  assert (Ha : AccountAlias sampleDriver <> EmptyString) by discriminate.
  assert (Hp : Password sampleDriver <> EmptyString) by discriminate.
  split; [exact Ht |]. split; [exact Ha |]. split; [exact Hp |].
  destruct (getServer_refreshes_stale_pair env sampleDriver [] []
              freshCredentials running Ht Ha Hp eq_refl eq_refl eq_refl)
    as [H _].
  exact H.
Defined.

End MoreSamples.
